(** * Dynamic test-case title builder: a shallow embedding and its properties

    Two Tk programs build a title string from a CSV table:
    - [fsw_file_namer_H.py] (module [H], "variant A" of the specification):
      every line of the file is a section, its first cell the label;
    - [fsw_file_namer_V.py] (module [V], "variant B"): every column of the
      file is a section, and columns with an empty header are folders of
      sub-options of the labeled column to their left.

    The Tk widgets are modelled by the values they hold: a [StringVar] or an
    [Entry] by its text, a [BooleanVar] by a [bool], the list [buttons] by
    the texts of the buttons, [root.quit()] by a flag.  The global variables
    of each script are the fields of a record [state], every function of the
    script is a function on that record, and an exception that leaves a
    function is an [outcome] [Raised], which keeps the state the globals had
    when it was raised (a Tk callback that raises is reported and the main
    loop goes on). *)

From stdpp Require Import base list strings.
From Stdlib Require Import Ascii.

#[local] Arguments String.append !_ _ / : simpl nomatch.

(** ** Python primitives used by the two scripts *)

Module Py.

Inductive exn := IndexError | ValueError | PermissionError.

(** The result of running a function of the script on the globals [S]. *)
Inductive outcome (S : Type) :=
| Done (s : S)
| Raised (e : exn) (s : S).
Arguments Done {S} s.
Arguments Raised {S} e s.

Definition and_then {S} (o : outcome S) (k : S -> outcome S) : outcome S :=
  match o with
  | Done s => k s
  | Raised e s => Raised e s
  end.

(** The globals after the call, whether it returned or raised. *)
Definition globals {S} (o : outcome S) : S :=
  match o with
  | Done s => s
  | Raised _ s => s
  end.

Definition LF : ascii := "010"%char.
Definition CR : ascii := "013"%char.
Definition COMMA : ascii := ","%char.

Definition nl : string := String LF EmptyString.

(** The line separators [os.linesep] can be: a line feed, or a carriage
    return and a line feed. *)
Definition crlf : string := String CR nl.
Definition cr : string := String CR EmptyString.

(** Membership of a character in the argument of [str.strip]. *)
Fixpoint mem (c : ascii) (chars : string) : bool :=
  match chars with
  | EmptyString => false
  | String d chars' => Ascii.eqb c d || mem c chars'
  end.

(** [s.lstrip(chars)] *)
Fixpoint lstrip (chars s : string) : string :=
  match s with
  | EmptyString => EmptyString
  | String c s' => if mem c chars then lstrip chars s' else s
  end.

(** [s.rstrip(chars)] *)
Fixpoint rstrip (chars s : string) : string :=
  match s with
  | EmptyString => EmptyString
  | String c s' =>
      match rstrip chars s' with
      | EmptyString => if mem c chars then EmptyString else String c EmptyString
      | r => String c r
      end
  end.

(** [s.strip(chars)]: leading characters of [chars] are dropped, then
    trailing ones. *)
Definition strip (chars s : string) : string := rstrip chars (lstrip chars s).

(** [s.split(sep)] for a one-character separator; never the empty list. *)
Fixpoint split (sep : ascii) (s : string) : list string :=
  match s with
  | EmptyString => [EmptyString]
  | String c s' =>
      if Ascii.eqb c sep then EmptyString :: split sep s'
      else match split sep s' with
           | [] => [String c EmptyString]
           | w :: ws => String c w :: ws
           end
  end.

(** [sep.join(ws)] *)
Fixpoint join (sep : string) (ws : list string) : string :=
  match ws with
  | [] => EmptyString
  | [w] => w
  | w :: ws' => w +:+ sep +:+ join sep ws'
  end.

(** What [open(file_name, 'r')] hands to the script of the characters of
    the file: the file is opened in text mode with universal newlines, so a
    carriage return followed by a line feed, and a carriage return alone,
    are read as one line feed. *)
Fixpoint universal_newlines (text : string) : string :=
  match text with
  | EmptyString => EmptyString
  | String c text' =>
      if Ascii.eqb c CR then
        match text' with
        | EmptyString => String LF EmptyString
        | String d _ =>
            if Ascii.eqb d LF then universal_newlines text'
            else String LF (universal_newlines text')
        end
      else String c (universal_newlines text')
  end.

(** What [open(file_name, 'w')] puts in the file of the text the script
    writes: in text mode every line feed is stored as [linesep], the line
    separator of the platform. *)
Fixpoint write_text (linesep text : string) : string :=
  match text with
  | EmptyString => EmptyString
  | String c text' =>
      if Ascii.eqb c LF then linesep +:+ write_text linesep text'
      else String c (write_text linesep text')
  end.

(** [file.readlines()] on the text read: the lines, each with its newline,
    the last one possibly without. *)
Fixpoint readlines (text : string) : list string :=
  match text with
  | EmptyString => []
  | String c text' =>
      if Ascii.eqb c LF then String c EmptyString :: readlines text'
      else match readlines text' with
           | [] => [String c EmptyString]
           | l :: ls => String c l :: ls
           end
  end.

(** [file.writelines(lines)] on an empty file: the text written. *)
Definition writelines (lines : list string) : string :=
  foldr String.append EmptyString lines.

(** [row.index(word)]: the first position holding [word], [None] for the
    [ValueError]. *)
Fixpoint index (word : string) (row : list string) : option nat :=
  match row with
  | [] => None
  | w :: row' => if String.eqb w word then Some 0 else S <$> index word row'
  end.

(** [list(map(list, zip( *data)))]: the columns of [data], as many as the
    shortest row has cells; no column at all for no row. *)
Fixpoint zip_star (data : list (list string)) : list (list string) :=
  match data with
  | [] => []
  | row :: rest =>
      match rest with
      | [] => (fun cell => [cell]) <$> row
      | _ => zip_with cons row (zip_star rest)
      end
  end.

(** [l[i - 1]] for a non-negative [i]: Python counts [-1] from the end. *)
Definition before {A} (l : list A) (i : nat) : option A :=
  match i with
  | 0 => last l
  | S j => l !! j
  end.

Definition nonempty (w : string) : bool := negb (String.eqb w EmptyString).

End Py.

Import Py.

Notation "'do' x <- o ; k" := (and_then o (fun x => k))
  (at level 10, x name, o at level 100, k at level 200).

(** ** [fsw_file_namer_H.py]: one section per line *)

Module H.

(** The argument of [strip] in the script, a comma and a newline. *)
Definition comma_nl : string := String COMMA nl.

(** [shown] is not a variable of the script: it is the history of the
    sections handed to the toolkit for display ([colstr1.set] followed by
    [create_word_buttons]), most recent first.  [file] is the text of
    [data_collection_template.csv]: what the file holds when the program
    starts, and after a save the text [writelines] wrote, every line feed
    of which the platform stores as its line separator (see [write_text]).
    [file_writable] is whether [open(file_name, 'w')] succeeds (it does not
    while a spreadsheet program holds the file).
    [current_line] is the position of the list
    iterator [iter(lines)], which reads the very list [lines] that
    [save_word] updates in place. *)
Record state := mk_state {
  file : string;
  file_writable : bool;
  lines : list string;
  current_line : nat;
  current_row_index : nat;
  colstr1 : string;
  entered_text : string;
  saveFlag : bool;
  altbuttonFlag : bool;
  textbox : string;
  buttons : list string;
  quit : bool;
  shown : list (string * list string)
}.

Definition set_file v st :=
  mk_state v (file_writable st) (lines st) (current_line st)
    (current_row_index st) (colstr1 st) (entered_text st) (saveFlag st)
    (altbuttonFlag st) (textbox st) (buttons st) (quit st) (shown st).
Definition set_lines v st :=
  mk_state (file st) (file_writable st) v (current_line st)
    (current_row_index st) (colstr1 st) (entered_text st) (saveFlag st)
    (altbuttonFlag st) (textbox st) (buttons st) (quit st) (shown st).
Definition set_current_line v st :=
  mk_state (file st) (file_writable st) (lines st) v
    (current_row_index st) (colstr1 st) (entered_text st) (saveFlag st)
    (altbuttonFlag st) (textbox st) (buttons st) (quit st) (shown st).
Definition set_current_row_index v st :=
  mk_state (file st) (file_writable st) (lines st) (current_line st)
    v (colstr1 st) (entered_text st) (saveFlag st)
    (altbuttonFlag st) (textbox st) (buttons st) (quit st) (shown st).
Definition set_colstr1 v st :=
  mk_state (file st) (file_writable st) (lines st) (current_line st)
    (current_row_index st) v (entered_text st) (saveFlag st)
    (altbuttonFlag st) (textbox st) (buttons st) (quit st) (shown st).
Definition set_entered_text v st :=
  mk_state (file st) (file_writable st) (lines st) (current_line st)
    (current_row_index st) (colstr1 st) v (saveFlag st)
    (altbuttonFlag st) (textbox st) (buttons st) (quit st) (shown st).
Definition set_saveFlag v st :=
  mk_state (file st) (file_writable st) (lines st) (current_line st)
    (current_row_index st) (colstr1 st) (entered_text st) v
    (altbuttonFlag st) (textbox st) (buttons st) (quit st) (shown st).
Definition set_altbuttonFlag v st :=
  mk_state (file st) (file_writable st) (lines st) (current_line st)
    (current_row_index st) (colstr1 st) (entered_text st) (saveFlag st)
    v (textbox st) (buttons st) (quit st) (shown st).
Definition set_textbox v st :=
  mk_state (file st) (file_writable st) (lines st) (current_line st)
    (current_row_index st) (colstr1 st) (entered_text st) (saveFlag st)
    (altbuttonFlag st) v (buttons st) (quit st) (shown st).
Definition set_buttons v st :=
  mk_state (file st) (file_writable st) (lines st) (current_line st)
    (current_row_index st) (colstr1 st) (entered_text st) (saveFlag st)
    (altbuttonFlag st) (textbox st) v (quit st) (shown st).
Definition root_quit st :=
  mk_state (file st) (file_writable st) (lines st) (current_line st)
    (current_row_index st) (colstr1 st) (entered_text st) (saveFlag st)
    (altbuttonFlag st) (textbox st) (buttons st) true (shown st).
Definition log_section label options st :=
  mk_state (file st) (file_writable st) (lines st) (current_line st)
    (current_row_index st) (colstr1 st) (entered_text st) (saveFlag st)
    (altbuttonFlag st) (textbox st) (buttons st) (quit st)
    ((label, options) :: shown st).

Definition clear_buttons (st : state) : state := set_buttons [] st.

(** One button per word, blank ones too. *)
Definition create_word_buttons (words : list string) (st : state) : state :=
  set_buttons (buttons st ++ words) st.

(** The cells the script reads in a line. *)
Definition cells (line : string) : list string :=
  split COMMA (strip comma_nl line).

(** The section of a line: [words[0]] and [words[1:]]. *)
Definition present (words : list string) (st : state) : outcome state :=
  match words with
  | [] => Raised IndexError st
  | label :: options =>
      Done (log_section label options
              (create_word_buttons options (set_colstr1 label st)))
  end.

Definition update_buttons (st : state) : outcome state :=
  match lines st !! current_line st with
  | None => Done (root_quit st)
  | Some line =>
      let st := set_current_line (S (current_line st)) st in
      do st <- present (cells line) (clear_buttons st);
      Done (set_current_row_index (S (current_row_index st)) st)
  end.

(** [text] is what the file holds; the lines are those of the text as the
    text mode of [open] delivers it. *)
Definition read_file (text : string) : list string :=
  readlines (universal_newlines text).

Definition save_word (word : string) (st : state) : outcome state :=
  match lines st !! current_row_index st with
  | None => Raised IndexError st
  | Some line =>
      let line' := strip comma_nl line +:+ "," +:+ word +:+ nl in
      let st := set_lines (<[current_row_index st := line']> (lines st)) st in
      if file_writable st then Done (set_file (writelines (lines st)) st)
      else Raised PermissionError st
  end.

Definition on_enter (st : state) : outcome state :=
  do st <- (if saveFlag st then save_word (textbox st) st else Done st);
  let st := set_saveFlag false st in
  let st :=
    if nonempty (textbox st)
    then set_entered_text (entered_text st +:+ "_" +:+ textbox st) st
    else st in
  do st <- update_buttons st;
  Done (set_textbox "" st).

Definition insert_word (word : string) (st : state) : outcome state :=
  let st := set_textbox word st in
  if altbuttonFlag st then on_enter st else Done st.

(** The middle of [on_enter], between the save and [update_buttons]: the
    flag is cleared and the text of the box, if any, joins the title. *)
Definition accept (st : state) : state :=
  let st := set_saveFlag false st in
  if nonempty (textbox st)
  then set_entered_text (entered_text st +:+ "_" +:+ textbox st) st
  else st.

(** [run_file_reader] up to [root.mainloop()]; [seed] is [get_time_PC()]. *)
Definition run_file_reader (text : string) (writable : bool) (seed : string)
  : outcome state :=
  let st :=
    mk_state text writable (read_file text) 0 0 "" seed false true "" []
      false [] in
  match lines st !! current_line st with
  | None => Done (set_colstr1 "No more lines to read." st)
  | Some line =>
      let st := set_current_line (S (current_line st)) st in
      present (cells line) st
  end.

(** The globals when [root.mainloop()] starts. *)
Definition start (text : string) (writable : bool) (seed : string) : state :=
  globals (run_file_reader text writable seed).

(** What the user does between two returns of the main loop. *)
Inductive event :=
| Click (position : nat)
| Type_ (text : string)
| Enter
| ToggleAlt
| ToggleSave.

Definition handle (e : event) (st : state) : outcome state :=
  match e with
  | Click position =>
      match buttons st !! position with
      | Some word => insert_word word st
      | None => Done st
      end
  | Type_ text => Done (set_textbox text st)
  | Enter => on_enter st
  | ToggleAlt => Done (set_altbuttonFlag (negb (altbuttonFlag st)) st)
  | ToggleSave => Done (set_saveFlag (negb (saveFlag st)) st)
  end.

(** The main loop: events are delivered until [root.quit()]. *)
Fixpoint mainloop (events : list event) (st : state) : state :=
  match events with
  | [] => st
  | e :: events' =>
      if quit st then st else mainloop events' (globals (handle e st))
  end.

(** The events of a user who selects each of [tokens] in turn: the token
    is put in the text box and committed. *)
Definition commit_each (tokens : list string) : list event :=
  flat_map (fun token => [Type_ token; Enter]) tokens.

End H.

(** ** [fsw_file_namer_V.py]: one section per column, folders of sub-options *)

Module V.

(** [og_data] is the table as [csv.reader] returns it, row by row, and
    [transposed_data] the same table column by column.  [shown] is not a
    variable of the script: it is the history of the top-level sections
    handed to the toolkit for display by [run_file_reader] and
    [update_buttons], most recent first; the folders of [handle_subsection]
    are not part of it. *)
Record state := mk_state {
  og_data : list (list string);
  transposed_data : list (list string);
  current_row_index : nat;
  connector : string;
  colstr1 : string;
  entered_text : string;
  altbuttonFlag : bool;
  textbox : string;
  buttons : list string;
  quit : bool;
  shown : list (string * list string)
}.

Definition set_current_row_index v st :=
  mk_state (og_data st) (transposed_data st) v (connector st) (colstr1 st)
    (entered_text st) (altbuttonFlag st) (textbox st) (buttons st) (quit st)
    (shown st).
Definition set_colstr1 v st :=
  mk_state (og_data st) (transposed_data st) (current_row_index st)
    (connector st) v (entered_text st) (altbuttonFlag st) (textbox st)
    (buttons st) (quit st) (shown st).
Definition set_entered_text v st :=
  mk_state (og_data st) (transposed_data st) (current_row_index st)
    (connector st) (colstr1 st) v (altbuttonFlag st) (textbox st)
    (buttons st) (quit st) (shown st).
Definition set_altbuttonFlag v st :=
  mk_state (og_data st) (transposed_data st) (current_row_index st)
    (connector st) (colstr1 st) (entered_text st) v (textbox st)
    (buttons st) (quit st) (shown st).
Definition set_textbox v st :=
  mk_state (og_data st) (transposed_data st) (current_row_index st)
    (connector st) (colstr1 st) (entered_text st) (altbuttonFlag st) v
    (buttons st) (quit st) (shown st).
Definition set_buttons v st :=
  mk_state (og_data st) (transposed_data st) (current_row_index st)
    (connector st) (colstr1 st) (entered_text st) (altbuttonFlag st)
    (textbox st) v (quit st) (shown st).
Definition root_quit st :=
  mk_state (og_data st) (transposed_data st) (current_row_index st)
    (connector st) (colstr1 st) (entered_text st) (altbuttonFlag st)
    (textbox st) (buttons st) true (shown st).
Definition log_section label options st :=
  mk_state (og_data st) (transposed_data st) (current_row_index st)
    (connector st) (colstr1 st) (entered_text st) (altbuttonFlag st)
    (textbox st) (buttons st) (quit st) ((label, options) :: shown st).

Definition clear_buttons (st : state) : state := set_buttons [] st.

(** One button per word that is not blank. *)
Definition create_word_buttons (words : list string) (st : state) : state :=
  set_buttons (buttons st ++ filter (fun w => nonempty w = true) words) st.

(** The [while] loop of [update_buttons], run on [rows], the rows of
    [transposed_data] from the cursor [cri] on, the first of them being
    [words]: the cursor it stops at, and the row there, or [None] when
    [transposed_data[cri]] or [words[0]] raises [IndexError]. *)
Fixpoint skip_empty_rows (rows : list (list string)) (cri : nat)
  : nat * option (list string) :=
  match rows with
  | [] => (cri, None)
  | words :: rows' =>
      match words with
      | [] => (cri, None)
      | label :: _ =>
          if String.eqb label "" then skip_empty_rows rows' (S cri)
          else (cri, Some words)
      end
  end.

(** Every [IndexError] is caught and ends the main loop. *)
Definition update_buttons (st : state) : state :=
  match transposed_data st !! current_row_index st with
  | None => root_quit st
  | Some _ =>
      let st := clear_buttons st in
      let rows := drop (current_row_index st) (transposed_data st) in
      match skip_empty_rows rows (current_row_index st) with
      | (cri, Some (label :: options)) =>
          let st := set_current_row_index cri st in
          let st := set_colstr1 label st in
          let st := create_word_buttons options st in
          let st := log_section label (buttons st) st in
          set_current_row_index (S (current_row_index st)) st
      | (cri, _) => root_quit (set_current_row_index cri st)
      end
  end.

Definition handle_subsection (subsection_values : list string)
    (word : string) (st : state) : state :=
  let st := clear_buttons st in
  let st := set_colstr1 (word +:+ " values") st in
  create_word_buttons subsection_values st.

Definition on_enter (st : state) : state :=
  let st :=
    if nonempty (textbox st)
    then set_entered_text
           (entered_text st +:+ connector st +:+ textbox st) st
    else st in
  let st := update_buttons st in
  set_textbox "" st.

(** The [for] loop of [insert_word] over [vals], the slice
    [og_data[word_index][current_row_index:]] taken when the loop starts;
    the cursor is a global and moves while the loop runs. *)
Fixpoint collect (vals subsection_values : list string) (st : state)
  : outcome (list string * state) :=
  match vals with
  | [] => Done (subsection_values, st)
  | val :: vals' =>
      match og_data st !! 0 with
      | None => Raised IndexError (subsection_values, st)
      | Some header =>
          match header !! current_row_index st with
          | None => Raised IndexError (subsection_values, st)
          | Some h =>
              if String.eqb h "" then
                let subsection_values :=
                  if nonempty val then subsection_values ++ [val]
                  else subsection_values in
                collect vals' subsection_values
                  (set_current_row_index (S (current_row_index st)) st)
              else collect vals' subsection_values st
          end
      end
  end.

(** The end of [insert_word], when no folder is opened. *)
Definition insert_plain (word : string) (st : state) : state :=
  let st := set_textbox (textbox st +:+ word) st in
  if altbuttonFlag st then on_enter st else st.

Definition insert_word (word : string) (st : state) : outcome state :=
  let st := set_textbox "" st in
  match transposed_data st !! current_row_index st with
  | None => Done (insert_plain word st)
  | Some next_row =>
      match next_row with
      | [] => Raised IndexError st
      | h :: _ =>
          if String.eqb h "" then
            match before (transposed_data st) (current_row_index st) with
            | None => Raised IndexError st
            | Some row =>
                match index word row with
                | None => Raised ValueError st
                | Some word_index =>
                    match og_data st !! word_index with
                    | None => Raised IndexError st
                    | Some og_row =>
                        let vals := drop (current_row_index st) og_row in
                        match collect vals [] st with
                        | Raised e (_, st) => Raised e st
                        | Done ([], st) => Done (insert_plain word st)
                        | Done (subsection_values, st) =>
                            Done (handle_subsection subsection_values word st)
                        end
                    end
                end
            end
          else Done (insert_plain word st)
      end
  end.

Definition read_and_transpose_file (data : list (list string))
  : list (list string) * list (list string) :=
  (data, zip_star data).

(** The globals when [root.mainloop()] starts; [data] is what [csv.reader]
    reads in the file and [seed] is [get_time_PC()]. *)
Definition run_file_reader (data : list (list string)) (seed : string)
  : state :=
  let '(og, transposed) := read_and_transpose_file data in
  let st := mk_state og transposed 0 " - " "" seed true "" [] false [] in
  let st :=
    match transposed_data st !! 0 with
    | Some (label :: options) =>
        let st := set_colstr1 label st in
        let st := create_word_buttons options st in
        log_section label (buttons st) st
    | _ => set_colstr1 "No more lines to read." st
    end in
  set_current_row_index (S (current_row_index st)) st.

Inductive event :=
| Click (position : nat)
| Type_ (text : string)
| Enter
| ToggleAlt.

Definition handle (e : event) (st : state) : outcome state :=
  match e with
  | Click position =>
      match buttons st !! position with
      | Some word => insert_word word st
      | None => Done st
      end
  | Type_ text => Done (set_textbox text st)
  | Enter => Done (on_enter st)
  | ToggleAlt => Done (set_altbuttonFlag (negb (altbuttonFlag st)) st)
  end.

(** The main loop: events are delivered until [root.quit()]. *)
Fixpoint mainloop (events : list event) (st : state) : state :=
  match events with
  | [] => st
  | e :: events' =>
      if quit st then st else mainloop events' (globals (handle e st))
  end.

(** The events of a user who selects each of [tokens] in turn: the token
    is put in the text box and committed. *)
Definition commit_each (tokens : list string) : list event :=
  flat_map (fun token => [Type_ token; Enter]) tokens.

End V.

(** ** Vocabulary of the statements *)

(** [free_of chars s]: no character of [s] is in [chars]. *)
Fixpoint free_of (chars s : string) : bool :=
  match s with
  | EmptyString => true
  | String c s' => negb (mem c chars) && free_of chars s'
  end.

(** [only chars s]: every character of [s] is in [chars]. *)
Fixpoint only (chars s : string) : bool :=
  match s with
  | EmptyString => true
  | String c s' => mem c chars && only chars s'
  end.

(** A line of a text file as [readlines] returns it when it is not the last
    one: some characters other than a newline, then a newline. *)
Fixpoint full_line (l : string) : bool :=
  match l with
  | EmptyString => false
  | String c l' =>
      if Ascii.eqb c LF then String.eqb l' EmptyString else full_line l'
  end.

(** The lines [readlines] can return: full lines, the last one possibly
    without its newline (and then not empty). *)
Fixpoint text_lines (ls : list string) : Prop :=
  match ls with
  | [] => True
  | l :: ls' =>
      match ls' with
      | [] => full_line l = true \/ (l <> EmptyString /\ free_of nl l = true)
      | _ => full_line l = true /\ text_lines ls'
      end
  end.


(** 1 while the main loop runs, 0 once [root.quit()] was called. *)
Definition live (quit : bool) : nat := if quit then 0 else 1.

(** The number of columns without a header at the start of [header]. *)
Fixpoint anonymous_run (header : list string) : nat :=
  match header with
  | [] => 0
  | h :: header' =>
      if String.eqb h "" then S (anonymous_run header') else 0
  end.

(** The sub-options of the option in the row [row] of the table, for the
    section in column [k]: the cells of the row that are not blank in the
    columns without a header that follow column [k] directly. *)
Definition sub_options (header row : list string) (k : nat) : list string :=
  filter (fun w => nonempty w = true)
    (take (anonymous_run (drop (S k) header)) (drop (S k) row)).

(** A table as a spreadsheet writes it: every row has [n] cells. *)
Definition rectangular (n : nat) (data : list (list string)) : Prop :=
  Forall (fun row => length row = n) data.

(** The section [fsw_file_namer_H.py] makes of a line: its first cell and the
    others. *)
Definition H_section_of (line : string) : string * list string :=
  match H.cells line with
  | [] => (EmptyString, [])
  | label :: options => (label, options)
  end.

(** How far a session of [fsw_file_namer_H.py] has walked in the file it
    loaded as [lines0]: the rows in memory are as many, those the iterator
    has not read yet are as loaded, the sections shown are those of the rows
    read, in order, the row index follows the iterator by one, and the main
    loop is left only once every row was read. *)
Definition H_walked (lines0 : list string) (st : H.state) : Prop :=
  length (H.lines st) = length lines0 /\
  drop (H.current_line st) (H.lines st) = drop (H.current_line st) lines0 /\
  reverse (H.shown st) = H_section_of <$> take (H.current_line st) lines0 /\
  H.current_line st <= length lines0 /\
  (lines0 <> [] -> H.current_line st = S (H.current_row_index st)) /\
  (H.quit st = true -> H.current_line st = length lines0).

(** The file of [fsw_file_namer_H.py] can be written again. *)
Definition H_release (st : H.state) : H.state :=
  H.mk_state (H.file st) true (H.lines st) (H.current_line st)
    (H.current_row_index st) (H.colstr1 st) (H.entered_text st)
    (H.saveFlag st) (H.altbuttonFlag st) (H.textbox st) (H.buttons st)
    (H.quit st) (H.shown st).

(** A column of [fsw_file_namer_V.py] with a header that is not blank. *)
Definition has_header (column : list string) : bool :=
  match column with
  | [] => false
  | label :: _ => nonempty label
  end.

(** The section [fsw_file_namer_V.py] makes of a column: its header and its
    cells that are not blank. *)
Definition section_of (column : list string) : string * list string :=
  match column with
  | [] => (EmptyString, [])
  | label :: options => (label, filter (fun w => nonempty w = true) options)
  end.

(** The sections of the columns that have a header, in the order of the
    table. *)
Definition labeled_sections (columns : list (list string))
  : list (string * list string) :=
  section_of <$> filter (fun column => has_header column = true) columns.

(** The sections [fsw_file_namer_V.py] has still to show: those of the
    columns with a header from the cursor on. *)
Definition still_to_show (st : V.state) : list (string * list string) :=
  labeled_sections (drop (V.current_row_index st) (V.transposed_data st)).

(** The table in memory is a rectangular table and its transpose. *)
Definition table_ok (n : nat) (st : V.state) : Prop :=
  V.transposed_data st = zip_star (V.og_data st) /\
  rectangular n (V.og_data st).

(** The cursor is right after a column that holds the text of every button
    on screen. *)
Definition on_section (st : V.state) : Prop :=
  exists k column,
    V.current_row_index st = S k /\
    V.transposed_data st !! k = Some column /\
    forall word, word ∈ V.buttons st -> word ∈ column.

(** The cursor is on a column with a header, or past the table. *)
Definition past_folders (st : V.state) : Prop :=
  forall next_row,
    V.transposed_data st !! V.current_row_index st = Some next_row ->
    has_header next_row = true.

(** The sections shown so far, oldest first, followed by those still to
    show. *)
Definition walk_all (st : V.state) : list (string * list string) :=
  reverse (V.shown st) ++ still_to_show st.

(** What every session of [fsw_file_namer_V.py] on a rectangular table
    keeps: the table, the cursor at a section or past its folders, and no
    section left to show once the main loop is left. *)
Definition V_inv (n : nat) (st : V.state) : Prop :=
  table_ok n st /\
  (on_section st \/ past_folders st) /\
  (V.quit st = true -> still_to_show st = []).

(** A save that fails in [fsw_file_namer_H.py]: the flag is up and the
    file cannot be written, or there is no current row to rewrite. *)
Definition H_save_fails (st : H.state) : bool :=
  H.saveFlag st &&
  (negb (H.file_writable st)
   || (length (H.lines st) <=? H.current_row_index st)).

(** The text an event commits in [fsw_file_namer_H.py]: the text of the box
    for the Return key, the text of the button for a click with "Alt Button"
    on, and nothing for the other events.  A commit whose save fails is
    none: the callback raises before the text reaches the title. *)
Definition H_commit (e : H.event) (st : H.state) : option string :=
  if H_save_fails st then None
  else match e with
       | H.Enter => Some (H.textbox st)
       | H.Click position =>
           if H.altbuttonFlag st then H.buttons st !! position else None
       | _ => None
       end.

(** The texts committed in turn by the events the main loop delivers. *)
Fixpoint H_commits (events : list H.event) (st : H.state) : list string :=
  match events with
  | [] => []
  | e :: events' =>
      if H.quit st then []
      else option_list (H_commit e st)
             ++ H_commits events' (globals (H.handle e st))
  end.

(** The section on screen was left between [st] and [st']: another one was
    shown, or the main loop was left. *)
Definition V_leaves (st st' : V.state) : bool :=
  V.quit st' || (length (V.shown st) <? length (V.shown st')).

(** The text an event commits in [fsw_file_namer_V.py]: the text of the box
    for the Return key, and the text of the button for a click that leaves
    the section; a click that opens a folder, that raises, or with "Alt
    Button" off commits nothing, nor do the other events. *)
Definition V_commit (e : V.event) (st : V.state) : option string :=
  match e with
  | V.Enter => Some (V.textbox st)
  | V.Click position =>
      if V_leaves st (globals (V.handle e st)) then V.buttons st !! position
      else None
  | _ => None
  end.

Fixpoint V_commits (events : list V.event) (st : V.state) : list string :=
  match events with
  | [] => []
  | e :: events' =>
      if V.quit st then []
      else option_list (V_commit e st)
             ++ V_commits events' (globals (V.handle e st))
  end.

(** ** Facts about the Python primitives *)

(** The cells of a line as C6 reads it: the line's cells as they stand, once
    the delimiters and the newline at its end are dropped. *)
Definition cells_verbatim (line : string) : list string :=
  split COMMA (rstrip H.comma_nl line).

Section PyFacts.

Implicit Types (s t w : string) (c : ascii) (ws ls : list string).

Lemma string_app_nil_r s : s +:+ "" = s.
Proof. induction s as [|c s IH]; simpl; [done|by rewrite IH]. Qed.

Lemma string_app_assoc s t w : (s +:+ t) +:+ w = s +:+ t +:+ w.
Proof. induction s as [|c s IH]; simpl; [done|by rewrite IH]. Qed.

Lemma split_cons sep s : exists w ws, split sep s = w :: ws.
Proof.
  induction s as [|c s (w & ws & IH)]; simpl; [by eauto|].
  destruct (Ascii.eqb c sep); [by eauto|]. rewrite IH. by eauto.
Qed.

Lemma join_cons sep w w' ws :
  join sep (w :: w' :: ws) = w +:+ sep +:+ join sep (w' :: ws).
Proof. done. Qed.

(** Splitting loses nothing: joining the cells gives the text back. *)
Lemma join_split sep s : join (String sep "") (split sep s) = s.
Proof.
  induction s as [|c s IH]; [done|]. cbn [split].
  destruct (Ascii.eqb_spec c sep) as [->|Hc].
  - destruct (split_cons sep s) as (w & ws & Hs).
    rewrite Hs in IH |- *. rewrite join_cons, IH. done.
  - destruct (split_cons sep s) as (w & ws & Hs).
    rewrite Hs in IH |- *. destruct ws as [|w' ws].
    + simpl in *. by rewrite IH.
    + rewrite join_cons in IH |- *. by rewrite <-IH.
Qed.

Lemma split_free sep w :
  free_of (String sep "") w = true -> split sep w = [w].
Proof.
  induction w as [|c w IH]; [done|]. simpl.
  rewrite orb_false_r. destruct (Ascii.eqb c sep); [done|]. simpl.
  intros Hw. by rewrite IH.
Qed.

Lemma split_app sep s t :
  split sep (s +:+ String sep t) = split sep s ++ split sep t.
Proof.
  induction s as [|c s IH]; simpl.
  - by rewrite Ascii.eqb_refl.
  - destruct (Ascii.eqb c sep); [by rewrite IH|].
    rewrite IH. destruct (split_cons sep s) as (w & ws & ->). done.
Qed.

Lemma free_of_app chars s t :
  free_of chars (s +:+ t) = free_of chars s && free_of chars t.
Proof.
  induction s as [|c s IH]; simpl; [done|]. by rewrite IH, andb_assoc.
Qed.

Lemma free_of_weaken c chars s :
  free_of (String c chars) s = true -> free_of chars s = true.
Proof.
  induction s as [|d s IH]; simpl; [done|].
  rewrite negb_orb. intros [[_ ->]%andb_true_iff Hs]%andb_true_iff.
  by apply IH.
Qed.

(** *** [strip] *)

Lemma lstrip_decompose chars s :
  exists pre, s = pre +:+ lstrip chars s /\ only chars pre = true.
Proof.
  induction s as [|c s (pre & IH & Hpre)]; simpl; [by exists ""|].
  destruct (mem c chars) eqn:Hc.
  - exists (String c pre). simpl. rewrite Hc, Hpre. by rewrite <-IH.
  - by exists "".
Qed.

Lemma rstrip_decompose chars s :
  exists post, s = rstrip chars s +:+ post /\ only chars post = true.
Proof.
  induction s as [|c s (post & IH & Hpost)]; simpl; [by exists ""|].
  destruct (rstrip chars s) as [|d r] eqn:Hr; simpl in IH.
  - destruct (mem c chars) eqn:Hc.
    + exists (String c post). simpl. by rewrite Hc, Hpost, <-IH.
    + exists post. simpl. split; [by rewrite <-IH|done].
  - exists post. simpl. split; [by rewrite <-IH|done].
Qed.

(** What [lstrip] keeps does not start with a stripped character. *)
Lemma lstrip_head chars s c r :
  lstrip chars s = String c r -> mem c chars = false.
Proof.
  induction s as [|d s IH]; simpl; [done|].
  destruct (mem d chars) eqn:Hd; [done|]. by intros [= <- _].
Qed.

(** [rstrip] keeps a prefix, so the first character stays. *)
Lemma rstrip_head chars s c r :
  rstrip chars s = String c r -> exists r', s = String c r'.
Proof.
  destruct s as [|d s]; simpl; [done|].
  destruct (rstrip chars s); [destruct (mem d chars)|]; intros [= <- _];
    by eauto.
Qed.

Lemma strip_head chars s c r :
  strip chars s = String c r -> mem c chars = false.
Proof.
  unfold strip. intros (r' & Hr')%rstrip_head. by eapply lstrip_head.
Qed.

(** The last character [rstrip] keeps is not a stripped one. *)
Lemma rstrip_last chars s r c :
  rstrip chars s = r +:+ String c "" -> mem c chars = false.
Proof.
  revert r. induction s as [|d s IH]; intros r; simpl.
  - by destruct r.
  - destruct (rstrip chars s) as [|e r'] eqn:Hr.
    + destruct (mem d chars) eqn:Hd; [by destruct r|].
      destruct r as [|? [|]]; simpl; [by intros [= <-]|done..].
    + destruct r as [|? r]; simpl; [done|]. intros [= <- Hr'].
      by apply (IH r).
Qed.

Lemma strip_last chars s r c :
  strip chars s = r +:+ String c "" -> mem c chars = false.
Proof. apply rstrip_last. Qed.

(** [strip] drops a run of stripped characters at each end, nothing else. *)
Lemma strip_decompose chars s :
  exists pre post,
    s = pre +:+ strip chars s +:+ post /\
    only chars pre = true /\ only chars post = true.
Proof.
  destruct (lstrip_decompose chars s) as (pre & Hs & Hpre).
  destruct (rstrip_decompose chars (lstrip chars s)) as (post & Hl & Hpost).
  exists pre, post. split; [|done]. unfold strip. by rewrite <-Hl.
Qed.

Lemma lstrip_id chars c s :
  mem c chars = false -> lstrip chars (String c s) = String c s.
Proof. simpl. by intros ->. Qed.

Lemma rstrip_free chars s : free_of chars s = true -> rstrip chars s = s.
Proof.
  induction s as [|c s IH]; simpl; [done|].
  intros (Hc%negb_true_iff & Hs)%andb_true_iff. rewrite (IH Hs), Hc.
  by destruct s.
Qed.

Lemma rstrip_app chars s t :
  rstrip chars t <> "" -> rstrip chars (s +:+ t) = s +:+ rstrip chars t.
Proof.
  intros Ht. induction s as [|c s IH]; simpl; [done|]. rewrite IH.
  destruct (s +:+ rstrip chars t) eqn:Hs; [|done].
  destruct s; simpl in Hs; [done|discriminate].
Qed.

Lemma rstrip_only chars s : only chars s = true -> rstrip chars s = "".
Proof.
  induction s as [|c s IH]; simpl; [done|].
  intros (-> & Hs)%andb_true_iff. by rewrite (IH Hs).
Qed.

Lemma rstrip_app_only chars s t :
  only chars t = true -> rstrip chars (s +:+ t) = rstrip chars s.
Proof.
  intros Ht. induction s as [|c s IH]; simpl; [by apply rstrip_only|].
  by rewrite IH.
Qed.

Lemma rstrip_lstrip_nl chars s :
  mem LF chars = true ->
  rstrip chars (lstrip chars (s +:+ nl)) = rstrip chars (lstrip chars s).
Proof.
  intros Hnl. induction s as [|c s IH]; simpl.
  - by rewrite Hnl.
  - destruct (mem c chars); [done|].
    change (String c (s +:+ nl)) with (String c s +:+ nl).
    apply rstrip_app_only. simpl. by rewrite Hnl.
Qed.

Lemma strip_nl chars s :
  mem LF chars = true -> strip chars (s +:+ nl) = strip chars s.
Proof. apply rstrip_lstrip_nl. Qed.

Lemma strip_free chars s : free_of chars s = true -> strip chars s = s.
Proof.
  intros Hs. unfold strip.
  assert (lstrip chars s = s) as ->; [|by apply rstrip_free].
  destruct s as [|c s]; [done|]. simpl in *.
  apply andb_true_iff in Hs as [Hc%negb_true_iff _]. by rewrite Hc.
Qed.

(** Stripping the end twice strips no more. *)
Lemma rstrip_rstrip chars s : rstrip chars (rstrip chars s) = rstrip chars s.
Proof.
  induction s as [|c s IH]; simpl; [done|].
  destruct (rstrip chars s) as [|d r] eqn:Hr.
  - destruct (mem c chars) eqn:Hc; simpl; [done|]. by rewrite Hc.
  - remember (String d r) as u eqn:Hu. simpl. rewrite IH. by subst u.
Qed.

Lemma lstrip_keeps_free chars chars' s :
  free_of chars' s = true -> free_of chars' (lstrip chars s) = true.
Proof.
  induction s as [|c s IH]; simpl; [done|].
  intros (Hc & Hs)%andb_true_iff. destruct (mem c chars); [by auto|].
  simpl. by rewrite Hc, Hs.
Qed.

Lemma rstrip_keeps_free chars chars' s :
  free_of chars' s = true -> free_of chars' (rstrip chars s) = true.
Proof.
  induction s as [|c s IH]; simpl; [done|].
  intros (Hc & Hs)%andb_true_iff. specialize (IH Hs).
  destruct (rstrip chars s); [destruct (mem c chars)|]; simpl in *;
    by rewrite ?Hc, ?IH.
Qed.

Lemma strip_keeps_free chars chars' s :
  free_of chars' s = true -> free_of chars' (strip chars s) = true.
Proof. intros. by apply rstrip_keeps_free, lstrip_keeps_free. Qed.

End PyFacts.

(** *** [readlines] and [writelines] *)

Section Lines.

Implicit Types (s t l : string) (ls : list string).

Lemma mem_nl c : mem c nl = Ascii.eqb c LF.
Proof. simpl. by rewrite orb_false_r. Qed.

Lemma writelines_cons l ls : writelines (l :: ls) = l +:+ writelines ls.
Proof. done. Qed.

(** Reading a text cuts it into pieces without losing a character. *)
Lemma writelines_readlines t : writelines (readlines t) = t.
Proof.
  induction t as [|c t IH]; [done|]. simpl.
  destruct (Ascii.eqb c LF).
  - rewrite writelines_cons, IH. done.
  - destruct (readlines t) as [|l ls].
    + simpl in IH. by rewrite <-IH.
    + rewrite writelines_cons in IH |- *. by rewrite <-IH.
Qed.

Lemma full_line_body l :
  full_line l = true -> exists b, l = b +:+ nl /\ free_of nl b = true.
Proof.
  induction l as [|c l IH]; simpl; [done|].
  destruct (Ascii.eqb_spec c LF) as [->|Hc].
  - intros ->%String.eqb_eq. by exists "".
  - intros (b & -> & Hb)%IH. exists (String c b). split; [done|].
    simpl. rewrite orb_false_r, Hb.
    by destruct (Ascii.eqb_spec c LF).
Qed.

Lemma full_line_app_nl s : free_of nl s = true -> full_line (s +:+ nl) = true.
Proof.
  induction s as [|c s IH]; simpl; [done|]. rewrite orb_false_r.
  destruct (Ascii.eqb c LF); [done|]. simpl. apply IH.
Qed.

Lemma readlines_full l rest :
  full_line l = true -> readlines (l +:+ rest) = l :: readlines rest.
Proof.
  induction l as [|c l IH]; simpl; [done|].
  destruct (Ascii.eqb c LF).
  - by intros ->%String.eqb_eq.
  - intros Hl. by rewrite (IH Hl).
Qed.

Lemma readlines_partial l :
  l <> "" -> free_of nl l = true -> readlines l = [l].
Proof.
  induction l as [|c l IH]; [done|]. intros _. simpl.
  rewrite orb_false_r. destruct (Ascii.eqb c LF); [done|]. simpl.
  intros Hl. destruct l as [|d l]; [done|]. by rewrite IH.
Qed.

Lemma text_lines_cons l l' ls :
  text_lines (l :: l' :: ls) <->
  full_line l = true /\ text_lines (l' :: ls).
Proof. done. Qed.

(** What [readlines] returns is a list of text lines. *)
Lemma text_lines_readlines t : text_lines (readlines t).
Proof.
  induction t as [|c t IH]; [done|]. simpl.
  destruct (Ascii.eqb_spec c LF) as [->|Hc].
  - destruct (readlines t) as [|l ls]; [by left|]. by split.
  - destruct (readlines t) as [|l ls]; simpl.
    + right. split; [done|]. rewrite orb_false_r.
      by destruct (Ascii.eqb_spec c LF).
    + destruct ls as [|l' ls].
      * simpl in IH |- *. destruct (Ascii.eqb_spec c LF); [done|].
        rewrite orb_false_r. destruct IH as [?|[_ ?]]; [by left|].
        right. split; [done|]. destruct (Ascii.eqb_spec c LF); done.
      * apply text_lines_cons in IH as [Hl IH].
        split; [|done]. by destruct (Ascii.eqb_spec c LF).
Qed.

(** Text lines written to a file are read back as they were. *)
Lemma readlines_writelines ls :
  text_lines ls -> readlines (writelines ls) = ls.
Proof.
  induction ls as [|l ls IH]; [done|]. destruct ls as [|l' ls].
  - intros [Hl|[Hne Hl]]; unfold writelines; simpl;
      rewrite string_app_nil_r.
    + rewrite <-(string_app_nil_r l) at 1. by rewrite readlines_full.
    + by apply readlines_partial.
  - intros [Hl Hls]%text_lines_cons. rewrite writelines_cons.
    rewrite readlines_full by done. by rewrite IH.
Qed.

(** Replacing any line by a full line keeps a list of text lines. *)
Lemma text_lines_insert ls i l :
  text_lines ls -> full_line l = true -> text_lines (<[i:=l]> ls).
Proof.
  intros Hls Hl. revert i Hls.
  induction ls as [|l0 ls IH]; intros i Hls; [done|].
  destruct ls as [|l1 ls].
  - destruct i as [|i]; simpl; [by left|done].
  - apply text_lines_cons in Hls as [Hl0 Hls]. destruct i as [|i].
    + by apply text_lines_cons.
    + change (<[S i:=l]> (l0 :: l1 :: ls))
        with (l0 :: <[i:=l]> (l1 :: ls)).
      specialize (IH i Hls).
      destruct (<[i:=l]> (l1 :: ls)) as [|l2 ls'] eqn:Hins.
      * apply (f_equal length) in Hins.
        rewrite length_insert in Hins. done.
      * by apply text_lines_cons.
Qed.

(** A text line holds no newline once stripped. *)
Lemma text_lines_strip ls i l chars :
  text_lines ls -> ls !! i = Some l -> mem LF chars = true ->
  free_of nl (strip chars l) = true.
Proof.
  intros Hls Hi Hnl.
  assert (full_line l = true \/ free_of nl l = true) as [Hl|Hl].
  { revert i Hls Hi. induction ls as [|l0 ls IH]; intros i Hls Hi; [done|].
    destruct ls as [|l1 ls].
    - destruct i as [|i]; [|done]. injection Hi as <-.
      destruct Hls as [?|[_ ?]]; by auto.
    - apply text_lines_cons in Hls as [Hl0 Hls]. destruct i as [|i].
      + injection Hi as <-. by left.
      + by apply (IH i). }
  - apply full_line_body in Hl as (b & -> & Hb).
    rewrite strip_nl by done. by apply strip_keeps_free.
  - by apply strip_keeps_free.
Qed.

(** A text without a carriage return is read as it stands. *)
Lemma universal_newlines_id t :
  free_of cr t = true -> universal_newlines t = t.
Proof.
  induction t as [|c t IH]; [done|]. simpl. rewrite orb_false_r.
  intros [Hc%negb_true_iff Ht]%andb_true_iff.
  unfold CR in Hc |- *. rewrite Hc. by rewrite IH.
Qed.

(** No carriage return is left in what the script reads. *)
Lemma universal_newlines_free t : free_of cr (universal_newlines t) = true.
Proof.
  induction t as [|c t IH]; [done|]. cbn [universal_newlines].
  destruct (Ascii.eqb c CR) eqn:Hc.
  - destruct t as [|d t]; [done|].
    destruct (Ascii.eqb d LF); [done|]. cbn [free_of]. by rewrite IH.
  - cbn [free_of mem cr]. by rewrite Hc, IH.
Qed.

Lemma write_text_nl t : write_text nl t = t.
Proof.
  induction t as [|c t IH]; [done|]. simpl.
  destruct (Ascii.eqb_spec c LF) as [->|_]; by rewrite IH.
Qed.

(** What the script wrote is read back as it was written, whatever the
    line separator of the platform, when it holds no carriage return. *)
Lemma universal_newlines_write_text linesep t :
  linesep = nl \/ linesep = crlf -> free_of cr t = true ->
  universal_newlines (write_text linesep t) = t.
Proof.
  intros [->| ->] Ht.
  - rewrite write_text_nl. by apply universal_newlines_id.
  - induction t as [|c t IH]; [done|]. simpl in Ht. rewrite orb_false_r in Ht.
    apply andb_true_iff in Ht as [Hc%negb_true_iff Ht].
    cbn [write_text]. destruct (Ascii.eqb_spec c LF) as [->|Hlf].
    + cbn. by rewrite IH.
    + cbn [universal_newlines]. unfold CR in Hc |- *. rewrite Hc.
      by rewrite IH.
Qed.

Lemma free_of_writelines chars ls :
  free_of chars (writelines ls) = true <->
  Forall (fun l => free_of chars l = true) ls.
Proof.
  induction ls as [|l ls IH]; [done|].
  rewrite writelines_cons, free_of_app, andb_true_iff, IH, Forall_cons.
  done.
Qed.

(** The lines of a file hold no carriage return. *)
Lemma readlines_universal_free t :
  Forall (fun l => free_of cr l = true) (readlines (universal_newlines t)).
Proof.
  apply free_of_writelines. rewrite writelines_readlines.
  apply universal_newlines_free.
Qed.

Lemma free_of_crlf word :
  free_of crlf word = true ->
  free_of cr word = true /\ free_of nl word = true.
Proof.
  induction word as [|c word IH]; [done|]. simpl. rewrite !orb_false_r.
  intros [Hc Hw]%andb_true_iff. destruct (IH Hw) as [-> ->].
  apply negb_true_iff, orb_false_iff in Hc as [-> ->]. done.
Qed.

End Lines.

(** ** Facts about [fsw_file_namer_H.py] *)

Section HFacts.

Import H.

Implicit Types (st : state) (line word : string).

Lemma cells_cons line : exists label options, cells line = label :: options.
Proof. apply split_cons. Qed.

(** [update_buttons] spelled out: the next line becomes the section, or
    the iterator is exhausted and the main loop is left. *)
Lemma update_buttons_spec st :
  match lines st !! current_line st with
  | None => update_buttons st = Done (root_quit st)
  | Some line =>
      exists label options,
        cells line = label :: options /\
        update_buttons st =
          Done (mk_state (file st) (file_writable st) (lines st)
                  (S (current_line st)) (S (current_row_index st)) label
                  (entered_text st) (saveFlag st) (altbuttonFlag st)
                  (textbox st) options (quit st)
                  ((label, options) :: shown st))
  end.
Proof.
  unfold update_buttons. destruct (lines st !! current_line st) as [line|];
    [|done].
  destruct (cells_cons line) as (label & options & Hc).
  exists label, options. split; [done|]. by rewrite Hc.
Qed.

(** [update_buttons] never raises and touches neither the title, the
    text box, the flags nor the file. *)
Lemma update_buttons_frame st :
  exists st',
    update_buttons st = Done st' /\
    entered_text st' = entered_text st /\ textbox st' = textbox st /\
    saveFlag st' = saveFlag st /\ altbuttonFlag st' = altbuttonFlag st /\
    file st' = file st /\ lines st' = lines st /\
    file_writable st' = file_writable st.
Proof.
  pose proof (update_buttons_spec st) as Hu.
  destruct (lines st !! current_line st) as [line|].
  - destruct Hu as (label & options & _ & ->). by eexists.
  - rewrite Hu. by eexists.
Qed.

Lemma accept_spec st :
  accept st =
    mk_state (file st) (file_writable st) (lines st) (current_line st)
      (current_row_index st) (colstr1 st)
      (if nonempty (textbox st)
       then entered_text st +:+ "_" +:+ textbox st else entered_text st)
      false (altbuttonFlag st) (textbox st) (buttons st) (quit st)
      (shown st).
Proof. unfold accept. cbn. by destruct (nonempty (textbox st)). Qed.

Lemma on_enter_unfold st :
  on_enter st =
    do st <- (if saveFlag st then save_word (textbox st) st else Done st);
    do st <- update_buttons (accept st);
    Done (set_textbox "" st).
Proof. done. Qed.

Lemma save_word_frame word st st' :
  save_word word st = Done st' ->
  entered_text st' = entered_text st /\ textbox st' = textbox st /\
  saveFlag st' = saveFlag st /\ current_line st' = current_line st /\
  quit st' = quit st /\ shown st' = shown st /\
  altbuttonFlag st' = altbuttonFlag st.
Proof.
  unfold save_word. destruct (lines st !! current_row_index st); [|done].
  simpl. destruct (file_writable st); [|done]. by intros [= <-].
Qed.

Lemma save_word_raised word st e st' :
  save_word word st = Raised e st' ->
  entered_text st' = entered_text st /\ textbox st' = textbox st /\
  saveFlag st' = saveFlag st /\ current_line st' = current_line st /\
  quit st' = quit st /\ shown st' = shown st /\
  altbuttonFlag st' = altbuttonFlag st /\ file st' = file st.
Proof.
  unfold save_word. destruct (lines st !! current_row_index st).
  - simpl. destruct (file_writable st); [done|]. by intros [= <- <-].
  - by intros [= <- <-].
Qed.

Lemma nonempty_true word : nonempty word = true <-> word <> "".
Proof.
  unfold nonempty. destruct (String.eqb_spec word ""); split; by auto.
Qed.

Lemma nonempty_false word : nonempty word = false <-> word = "".
Proof.
  unfold nonempty. destruct (String.eqb_spec word ""); split; by auto.
Qed.

(** What a call of [on_enter] does to the title, the save flag, the
    iterator and the history, case by case. *)
Lemma on_enter_spec st :
  match on_enter st with
  | Done st' =>
      entered_text st' =
        (if nonempty (textbox st)
         then entered_text st +:+ "_" +:+ textbox st else entered_text st) /\
      saveFlag st' = false /\ textbox st' = "" /\
      altbuttonFlag st' = altbuttonFlag st /\
      (saveFlag st = false -> file st' = file st /\ lines st' = lines st) /\
      ((quit st' = true /\ current_line st' = current_line st /\
        shown st' = shown st) \/
       (quit st' = quit st /\ current_line st' = S (current_line st) /\
        exists section, shown st' = section :: shown st))
  | Raised e st' =>
      saveFlag st = true /\ saveFlag st' = true /\
      entered_text st' = entered_text st /\ textbox st' = textbox st /\
      file st' = file st /\ quit st' = quit st /\ shown st' = shown st /\
      current_line st' = current_line st /\
      altbuttonFlag st' = altbuttonFlag st
  end.
Proof.
  rewrite on_enter_unfold.
  assert (forall st1,
    entered_text st1 = entered_text st -> textbox st1 = textbox st ->
    current_line st1 = current_line st -> quit st1 = quit st ->
    shown st1 = shown st -> altbuttonFlag st1 = altbuttonFlag st ->
    (saveFlag st = false -> file st1 = file st /\ lines st1 = lines st) ->
    match (do st2 <- update_buttons (accept st1); Done (set_textbox "" st2))
    with
    | Done st' =>
        entered_text st' =
          (if nonempty (textbox st)
           then entered_text st +:+ "_" +:+ textbox st
           else entered_text st) /\
        saveFlag st' = false /\ textbox st' = "" /\
        altbuttonFlag st' = altbuttonFlag st /\
        (saveFlag st = false ->
         file st' = file st /\ lines st' = lines st) /\
        ((quit st' = true /\ current_line st' = current_line st /\
          shown st' = shown st) \/
         (quit st' = quit st /\ current_line st' = S (current_line st) /\
          exists section, shown st' = section :: shown st))
    | Raised _ _ => False
    end) as Hrest.
  { intros st1 Ht Hb Hc Hq Hs Ha Hf.
    pose proof (update_buttons_spec (accept st1)) as Hu.
    rewrite accept_spec in Hu |- *. cbn [lines current_line] in Hu.
    destruct (lines st1 !! current_line st1) as [line|].
    - destruct Hu as (label & options & _ & ->). cbn.
      rewrite Hb, Ht, Ha, Hq, Hc, Hs.
      repeat split; try done; try (by apply Hf). right. by eauto.
    - rewrite Hu. cbn. rewrite Hb, Ht, Ha, Hc, Hs.
      repeat split; try done; try (by apply Hf). by left. }
  destruct (saveFlag st) eqn:Hsave.
  - destruct (save_word (textbox st) st) as [st1|e st1] eqn:Hsw; simpl.
    + apply save_word_frame in Hsw as (? & ? & ? & ? & ? & ? & ?).
      specialize (Hrest st1).
      destruct (and_then _ _); [|exfalso]; apply Hrest; done.
    + apply save_word_raised in Hsw as (? & ? & ? & ? & ? & ? & ? & ?).
      repeat split; congruence.
  - simpl. specialize (Hrest st).
    destruct (and_then _ _); [|exfalso]; apply Hrest; done.
Qed.

End HFacts.

(** ** Properties of [fsw_file_namer_H.py] *)

Section HSave.

Import H.

Implicit Types (st : state) (line word : string).

Lemma free_of_comma_nl word :
  free_of comma_nl word = true ->
  free_of (String COMMA "") word = true /\ free_of nl word = true.
Proof.
  induction word as [|c word IH]; [done|]. simpl.
  rewrite !orb_false_r.
  intros [Hc Hw]%andb_true_iff. destruct (IH Hw) as [-> ->].
  apply negb_true_iff, orb_false_iff in Hc as [-> ->]. done.
Qed.

Lemma free_of_comma_and_nl word :
  free_of (String COMMA "") word = true -> free_of nl word = true ->
  free_of comma_nl word = true.
Proof.
  induction word as [|c word IH]; [done|]. cbn [free_of mem comma_nl nl].
  rewrite !orb_false_r.
  intros [Hc Hw]%andb_true_iff [Hc' Hw']%andb_true_iff.
  rewrite (IH Hw Hw'), andb_true_r.
  apply negb_true_iff in Hc, Hc'. by rewrite Hc, Hc'.
Qed.

(** The line [save_word] writes is a full line of text. *)
Lemma saved_line_full s word :
  free_of nl s = true -> free_of nl word = true ->
  full_line (s +:+ "," +:+ word +:+ nl) = true.
Proof.
  intros Hs Hw.
  replace (s +:+ "," +:+ word +:+ nl) with ((s +:+ "," +:+ word) +:+ nl)
    by (by rewrite !string_app_assoc).
  apply full_line_app_nl. rewrite !free_of_app, Hs, Hw. done.
Qed.

(** The cells read in the line [save_word] writes, for a row that is not
    blank and a plain word. *)
Lemma cells_saved_line line word :
  strip comma_nl line <> "" -> word <> "" ->
  free_of comma_nl word = true ->
  cells (strip comma_nl line +:+ "," +:+ word +:+ nl) = cells line ++ [word].
Proof.
  intros Hline Hword Hfree. unfold cells at 1.
  destruct (free_of_comma_nl word Hfree) as [Hcomma Hnl].
  replace (strip comma_nl line +:+ "," +:+ word +:+ nl)
    with ((strip comma_nl line +:+ "," +:+ word) +:+ nl)
    by (by rewrite !string_app_assoc).
  rewrite strip_nl by done.
  destruct (strip comma_nl line) as [|c r] eqn:Hs; [done|].
  pose proof (strip_head _ _ _ _ Hs) as Hc.
  unfold strip.
  assert (lstrip comma_nl (String c r +:+ "," +:+ word)
          = String c r +:+ "," +:+ word) as ->.
  { apply (lstrip_id comma_nl c (r +:+ "," +:+ word) Hc). }
  assert (rstrip comma_nl ("," +:+ word) = String COMMA word) as Hr.
  { change ("," +:+ word) with (String COMMA word).
    cbn [rstrip]. rewrite rstrip_free by done. by destruct word. }
  rewrite (rstrip_app comma_nl (String c r) ("," +:+ word))
    by (by rewrite Hr).
  rewrite Hr, split_app.
  rewrite (split_free COMMA word) by done.
  unfold cells. by rewrite Hs.
Qed.

(** The cells read in the line [save_word] writes on a blank row: the word
    alone. *)
Lemma cells_saved_blank word :
  free_of comma_nl word = true ->
  cells ("" +:+ "," +:+ word +:+ nl) = [word].
Proof.
  intros Hfree. destruct (free_of_comma_nl word Hfree) as [Hcomma Hnl].
  unfold cells.
  change ("" +:+ "," +:+ word +:+ nl) with (String COMMA word +:+ nl).
  rewrite strip_nl by done.
  change (strip comma_nl (String COMMA word)) with (strip comma_nl word).
  rewrite strip_free by done. by apply split_free.
Qed.

(** The cells read in the line [save_word] writes for an empty word: those
    of the row. *)
Lemma cells_saved_empty line :
  strip comma_nl line <> "" ->
  cells (strip comma_nl line +:+ "," +:+ "" +:+ nl) = cells line.
Proof.
  intros Hline. unfold cells at 1.
  replace (strip comma_nl line +:+ "," +:+ "" +:+ nl)
    with ((strip comma_nl line +:+ ",") +:+ nl)
    by (by rewrite !string_app_assoc).
  rewrite strip_nl by done.
  destruct (strip comma_nl line) as [|c r] eqn:Hs; [done|].
  pose proof (strip_head _ _ _ _ Hs) as Hc.
  unfold strip.
  assert (lstrip comma_nl (String c r +:+ ",") = String c r +:+ ",") as ->.
  { apply (lstrip_id comma_nl c (r +:+ ",") Hc). }
  rewrite (rstrip_app_only comma_nl (String c r) ",") by done.
  unfold cells. rewrite Hs. f_equal. rewrite <-Hs. apply rstrip_rstrip.
Qed.

Lemma save_word_done st line word :
  lines st !! current_row_index st = Some line ->
  file_writable st = true ->
  let lines' :=
    <[current_row_index st := strip comma_nl line +:+ "," +:+ word +:+ nl]>
      (lines st) in
  save_word word st =
    Done (set_file (writelines lines') (set_lines lines' st)).
Proof. intros Hl Hw. unfold save_word. rewrite Hl. cbn. by rewrite Hw. Qed.

(** Rows that were read in a file, one of them rewritten by [save_word],
    are read again as they are, whatever the line separator of the
    platform. *)
Lemma saved_lines_reload text i line word linesep :
  read_file text !! i = Some line ->
  free_of crlf word = true ->
  linesep = nl \/ linesep = crlf ->
  let lines' :=
    <[i := strip comma_nl line +:+ "," +:+ word +:+ nl]> (read_file text) in
  read_file (write_text linesep (writelines lines')) = lines'.
Proof.
  intros Hline Hword Hsep lines'.
  destruct (free_of_crlf word Hword) as [Hcr Hnl].
  pose proof (text_lines_readlines (universal_newlines text)) as Htext.
  pose proof (readlines_universal_free text) as Hfree.
  fold (read_file text) in Htext, Hfree.
  unfold read_file at 1. rewrite universal_newlines_write_text; [|done|].
  - apply readlines_writelines, text_lines_insert; [done|].
    apply saved_line_full; [|done]. by eapply text_lines_strip.
  - apply free_of_writelines, Forall_insert; [done|].
    rewrite !free_of_app, Hcr, andb_true_r.
    apply strip_keeps_free.
    rewrite Forall_forall in Hfree. apply Hfree.
    by eapply list_elem_of_lookup_2.
Qed.

End HSave.

(** C2, as the code has it.  For every loaded file, every current row and
    every word without a line break, [save_word] returns, and reading the
    file again, on a platform of either line separator, gives the rows in
    memory: the same number of rows in the same order, every other row byte
    for byte as it was, and the current row replaced by its text stripped of
    the commas and the newline at both ends, then a comma, the word and a
    newline.  Of a word without a comma, the cells read in that row are: the
    cells it had followed by the word, when the row is not blank and the
    word not empty; the cells it had, when the row is not blank and the word
    empty; the word alone, when the row is blank. *)
Theorem save_word_reload (st : H.state) (text line word linesep : string) :
  H.lines st = H.read_file text ->
  H.lines st !! H.current_row_index st = Some line ->
  H.file_writable st = true ->
  free_of crlf word = true ->
  linesep = nl \/ linesep = crlf ->
  exists st',
    H.save_word word st = Done st' /\
    let reloaded := H.read_file (write_text linesep (H.file st')) in
    reloaded =
      <[H.current_row_index st :=
          strip H.comma_nl line +:+ "," +:+ word +:+ nl]> (H.lines st) /\
    H.lines st' = reloaded /\
    length reloaded = length (H.lines st) /\
    (forall j, j <> H.current_row_index st ->
       reloaded !! j = H.lines st !! j) /\
    (free_of "," word = true ->
     (H.cells <$> reloaded) !! H.current_row_index st =
       Some (if nonempty (strip H.comma_nl line)
             then if nonempty word then H.cells line ++ [word]
                  else H.cells line
             else [word])).
Proof.
  intros Htext Hline Hwritable Hword Hsep.
  set (lines' := <[H.current_row_index st :=
                     strip H.comma_nl line +:+ "," +:+ word +:+ nl]>
                  (H.lines st)).
  assert (H.read_file (write_text linesep (writelines lines')) = lines')
    as Hreload.
  { subst lines'. rewrite Htext in Hline |- *.
    by apply saved_lines_reload. }
  exists (H.set_file (writelines lines') (H.set_lines lines' st)).
  split; [by apply save_word_done|].
  cbn [H.file H.set_file H.lines H.set_lines]. cbn zeta. rewrite Hreload.
  subst lines'. split_and!; [done|done|by rewrite length_insert|..].
  - intros j Hj. by rewrite list_lookup_insert_ne.
  - intros Hcomma. rewrite list_lookup_fmap, list_lookup_insert_eq
      by (by eapply lookup_lt_Some).
    cbn [fmap option_fmap option_map]. f_equal.
    assert (free_of H.comma_nl word = true) as Hfree.
    { destruct (free_of_crlf word Hword) as [_ Hnl].
      by apply free_of_comma_and_nl. }
    destruct (nonempty (strip H.comma_nl line)) eqn:Hrow.
    + apply nonempty_true in Hrow.
      destruct (nonempty word) eqn:Hw.
      * apply cells_saved_line; [done|by apply nonempty_true|done].
      * apply nonempty_false in Hw as ->. by apply cells_saved_empty.
    + apply nonempty_false in Hrow as ->. by apply cells_saved_blank.
Qed.

Lemma save_word_reload_witness :
  let st := H.start ("Freq,2.4" +:+ nl +:+ "Mod,OFDM" +:+ nl)
              true "seed" in
  exists st',
    H.save_word "5.1" st = Done st' /\
    H.read_file (write_text crlf (H.file st'))
    = ["Freq,2.4,5.1" +:+ nl; "Mod,OFDM" +:+ nl] /\
    (H.cells <$> H.read_file (write_text crlf (H.file st'))) !! 0 =
      Some (H.cells ("Freq,2.4" +:+ nl) ++ ["5.1"]).
Proof.
  intros st.
  destruct (save_word_reload st ("Freq,2.4" +:+ nl +:+ "Mod,OFDM" +:+ nl)
              ("Freq,2.4" +:+ nl) "5.1" crlf)
    as (st' & Hsave & Hread & _ & _ & _ & Hcells);
    [reflexivity..|by right|].
  exists st'. split; [exact Hsave|]. split; [exact Hread|].
  apply Hcells. reflexivity.
Defined.

(** C2 fails in four ways.  On a blank row the reloaded row has the word as
    its label, not the empty label followed by the word.  A word with a
    comma is read back as two cells.  An empty word is not read back as a
    cell.  A word with a line break, a line feed or a carriage return, is
    read back as one more row. *)
Lemma save_word_reload_fails :
  (let st := H.start nl true "seed" in
   let st' := globals (H.save_word "w" st) in
   H.cells <$> H.lines st = [[""]] /\
   H.cells <$> H.read_file (H.file st') = [["w"]]) /\
  (let st := H.start ("Freq,2.4" +:+ nl) true "seed" in
   H.cells <$> H.lines st = [["Freq"; "2.4"]] /\
   H.cells <$> H.read_file (H.file (globals (H.save_word "a,b" st)))
   = [["Freq"; "2.4"; "a"; "b"]] /\
   H.cells <$> H.read_file (H.file (globals (H.save_word "" st)))
   = [["Freq"; "2.4"]] /\
   H.cells
     <$> H.read_file (H.file (globals (H.save_word ("a" +:+ nl +:+ "b") st)))
   = [["Freq"; "2.4"; "a"]; ["b"]] /\
   H.cells
     <$> H.read_file (H.file (globals (H.save_word ("a" +:+ cr +:+ "b") st)))
   = [["Freq"; "2.4"; "a"]; ["b"]]).
Proof. vm_compute. by split_and!. Qed.

Section HFlag.

Import H.

(** With the flag down, no event but the check box touches the file, the
    rows in memory or the flag. *)
Lemma handle_without_save e st :
  saveFlag st = false -> e <> ToggleSave ->
  saveFlag (globals (handle e st)) = false /\
  file (globals (handle e st)) = file st /\
  lines (globals (handle e st)) = lines st.
Proof.
  intros Hflag He.
  assert (forall st0, saveFlag st0 = false -> file st0 = file st ->
            lines st0 = lines st ->
            saveFlag (globals (on_enter st0)) = false /\
            file (globals (on_enter st0)) = file st /\
            lines (globals (on_enter st0)) = lines st) as Henter.
  { intros st0 Hf0 Hfile Hlines. pose proof (on_enter_spec st0) as Hspec.
    destruct (on_enter st0) as [st'|e' st']; cbn.
    - destruct Hspec as (_ & ? & _ & _ & Hsame & _).
      destruct (Hsame Hf0) as [-> ->]. done.
    - destruct Hspec as (? & _). congruence. }
  destruct e as [position|text| | |]; cbn; try done.
  - destruct (buttons st !! position) as [word|]; cbn; [|done].
    unfold insert_word. cbn. destruct (altbuttonFlag st); cbn; [|done].
    by apply Henter.
  - by apply Henter.
Qed.

Lemma mainloop_without_save events st :
  saveFlag st = false -> Forall (fun e => e <> ToggleSave) events ->
  saveFlag (mainloop events st) = false /\
  file (mainloop events st) = file st /\
  lines (mainloop events st) = lines st.
Proof.
  intros Hflag Hevents. revert st Hflag.
  induction Hevents as [|e events He _ IH]; intros st Hflag; [done|].
  cbn. destruct (quit st); [done|].
  destruct (handle_without_save e st Hflag He) as (Hflag' & <- & <-).
  by apply IH.
Qed.

(** A commit with the flag up, on a file that can be written and a row
    that exists: the row is rewritten with the text of the box, the file is
    written, and the flag is cleared. *)
Lemma on_enter_saves st line :
  saveFlag st = true -> file_writable st = true ->
  lines st !! current_row_index st = Some line ->
  exists st1,
    on_enter st = Done st1 /\ saveFlag st1 = false /\
    lines st1
    = <[current_row_index st :=
          strip comma_nl line +:+ "," +:+ textbox st +:+ nl]> (lines st) /\
    file st1 = writelines (lines st1).
Proof.
  intros Hflag Hw Hline. rewrite on_enter_unfold, Hflag.
  rewrite (save_word_done st line (textbox st) Hline Hw). cbn [and_then].
  set (lines' := <[current_row_index st := _]> (lines st)).
  destruct (update_buttons_frame
              (accept (set_file (writelines lines') (set_lines lines' st))))
    as (st' & -> & _ & _ & Hf & _ & Hfile & Hlines & _).
  rewrite accept_spec in Hf, Hfile, Hlines.
  cbn [saveFlag file lines set_file set_lines] in Hf, Hfile, Hlines.
  exists (set_textbox "" st'). split; [done|].
  cbn [saveFlag lines file set_textbox]. rewrite Hf, Hlines, Hfile. done.
Qed.

(** A commit with the flag up whose save fails raises out of [save_word],
    before the flag is cleared and before anything is committed. *)
Lemma on_enter_save_fails st :
  saveFlag st = true ->
  file_writable st = false \/ length (lines st) <= current_row_index st ->
  exists e st1,
    on_enter st = Raised e st1 /\ saveFlag st1 = true /\
    entered_text st1 = entered_text st /\ textbox st1 = textbox st /\
    file st1 = file st /\ shown st1 = shown st /\ quit st1 = quit st.
Proof.
  intros Hflag Hfail.
  assert (exists e st1, save_word (textbox st) st = Raised e st1)
    as (e & st1 & Hsave).
  { unfold save_word.
    destruct (lines st !! current_row_index st) as [line|] eqn:Hline;
      [|by eauto].
    destruct Hfail as [Hw|Hlen].
    - cbn. rewrite Hw. by eauto.
    - apply lookup_lt_Some in Hline. lia. }
  exists e, st1. rewrite on_enter_unfold, Hflag, Hsave. split; [done|].
  apply save_word_raised in Hsave as (? & ? & ? & _ & ? & ? & _ & ?).
  split_and!; congruence.
Qed.

End HFlag.

(** C9, as the code has it.  A commit completes when its save cannot fail:
    the flag is down, or the file can be written and the current row
    exists.  It then leaves the flag cleared, whether it saved or not: with
    the flag down it touches neither the file nor the rows in memory, with
    the flag up it rewrites the current row and the file; and whatever the
    user does next short of ticking the box again (further commits
    included), the flag stays cleared and nothing more is saved.  A commit
    whose save fails raises before the flag is cleared: the flag stays up,
    and nothing is committed. *)
Theorem on_enter_clears_saveFlag (st : H.state) (events : list H.event) :
  Forall (fun e => e <> H.ToggleSave) events ->
  ((H.saveFlag st = true ->
    H.file_writable st = true /\
    H.current_row_index st < length (H.lines st)) ->
   exists st1,
     H.on_enter st = Done st1 /\
     H.saveFlag st1 = false /\
     (H.saveFlag st = false ->
      H.file st1 = H.file st /\ H.lines st1 = H.lines st) /\
     (H.saveFlag st = true ->
      exists line,
        H.lines st !! H.current_row_index st = Some line /\
        H.lines st1
        = <[H.current_row_index st :=
              strip H.comma_nl line +:+ "," +:+ H.textbox st +:+ nl]>
            (H.lines st) /\
        H.file st1 = writelines (H.lines st1)) /\
     H.saveFlag (H.mainloop events st1) = false /\
     H.file (H.mainloop events st1) = H.file st1 /\
     H.lines (H.mainloop events st1) = H.lines st1) /\
  (H.saveFlag st = true ->
   H.file_writable st = false \/
   length (H.lines st) <= H.current_row_index st ->
   exists e st1,
     H.on_enter st = Raised e st1 /\
     H.saveFlag st1 = true /\
     H.entered_text st1 = H.entered_text st /\
     H.file st1 = H.file st /\
     H.shown st1 = H.shown st /\ H.quit st1 = H.quit st).
Proof.
  intros Hevents. split.
  - intros Hsafe. destruct (H.saveFlag st) eqn:Hflag.
    + destruct (Hsafe eq_refl) as [Hw Hlt].
      destruct (lookup_lt_is_Some_2 _ _ Hlt) as [line Hline].
      destruct (on_enter_saves st line Hflag Hw Hline)
        as (st1 & Henter & Hflag1 & Hlines & Hfile).
      exists st1. split_and!; [done|done|done|by eauto|..];
        by apply mainloop_without_save.
    + pose proof (on_enter_spec st) as Hspec.
      destruct (H.on_enter st) as [st1|e st1];
        [|destruct Hspec as (? & _); congruence].
      destruct Hspec as (_ & Hflag1 & _ & _ & Hsame & _).
      exists st1. split_and!; [done|done|by auto|done|..];
        by apply mainloop_without_save.
  - intros Hflag Hfail.
    destruct (on_enter_save_fails st Hflag Hfail)
      as (e & st1 & ? & ? & ? & _ & ? & ? & ?).
    exists e, st1. by split_and!.
Qed.

Lemma on_enter_clears_saveFlag_witness :
  let st :=
    H.set_textbox "5.1"
      (H.set_saveFlag true
         (H.start ("Freq,2.4" +:+ nl +:+ "Mod,OFDM" +:+ nl)
            true "seed")) in
  exists st1,
    H.on_enter st = Done st1 /\
    H.saveFlag st1 = false /\
    H.file st1 = writelines (H.lines st1) /\
    H.file (H.mainloop [H.Type_ "QAM"; H.Enter] st1) = H.file st1.
Proof.
  intros st.
  destruct (on_enter_clears_saveFlag st [H.Type_ "QAM"; H.Enter])
    as [Hdone _]; [repeat constructor; discriminate|].
  destruct Hdone as (st1 & Henter & Hflag & _ & Hsaved & _ & Hfile & _).
  { intros _. split; [reflexivity|]. apply le_S, le_n. }
  exists st1. split; [exact Henter|]. split; [exact Hflag|].
  split; [|exact Hfile].
  destruct (Hsaved eq_refl) as (line & _ & _ & Hwritten). exact Hwritten.
Defined.

(** C9 fails on a commit whose save fails: the flag is still up after it,
    and the next commit saves too, without the box having been ticked again.
    Both words end in the row, in memory while the file stays locked, and in
    the file once it can be written. *)
Lemma failed_commit_keeps_saveFlag :
  let st0 :=
    H.start ("Freq,2.4" +:+ nl +:+ "Mod,OFDM" +:+ nl) false "seed" in
  let st1 := H.mainloop [H.ToggleSave; H.Type_ "5.1"; H.Enter] st0 in
  let locked := H.mainloop [H.Type_ "5.7"; H.Enter] st1 in
  let released := H.mainloop [H.Type_ "5.7"; H.Enter] (H_release st1) in
  H.saveFlag st1 = true /\ H.entered_text st1 = "seed" /\
  H.saveFlag locked = true /\
  H.lines locked = ["Freq,2.4,5.1,5.7" +:+ nl; "Mod,OFDM" +:+ nl] /\
  H.saveFlag released = false /\
  H.file released = "Freq,2.4,5.1,5.7" +:+ nl +:+ "Mod,OFDM" +:+ nl.
Proof. vm_compute. by split_and!. Qed.

Section HCells.

Implicit Types (s : string) (ws : list string).

(** A first cell is blank only in an empty text or before a separator. *)
Lemma split_head_empty sep s ws :
  split sep s = "" :: ws -> s = "" \/ exists r, s = String sep r.
Proof.
  destruct s as [|c s]; [by left|]. cbn [split].
  destruct (Ascii.eqb_spec c sep) as [->|_]; [by eauto|].
  by destruct (split sep s).
Qed.

(** A last cell is blank only in an empty text or after a separator. *)
Lemma split_last_empty sep s :
  last (split sep s) = Some "" ->
  s = "" \/ exists r, s = r +:+ String sep "".
Proof.
  induction s as [|c s IH]; [by left|]. cbn [split].
  destruct (split_cons sep s) as (w & ws & Hs). rewrite Hs in IH |- *.
  destruct (Ascii.eqb_spec c sep) as [->|_].
  - rewrite last_cons. destruct (last (w :: ws)) as [x|] eqn:Hlast.
    + intros [= ->]. right.
      destruct IH as [->|[r ->]]; [done|by exists ""|].
      by exists (String sep r).
    + by apply last_None in Hlast.
  - destruct ws as [|w' ws]; [done|].
    change (last (String c w :: w' :: ws)) with (last (w :: w' :: ws)).
    intros Hlast. right. destruct (IH Hlast) as [->|[r ->]]; [done|].
    by exists (String c r).
Qed.

(** In a stripped line only a blank line has a blank first or last cell. *)
Lemma cells_blank_ends line label options :
  H.cells line = label :: options ->
  (label = "" \/ last (label :: options) = Some "") ->
  strip H.comma_nl line = "" /\ label = "" /\ options = [].
Proof.
  unfold H.cells. intros Hcells Hblank.
  assert (strip H.comma_nl line = "") as Hs.
  { destruct Hblank as [->|Hlast].
    - apply split_head_empty in Hcells as [?|[r Hr]]; [done|].
      by apply strip_head in Hr.
    - rewrite <-Hcells in Hlast.
      apply split_last_empty in Hlast as [?|[r Hr]]; [done|].
      by apply strip_last in Hr. }
  rewrite Hs in Hcells. by injection Hcells as <- <-.
Qed.

End HCells.

(** C6, as the code has it.  [update_buttons] takes the next line, drops
    every comma and newline at its start and at its end, and cuts what is
    left at the commas: the first piece is the label and the others are the
    options, each as it stands, blank ones between two commas included.  So a
    blank cell is kept inside the line, and dropped at its start and at its
    end: the label and the last option are blank in a blank line only. *)
Theorem update_buttons_section (st : H.state) (line : string) :
  H.lines st !! H.current_line st = Some line ->
  exists st' label options pre post,
    H.update_buttons st = Done st' /\
    H.colstr1 st' = label /\ H.buttons st' = options /\
    label :: options = split COMMA (strip H.comma_nl line) /\
    line = pre +:+ join "," (label :: options) +:+ post /\
    only H.comma_nl pre = true /\ only H.comma_nl post = true /\
    (label = "" \/ last (label :: options) = Some "" ->
     label = "" /\ options = []).
Proof.
  intros Hline. pose proof (update_buttons_spec st) as Hspec.
  rewrite Hline in Hspec. destruct Hspec as (label & options & Hcells & ->).
  destruct (strip_decompose H.comma_nl line) as (pre & post & Hdec & ? & ?).
  eexists _, label, options, pre, post. split; [done|].
  do 3 (split; [done|]). split; [|split; [done|split; [done|]]].
  - rewrite <-Hcells. unfold H.cells.
    change "," with (String COMMA ""). by rewrite join_split.
  - intros Hblank.
    by destruct (cells_blank_ends line label options Hcells Hblank) as (_ & ?).
Qed.

Lemma update_buttons_section_witness :
  let st :=
    H.start ("Freq,2.4" +:+ nl +:+ "Mod,OFDM,,QAM," +:+ nl)
      true "seed" in
  exists st' pre post,
    H.update_buttons st = Done st' /\
    H.colstr1 st' = "Mod" /\ H.buttons st' = ["OFDM"; ""; "QAM"] /\
    "Mod,OFDM,,QAM," +:+ nl = pre +:+ "Mod,OFDM,,QAM" +:+ post.
Proof.
  intros st.
  destruct (update_buttons_section st ("Mod,OFDM,,QAM," +:+ nl))
    as (st' & label & options & pre & post & Hu & Hl & Ho & Hc & Hd & _);
    [reflexivity|].
  injection Hc as -> ->.
  exists st', pre, post. repeat split; assumption.
Defined.

(** C6 fails on a line that starts with a blank cell: the blank cell is not
    the label, the cell after it is. *)
Lemma update_buttons_drops_leading_cell :
  let line := ",2.4,5.1" +:+ nl in
  let st := H.start ("Mod,OFDM" +:+ nl +:+ line) true "seed" in
  let st' := globals (H.update_buttons st) in
  H.lines st !! H.current_line st = Some line /\
  cells_verbatim line = [""; "2.4"; "5.1"] /\
  H.colstr1 st' = "2.4" /\ H.buttons st' = ["5.1"] /\
  H.colstr1 st' :: H.buttons st' <> cells_verbatim line.
Proof. vm_compute. repeat split; discriminate. Qed.

(** ** Facts about [fsw_file_namer_V.py] *)

Section Transpose.

Implicit Types (data : list (list string)) (row col : list string).

(** Column [j] of the transposed table holds cell [j] of every row, and
    there is such a column only if every row has a cell [j]. *)
Lemma zip_star_lookup data j :
  data <> [] -> zip_star data !! j = mapM (fun row => row !! j) data.
Proof.
  induction data as [|row rest IH]; [done|]. intros _.
  destruct rest as [|row' rest].
  - cbn [zip_star mapM]. rewrite list_lookup_fmap.
    by destruct (row !! j).
  - change (zip_star (row :: row' :: rest))
      with (zip_with cons row (zip_star (row' :: rest))).
    rewrite lookup_zip_with, IH by done.
    change (mapM (fun row => row !! j) (row :: row' :: rest))
      with (row !! j ≫= fun y =>
            mapM (fun row => row !! j) (row' :: rest) ≫= fun k =>
            mret (y :: k)).
    by destruct (row !! j).
Qed.

Lemma zip_star_lookup_Some data j col :
  zip_star data !! j = Some col ->
  Forall2 (fun row cell => row !! j = Some cell) data col.
Proof.
  destruct data as [|row rest]; [done|].
  rewrite zip_star_lookup by done. apply mapM_Some_1.
Qed.

(** The first cell of column [j] is the header of the column. *)
Lemma zip_star_header data header j col :
  data !! 0 = Some header -> zip_star data !! j = Some col ->
  exists h cells, col = h :: cells /\ header !! j = Some h.
Proof.
  intros Hh Hcol%zip_star_lookup_Some.
  destruct Hcol as [|row cell data' col' Hcell _]; [done|].
  injection Hh as ->. by eauto.
Qed.

(** Cell [i] of column [j] is cell [j] of row [i]. *)
Lemma zip_star_cell data j col i w :
  zip_star data !! j = Some col -> col !! i = Some w ->
  exists row, data !! i = Some row /\ row !! j = Some w.
Proof.
  intros Hcol%zip_star_lookup_Some Hw.
  destruct (Forall2_lookup_r _ _ _ _ _ Hcol Hw) as (row & ? & ?).
  by eauto.
Qed.

(** A rectangular table has a column for every cell of its header. *)
Lemma zip_star_lookup_None n data header j :
  rectangular n data -> data !! 0 = Some header ->
  zip_star data !! j = None -> header !! j = None.
Proof.
  intros Hrect Hh. destruct data as [|row rest]; [done|].
  rewrite zip_star_lookup by done.
  intros Hex%mapM_None_1. apply Exists_exists in Hex as (row' & Hin & Hj).
  apply lookup_ge_None. apply lookup_ge_None in Hj.
  unfold rectangular in Hrect. rewrite Forall_forall in Hrect.
  rewrite (Hrect header), <-(Hrect row'); [done|done|].
  injection Hh as ->. by left.
Qed.

Lemma index_lookup word row i :
  index word row = Some i -> row !! i = Some word.
Proof.
  revert i. induction row as [|w row IH]; intros i; [done|]. cbn [index].
  destruct (String.eqb_spec w word) as [->|Hne].
  - by intros [= <-].
  - destruct (index word row) as [i'|]; [|done].
    intros [= <-]. by apply IH.
Qed.

(** [index] finds the first occurrence. *)
Lemma index_first word row i j :
  index word row = Some i -> j < i -> row !! j <> Some word.
Proof.
  revert i j. induction row as [|w row IH]; intros i j; [done|].
  cbn [index]. destruct (String.eqb_spec w word) as [->|Hne].
  - intros [= <-]. lia.
  - destruct (index word row) as [i'|] eqn:Hi; [|done].
    intros [= <-] Hj. destruct j as [|j]; cbn.
    + congruence.
    + apply (IH i'); [done|lia].
Qed.

Lemma index_is_Some word row :
  word ∈ row -> exists i, index word row = Some i.
Proof.
  induction row as [|w row IH]; [by intros ?%elem_of_nil|].
  cbn [index]. destruct (String.eqb_spec w word) as [->|Hne]; [by eauto|].
  intros [?|Hin]%elem_of_cons; [done|].
  destruct (IH Hin) as [i ->]. by eauto.
Qed.

(** The run of columns without a header stops before a header or at the
    end of the table. *)
Lemma anonymous_run_stop header h :
  header !! anonymous_run header = Some h -> h <> "".
Proof.
  induction header as [|h' header IH]; [done|]. cbn [anonymous_run].
  destruct (String.eqb_spec h' "") as [->|Hne]; cbn; [done|].
  by intros [= <-].
Qed.

Lemma anonymous_run_blank header j :
  j < anonymous_run header -> header !! j = Some "".
Proof.
  revert j. induction header as [|h' header IH]; intros j; cbn; [lia|].
  destruct (String.eqb_spec h' "") as [->|Hne]; [|lia].
  destruct j as [|j]; [done|]. intros Hj. apply IH. lia.
Qed.

Lemma anonymous_run_length header : anonymous_run header <= length header.
Proof.
  induction header as [|h header IH]; cbn; [done|].
  destruct (String.eqb h ""); lia.
Qed.

End Transpose.

Section VWalker.

Import V.

Implicit Types (st : state) (rows : list (list string)).

(** The loop of [update_buttons] passes rows without a label only, and
    stops on a row with a label, past the last row, or on a row without
    any cell. *)
Lemma skip_empty_rows_spec rows cri :
  exists n,
    (skip_empty_rows rows cri).1 = cri + n /\
    (forall j, j < n -> exists cells, rows !! j = Some ("" :: cells)) /\
    match (skip_empty_rows rows cri).2 with
    | Some words =>
        exists label options,
          words = label :: options /\ label <> "" /\ rows !! n = Some words
    | None => rows !! n = None \/ rows !! n = Some []
    end.
Proof.
  revert cri. induction rows as [|words rows IH]; intros cri.
  - exists 0. cbn. split; [lia|]. split; [lia|by left].
  - cbn [skip_empty_rows]. destruct words as [|label options].
    + exists 0. cbn. split; [lia|]. split; [lia|by right].
    + destruct (String.eqb_spec label "") as [->|Hne].
      * destruct (IH (S cri)) as (n & Hn & Hblank & Hstop).
        exists (S n). split; [lia|]. split; [|done].
        intros [|j] Hj; [by eauto|]. apply Hblank. lia.
      * exists 0. cbn. split; [lia|]. split; [lia|by eauto].
Qed.

(** [update_buttons] spelled out. *)
Lemma V_update_buttons_spec st :
  let st' := update_buttons st in
  exists k,
    current_row_index st <= k /\
    (forall j, current_row_index st <= j < k ->
       exists cells, transposed_data st !! j = Some ("" :: cells)) /\
    entered_text st' = entered_text st /\ textbox st' = textbox st /\
    altbuttonFlag st' = altbuttonFlag st /\ connector st' = connector st /\
    og_data st' = og_data st /\ transposed_data st' = transposed_data st /\
    ((quit st' = true /\ shown st' = shown st /\
      current_row_index st' = k /\
      (transposed_data st !! k = None \/ transposed_data st !! k = Some []))
     \/
     (exists label options,
        transposed_data st !! k = Some (label :: options) /\ label <> "" /\
        quit st' = quit st /\ current_row_index st' = S k /\
        colstr1 st' = label /\
        buttons st' = filter (fun w => nonempty w = true) options /\
        shown st' =
          (label, filter (fun w => nonempty w = true) options) :: shown st)).
Proof.
  intros st'. subst st'. unfold update_buttons.
  destruct (transposed_data st !! current_row_index st) as [row|] eqn:Hrow.
  - cbn [clear_buttons set_buttons current_row_index transposed_data].
    destruct (skip_empty_rows_spec
                (drop (current_row_index st) (transposed_data st))
                (current_row_index st)) as (n & Hn & Hblank & Hstop).
    destruct (skip_empty_rows _ _) as [cri r]. cbn [fst snd] in *.
    subst cri. exists (current_row_index st + n). split; [lia|]. split.
    { intros j Hj. destruct (Hblank (j - current_row_index st)) as [c Hc];
        [lia|]. exists c. rewrite lookup_drop in Hc.
      by replace (current_row_index st + (j - current_row_index st))
        with j in Hc by lia. }
    rewrite lookup_drop in Hstop.
    destruct r as [[|label options]|].
    + by destruct Hstop as (? & ? & ? & _).
    + destruct Hstop as (? & ? & [= <- <-] & Hne & Hk). cbn.
      repeat (split; [done|]). right. exists label, options. done.
    + cbn. repeat (split; [done|]). by left.
  - exists (current_row_index st). split; [lia|]. split; [lia|]. cbn.
    repeat (split; [done|]). left. by auto.
Qed.

(** What a call of [on_enter] does to the title, the cursor and the
    history. *)
Lemma V_on_enter_spec st :
  let st' := on_enter st in
  entered_text st' =
    (if nonempty (textbox st)
     then entered_text st +:+ connector st +:+ textbox st
     else entered_text st) /\
  textbox st' = "" /\ altbuttonFlag st' = altbuttonFlag st /\
  connector st' = connector st /\ og_data st' = og_data st /\
  transposed_data st' = transposed_data st /\
  ((quit st' = true /\ shown st' = shown st /\
    current_row_index st <= current_row_index st') \/
   (quit st' = quit st /\ current_row_index st < current_row_index st' /\
    exists label options,
      label <> "" /\ colstr1 st' = label /\
      shown st' = (label, options) :: shown st)).
Proof.
  intros st'. subst st'. unfold on_enter.
  set (st1 := if nonempty (textbox st) then _ else st).
  assert (entered_text st1 =
            (if nonempty (textbox st)
             then entered_text st +:+ connector st +:+ textbox st
             else entered_text st) /\
          altbuttonFlag st1 = altbuttonFlag st /\
          connector st1 = connector st /\ og_data st1 = og_data st /\
          transposed_data st1 = transposed_data st /\
          quit st1 = quit st /\ shown st1 = shown st /\
          current_row_index st1 = current_row_index st)
    as (Ht & Ha & Hc & Ho & Htr & Hq & Hs & Hi).
  { subst st1. by destruct (nonempty (textbox st)). }
  destruct (V_update_buttons_spec st1)
    as (k & Hk & _ & Ht' & _ & Ha' & Hc' & Ho' & Htr' & Hcases).
  cbn. rewrite Ht', Ha', Hc', Ho', Htr', Ht, Ha, Hc, Ho, Htr.
  repeat (split; [done|]).
  destruct Hcases as [(? & ? & ? & _)|(label & options & _ & ? & ? & ? & ? & _ & ?)].
  - left. split; [done|]. split; [congruence|lia].
  - right. split; [congruence|]. split; [lia|].
    exists label, (filter (fun w => nonempty w = true) options).
    split; [done|]. split; [done|]. congruence.
Qed.

End VWalker.

Section VInsert.

Import V.

Implicit Types (st : state) (vals acc : list string) (word : string).

Lemma set_current_row_index_id st :
  set_current_row_index (current_row_index st) st = st.
Proof. by destruct st. Qed.

Lemma set_current_row_index_twice c c' st :
  set_current_row_index c (set_current_row_index c' st)
  = set_current_row_index c st.
Proof. done. Qed.

(** The loop of [insert_word] moves the cursor forward and changes nothing
    else in the globals, also when it raises. *)
Lemma collect_state vals acc st :
  exists c,
    current_row_index st <= c /\
    match collect vals acc st with
    | Done (_, st') => st' = set_current_row_index c st
    | Raised _ (_, st') => st' = set_current_row_index c st
    end.
Proof.
  revert acc st. induction vals as [|val vals IH]; intros acc st.
  - exists (current_row_index st). cbn.
    by rewrite set_current_row_index_id.
  - cbn [collect]. destruct (og_data st !! 0) as [header|].
    2:{ exists (current_row_index st). cbn.
        by rewrite set_current_row_index_id. }
    destruct (header !! current_row_index st) as [h|].
    2:{ exists (current_row_index st). cbn.
        by rewrite set_current_row_index_id. }
    destruct (String.eqb h "").
    + destruct (IH (if nonempty val then acc ++ [val] else acc)
                  (set_current_row_index (S (current_row_index st)) st))
        as (c & Hc & Hst).
      exists c. cbn in Hc. split; [lia|].
      by rewrite set_current_row_index_twice in Hst.
    + apply IH.
Qed.

(** The ways out of [insert_word] that leave the cursor where it is. *)
Local Ltac cursor_stays Hstay :=
  let c := fresh "c" in
  let Hc := fresh "Hc" in
  let Hst := fresh "Hst" in
  destruct Hstay as (c & Hc & Hst); exists c; split; [done|];
  cbn zeta; rewrite <-Hst.

(** The three ways out of [insert_word]: an exception, a folder, or the
    word in the text box, committed at once in "Alt Button" mode.  The
    cursor may have moved forward in each. *)
Lemma insert_word_cases word st :
  exists c,
    current_row_index st <= c /\
    let st0 := set_current_row_index c (set_textbox "" st) in
    match insert_word word st with
    | Raised _ st' => st' = st0
    | Done st' =>
        st' = insert_plain word st0 \/
        exists subsection_values,
          subsection_values <> [] /\
          st' = handle_subsection subsection_values word st0
    end.
Proof.
  unfold insert_word.
  assert (exists c, current_row_index st <= c /\
            set_textbox "" st
            = set_current_row_index c (set_textbox "" st)) as Hstay.
  { exists (current_row_index st). split; [done|]. by destruct st. }
  cbn [transposed_data current_row_index set_textbox og_data].
  destruct (transposed_data st !! current_row_index st) as [next_row|];
    [|cursor_stays Hstay; by left].
  destruct next_row as [|h next_row]; [by cursor_stays Hstay|].
  destruct (String.eqb h ""); [|cursor_stays Hstay; by left].
  destruct (before (transposed_data st) (current_row_index st)) as [row|];
    [|by cursor_stays Hstay].
  destruct (index word row) as [word_index|]; [|by cursor_stays Hstay].
  destruct (og_data st !! word_index) as [og_row|]; [|by cursor_stays Hstay].
  destruct (collect_state (drop (current_row_index st) og_row) []
              (set_textbox "" st)) as (c & Hc & Hst).
  exists c. split; [done|]. cbn zeta.
  destruct (collect _ _ _) as [[subs st']|e [subs st']]; subst st'; [|done].
  destruct subs as [|sub subs]; [by left|]. right.
  exists (sub :: subs). by split.
Qed.

End VInsert.

(** ** Sessions *)

Section Join.

Implicit Types (sep title t : string) (toks : list string).

(** A title with one more token is the title followed by the token. *)
Lemma join_push sep title t toks :
  join sep ((title +:+ sep +:+ t) :: toks) = join sep (title :: t :: toks).
Proof.
  destruct toks as [|t' toks]; [done|].
  rewrite !join_cons. by rewrite !string_app_assoc.
Qed.

Lemma join_snoc sep title toks t :
  join sep (title :: toks ++ [t]) = join sep (title :: toks) +:+ sep +:+ t.
Proof.
  revert title. induction toks as [|t' toks IH]; intros title; [done|].
  change ((t' :: toks) ++ [t]) with (t' :: (toks ++ [t])).
  rewrite <-!join_push. apply IH.
Qed.

Lemma string_app_eq_nil s t : s +:+ t = "" -> s = "" /\ t = "".
Proof. by destruct s. Qed.

Lemma string_app_cancel s t : s +:+ t = s -> t = "".
Proof.
  induction s as [|c s IH]; [done|]. cbn. intros [= Hs]. by apply IH.
Qed.

End Join.

Section Start.

(** [run_file_reader] reaches the main loop on every file. *)
Lemma H_run_file_reader_done text writable seed :
  H.run_file_reader text writable seed = Done (H.start text writable seed).
Proof.
  unfold H.start, H.run_file_reader. cbn [H.lines H.current_line].
  destruct (H.read_file text !! 0) as [line|]; [|done].
  by destruct (cells_cons line) as (label & options & ->).
Qed.

Lemma H_run_file_reader_start text writable seed :
  let st := H.start text writable seed in
  H.entered_text st = seed /\ H.quit st = false /\
  length (H.shown st) <= 1.
Proof.
  unfold H.start, H.run_file_reader. cbn [H.lines H.current_line].
  destruct (H.read_file text !! 0) as [line|];
    [|cbn; split_and!; (done || lia)].
  destruct (cells_cons line) as (label & options & ->). cbn.
  split_and!; (done || lia).
Qed.

Lemma V_run_file_reader_start data seed :
  let st := V.run_file_reader data seed in
  V.entered_text st = seed /\ V.quit st = false /\
  V.connector st = " - " /\ length (V.shown st) <= 1.
Proof.
  unfold V.run_file_reader. cbn.
  destruct (zip_star data !! 0) as [[|label options]|]; cbn;
    split_and!; (done || lia).
Qed.

End Start.



Section Selections.

Lemma H_commit_each_cons token tokens st :
  H.mainloop (H.commit_each (token :: tokens)) st
  = if H.quit st then st
    else H.mainloop (H.commit_each tokens)
           (globals (H.on_enter (H.set_textbox token st))).
Proof. cbn. by destruct (H.quit st). Qed.

Lemma V_commit_each_cons token tokens st :
  V.mainloop (V.commit_each (token :: tokens)) st
  = if V.quit st then st
    else V.mainloop (V.commit_each tokens)
           (V.on_enter (V.set_textbox token st)).
Proof. cbn. by destruct (V.quit st). Qed.

End Selections.

(** ** Folders of sub-options *)

Section VFolders.

Import V.

Implicit Types (st : state) (vals acc header row : list string).

(** Past the columns without a header the loop of [insert_word] does
    nothing more. *)
Lemma collect_stuck vals acc st header h :
  og_data st !! 0 = Some header ->
  header !! current_row_index st = Some h -> h <> "" ->
  collect vals acc st = Done (acc, st).
Proof.
  intros Hheader Hh Hne. induction vals as [|val vals IH]; [done|].
  cbn [collect]. rewrite Hheader, Hh.
  by destruct (String.eqb_spec h "").
Qed.

(** In a rectangular table the loop of [insert_word] collects the cells
    that are not blank in the columns without a header at the cursor, and
    leaves the cursor after these columns. *)
Lemma collect_spec vals acc st header :
  og_data st !! 0 = Some header ->
  current_row_index st + length vals = length header ->
  let r := anonymous_run (drop (current_row_index st) header) in
  collect vals acc st
  = Done (acc ++ filter (fun w => nonempty w = true) (take r vals),
          set_current_row_index (current_row_index st + r) st).
Proof.
  revert acc st. induction vals as [|val vals IH]; intros acc st Hheader Hlen.
  - cbn in Hlen. rewrite drop_ge by lia. cbn.
    by rewrite app_nil_r, Nat.add_0_r, set_current_row_index_id.
  - cbn [length] in Hlen.
    destruct (lookup_lt_is_Some_2 header (current_row_index st)) as [h Hh];
      [lia|].
    rewrite (drop_S _ _ _ Hh). cbn [anonymous_run collect].
    rewrite Hheader, Hh. destruct (String.eqb_spec h "") as [->|Hne].
    + rewrite (IH _ (set_current_row_index (S (current_row_index st)) st))
        by (cbn; first [done|lia]).
      cbn [current_row_index set_current_row_index take].
      rewrite filter_cons. f_equal. f_equal.
      * destruct (nonempty val) eqn:Hval.
        -- rewrite decide_True by done. by rewrite <-app_assoc.
        -- by rewrite decide_False by done.
      * unfold set_current_row_index. cbn. f_equal. lia.
    + rewrite (collect_stuck vals acc st header h) by done. cbn.
      by rewrite app_nil_r, Nat.add_0_r, set_current_row_index_id.
Qed.

(** A click on a button whose next column has a header, or is missing,
    opens no folder. *)
Lemma insert_word_plain word st :
  (forall next_row, transposed_data st !! current_row_index st = Some next_row ->
     exists h cells, next_row = h :: cells /\ h <> "") ->
  insert_word word st = Done (insert_plain word (set_textbox "" st)).
Proof.
  intros Hnext. unfold insert_word.
  cbn [transposed_data current_row_index set_textbox].
  destruct (transposed_data st !! current_row_index st) as [next_row|];
    [|done].
  destruct (Hnext next_row eq_refl) as (h & cells & -> & Hne).
  by destruct (String.eqb_spec h "").
Qed.

Lemma filter_nonempty_twice (ws : list string) :
  filter (fun w => nonempty w = true) (filter (fun w => nonempty w = true) ws)
  = filter (fun w => nonempty w = true) ws.
Proof.
  induction ws as [|w ws IH]; [done|]. rewrite filter_cons.
  destruct (decide (nonempty w = true)); [|done].
  rewrite filter_cons, decide_True by done. by rewrite IH.
Qed.

(** The table and its rows, seen from a column of the transposed table. *)
Lemma table_rows st k column i word :
  transposed_data st = zip_star (og_data st) ->
  transposed_data st !! k = Some column -> column !! i = Some word ->
  exists header row,
    og_data st !! 0 = Some header /\ og_data st !! i = Some row /\
    row !! k = Some word.
Proof.
  intros Htr Hcol Hi. rewrite Htr in Hcol.
  destruct (zip_star_cell _ _ _ _ _ Hcol Hi) as (row & Hrow & Hcell).
  destruct (og_data st) as [|header rest] eqn:Hog; [done|].
  exists header, row. by split_and!.
Qed.

(** A click on an option of the section on screen, in a rectangular
    table: the folder of the first row that holds the text of the option,
    or the option itself when that row has no sub-option. *)
Lemma insert_word_expand st n k column word i header row :
  transposed_data st = zip_star (og_data st) ->
  rectangular n (og_data st) ->
  current_row_index st = S k ->
  transposed_data st !! k = Some column ->
  index word column = Some i ->
  og_data st !! 0 = Some header -> og_data st !! i = Some row ->
  let r := anonymous_run (drop (S k) header) in
  let st0 := set_current_row_index (S k + r) (set_textbox "" st) in
  insert_word word st
  = Done (match sub_options header row k with
          | [] => insert_plain word st0
          | subsection_values => handle_subsection subsection_values word st0
          end).
Proof.
  intros Htr Hrect Hcri Hcol Hi Hheader Hrow r st0.
  assert (length header = n /\ length row = n) as [Hlh Hlr].
  { unfold rectangular in Hrect. rewrite Forall_forall in Hrect.
    split; apply Hrect; by eapply list_elem_of_lookup_2. }
  assert (r = 0 -> sub_options header row k = [] /\
                   st0 = set_textbox "" st) as Hzero.
  { intros Hr. subst st0. unfold sub_options. fold r. rewrite Hr.
    split; [done|]. rewrite Nat.add_0_r, <-Hcri.
    by destruct st. }
  destruct (transposed_data st !! S k) as [next_row|] eqn:Hnext.
  - rewrite Htr in Hnext.
    destruct (zip_star_header _ _ _ _ Hheader Hnext)
      as (h & cells & -> & Hh).
    destruct (String.eqb_spec h "") as [->|Hne].
    + unfold insert_word.
      cbn [transposed_data current_row_index set_textbox og_data].
      rewrite Hcri, Htr, Hnext. cbn [before String.eqb].
      rewrite <-Htr, Hcol, Hi, Hrow.
      rewrite (collect_spec _ _ _ header);
        cbn [current_row_index set_textbox og_data]; rewrite ?Hcri;
        [|done|].
      2:{ rewrite length_drop. apply lookup_lt_Some in Hh. lia. }
      cbn [app]. fold r. unfold sub_options. fold r. fold st0.
      by destruct (filter _ _).
    + assert (r = 0) as Hr.
      { subst r. rewrite (drop_S _ _ _ Hh). cbn [anonymous_run].
        by destruct (String.eqb_spec h ""). }
      destruct (Hzero Hr) as [-> ->]. apply insert_word_plain.
      rewrite Hcri, Htr, Hnext. intros ? [= <-]. by eauto.
  - assert (r = 0) as Hr.
    { rewrite Htr in Hnext.
      apply (zip_star_lookup_None n _ header) in Hnext; [|done..].
      apply lookup_ge_None in Hnext. subst r. by rewrite drop_ge. }
    destruct (Hzero Hr) as [-> ->]. apply insert_word_plain.
    by rewrite Hcri, Hnext.
Qed.

End VFolders.

Section VFolderFacts.

Import V.

Implicit Types (st : state).

(** What [insert_plain] does, in either mode of the "Alt Button". *)
Lemma insert_plain_spec word st :
  textbox st = "" -> nonempty word = true ->
  exists st1,
    textbox st1 = word /\ entered_text st1 = entered_text st /\
    insert_plain word st
    = (if altbuttonFlag st then on_enter st1 else st1) /\
    entered_text (on_enter st1)
    = entered_text st +:+ connector st +:+ word.
Proof.
  intros Hbox Hword. exists (set_textbox word st).
  split; [done|]. split; [done|]. split.
  - unfold insert_plain. rewrite Hbox. done.
  - destruct (V_on_enter_spec (set_textbox word st)) as (-> & _).
    cbn. by rewrite Hword.
Qed.

(** After a folder was opened the cursor is on a column with a header, or
    past the table. *)
Lemma after_folder st k header next_row :
  transposed_data st = zip_star (og_data st) ->
  og_data st !! 0 = Some header ->
  transposed_data st !! (S k + anonymous_run (drop (S k) header))
  = Some next_row ->
  exists h cells, next_row = h :: cells /\ h <> "".
Proof.
  intros Htr Hheader Hnext. rewrite Htr in Hnext.
  destruct (zip_star_header _ _ _ _ Hheader Hnext) as (h & cells & -> & Hh).
  exists h, cells. split; [done|].
  apply (anonymous_run_stop (drop (S k) header)). by rewrite lookup_drop.
Qed.

End VFolderFacts.

(** C1.  In a rectangular table, when a section is on screen and the user
    selects one of its options, the sub-options of the option are the cells
    that are not blank, in the row of the table where the text of the option
    first stands in the column of the section, under the columns without a
    header that follow that column.  If there are some, they are shown as a
    folder labeled with the option followed by " values"; the title is not
    touched and no top-level section is consumed; selecting one of them
    appends it, and not the option, to the title.  If there are none, the
    option itself is appended.  ("Selecting" commits at once in "Alt Button"
    mode, and puts the word in the text box for the next commit otherwise.)
    On the table of the specification: "2.4" opens the folder of 2412 and
    2437, 2437 then gives "seed - 2437", and "5.7" gives "seed - 5.7". *)
Theorem subsection_expansion :
  (forall (st : V.state) (n k i : nat) (column : list string) (word : string),
     V.transposed_data st = zip_star (V.og_data st) ->
     rectangular n (V.og_data st) ->
     V.current_row_index st = S k ->
     V.transposed_data st !! k = Some column ->
     index word column = Some i ->
     word <> "" ->
     exists header row,
       V.og_data st !! 0 = Some header /\ V.og_data st !! i = Some row /\
       row !! k = Some word /\
       (sub_options header row k <> [] ->
        exists st',
          V.insert_word word st = Done st' /\
          V.colstr1 st' = word +:+ " values" /\
          V.buttons st' = sub_options header row k /\
          V.entered_text st' = V.entered_text st /\
          V.shown st' = V.shown st /\ V.quit st' = V.quit st /\
          forall sub,
            sub ∈ sub_options header row k ->
            exists st1,
              V.textbox st1 = sub /\
              V.insert_word sub st'
              = Done (if V.altbuttonFlag st then V.on_enter st1 else st1) /\
              V.entered_text (V.on_enter st1)
              = V.entered_text st +:+ V.connector st +:+ sub) /\
       (sub_options header row k = [] ->
        exists st1,
          V.textbox st1 = word /\ V.entered_text st1 = V.entered_text st /\
          V.insert_word word st
          = Done (if V.altbuttonFlag st then V.on_enter st1 else st1) /\
          V.entered_text (V.on_enter st1)
          = V.entered_text st +:+ V.connector st +:+ word)) /\
  (let table :=
     [["Tests"; "Freq"; ""; ""]; ["PSD"; "2.4"; "2412"; "2437"];
      ["PWR"; "5.1"; "5180"; ""]; ["OBW"; "5.7"; ""; ""]] in
   let freq := V.on_enter (V.run_file_reader table "seed") in
   V.colstr1 freq = "Freq" /\ V.buttons freq = ["2.4"; "5.1"; "5.7"] /\
   (exists folder final,
      V.insert_word "2.4" freq = Done folder /\
      V.colstr1 folder = "2.4 values" /\
      V.buttons folder = ["2412"; "2437"] /\
      V.entered_text folder = "seed" /\ V.shown folder = V.shown freq /\
      V.insert_word "2437" folder = Done final /\
      V.entered_text final = "seed - 2437") /\
   (exists final,
      V.insert_word "5.7" freq = Done final /\
      V.entered_text final = "seed - 5.7")).
Proof.
  split.
  - intros st n k i column word Htr Hrect Hcri Hcol Hi Hword.
    pose proof (index_lookup _ _ _ Hi) as Hcell.
    destruct (table_rows st k column i word Htr Hcol Hcell)
      as (header & row & Hheader & Hrow & Hrk).
    exists header, row. do 3 (split; [done|]).
    pose proof (insert_word_expand st n k column word i header row
                  Htr Hrect Hcri Hcol Hi Hheader Hrow) as Hexpand.
    cbn zeta in Hexpand.
    set (st0 := V.set_current_row_index
                  (S k + anonymous_run (drop (S k) header))
                  (V.set_textbox "" st)) in *.
    split.
    + intros Hsubs.
      destruct (sub_options header row k) as [|s subs] eqn:Heq; [done|].
      exists (V.handle_subsection (s :: subs) word st0).
      split; [done|]. split; [done|]. split.
      { cbn [V.handle_subsection V.create_word_buttons V.buttons
               V.set_buttons V.set_colstr1 V.clear_buttons app].
        rewrite <-Heq. apply filter_nonempty_twice. }
      do 3 (split; [done|]).
      intros sub Hsub.
      assert (nonempty sub = true) as Hne.
      { rewrite <-Heq in Hsub. unfold sub_options in Hsub.
        by apply list_elem_of_filter in Hsub as [? _]. }
      destruct (insert_plain_spec sub
                  (V.set_textbox ""
                     (V.handle_subsection (s :: subs) word st0)))
        as (st1 & Hbox & _ & Hplain & Htitle); [done..|].
      exists st1. split; [done|]. split; [|done].
      rewrite insert_word_plain; [by rewrite Hplain|].
      intros next_row Hnext. by eapply (after_folder st k header).
    + intros Hnil. rewrite Hnil in Hexpand.
      destruct (insert_plain_spec word st0) as (st1 & ? & ? & Hplain & ?);
        [done|by apply nonempty_true|].
      exists st1. rewrite Hexpand, Hplain. by split_and!.
  - vm_compute. split; [done|]. split; [done|]. split.
    + eexists _, _. by split_and!.
    + by eexists.
Qed.

Lemma subsection_expansion_witness :
  let table :=
    [["Tests"; "Freq"; ""; ""]; ["PSD"; "2.4"; "2412"; "2437"];
     ["PWR"; "5.1"; "5180"; ""]; ["OBW"; "5.7"; ""; ""]] in
  let freq := V.on_enter (V.run_file_reader table "seed") in
  exists folder,
    V.insert_word "2.4" freq = Done folder /\
    V.buttons folder = ["2412"; "2437"] /\
    exists st1,
      V.insert_word "2437" folder = Done (V.on_enter st1) /\
      V.entered_text (V.on_enter st1) = "seed - 2437".
Proof.
  intros table freq.
  destruct (proj1 subsection_expansion freq 4 1 1
              ["Freq"; "2.4"; "5.1"; "5.7"] "2.4")
    as (header & row & Hheader & Hrow & _ & Hfolder & _);
    [reflexivity|repeat constructor|reflexivity|reflexivity|reflexivity
    |discriminate|].
  injection Hheader as <-. injection Hrow as <-.
  destruct Hfolder as (folder & Hclick & _ & Hbuttons & _ & _ & _ & Hsub);
    [discriminate|].
  exists folder. split; [exact Hclick|]. split; [exact Hbuttons|].
  destruct (Hsub "2437") as (st1 & _ & Hclick' & Htitle).
  { apply list_elem_of_In. right. left. reflexivity. }
  exists st1. split; [exact Hclick'|exact Htitle].
Defined.

(** C1 fails in two ways.  An option that carries the text of the heading is
    looked up in the heading's row: its own row holds the sub-value 2412,
    and the click opens no folder and appends the option.  With "Alt Button"
    off, a click on "5.7", which has no sub-value, has moved the cursor past
    the columns without a header: the click on "2.4" that follows opens no
    folder, and the commit appends "2.4". *)
Lemma expansion_misses_the_option_row :
  (let table := [["Band"; ""]; ["Band"; "2412"]] in
   let st := V.run_file_reader table "seed" in
   V.colstr1 st = "Band" /\ V.buttons st = ["Band"] /\
   sub_options ["Band"; ""] ["Band"; "2412"] 0 = ["2412"] /\
   exists final,
     V.handle (V.Click 0) st = Done final /\
     V.entered_text final = "seed - Band" /\ V.quit final = true) /\
  (let table :=
     [["Tests"; "Freq"; ""; ""]; ["PSD"; "2.4"; "2412"; "2437"];
      ["PWR"; "5.1"; "5180"; ""]; ["OBW"; "5.7"; ""; ""]] in
   let freq :=
     V.mainloop [V.Enter; V.ToggleAlt] (V.run_file_reader table "seed") in
   let st := V.mainloop [V.Click 2; V.Click 0] freq in
   V.colstr1 freq = "Freq" /\ V.buttons freq = ["2.4"; "5.1"; "5.7"] /\
   sub_options ["Tests"; "Freq"; ""; ""] ["PSD"; "2.4"; "2412"; "2437"] 1
   = ["2412"; "2437"] /\
   V.colstr1 st = "Freq" /\ V.buttons st = ["2.4"; "5.1"; "5.7"] /\
   V.textbox st = "2.4" /\
   V.entered_text (V.mainloop [V.Enter] st) = "seed - 2.4").
Proof.
  vm_compute. split_and!; try done. eexists. by split_and!.
Qed.

Section VFresh.

Import V.

(** The state [update_buttons] leaves when it shows a section is one on
    which a click opens the folder of the option, in a rectangular table:
    the cursor is right after the column of the section, and every button
    carries a text of that column. *)
Lemma click_after_update_buttons st n position word :
  transposed_data st = zip_star (og_data st) ->
  rectangular n (og_data st) ->
  let st' := update_buttons st in
  shown st' <> shown st ->
  buttons st' !! position = Some word ->
  exists k i header row,
    current_row_index st' = S k /\
    og_data st !! 0 = Some header /\ og_data st !! i = Some row /\
    row !! k = Some word /\
    let st0 :=
      set_current_row_index (S k + anonymous_run (drop (S k) header))
        (set_textbox "" st') in
    handle (Click position) st'
    = Done (match sub_options header row k with
            | [] => insert_plain word st0
            | subsection_values => handle_subsection subsection_values word st0
            end).
Proof.
  intros Htr Hrect st' Hshown Hpos.
  destruct (V_update_buttons_spec st)
    as (k & _ & _ & _ & _ & _ & _ & Hog & Htr' & Hcases).
  fold st' in Hog, Htr', Hcases.
  destruct Hcases
    as [(_ & ? & _)|(label & options & Hcol & _ & _ & Hcri & _ & Hb & _)];
    [done|].
  assert (word ∈ label :: options) as Hin.
  { apply list_elem_of_lookup_2 in Hpos. rewrite Hb in Hpos.
    apply list_elem_of_filter in Hpos as [_ ?]. by right. }
  destruct (index_is_Some _ _ Hin) as [i Hi].
  destruct (table_rows st' k (label :: options) i word)
    as (header & row & Hheader & Hrow & Hcell);
    [congruence|congruence|by apply index_lookup|].
  exists k, i, header, row. rewrite <-Hog.
  do 4 (split; [done|]). cbn zeta. cbn [handle]. rewrite Hpos.
  apply (insert_word_expand st' n k (label :: options) word i header row);
    congruence.
Qed.

End VFresh.

(** C10.  When several options of the section on screen carry the same text,
    a click on any of their buttons looks the text up in the column with
    [index], which finds its first occurrence: the folder opened is the one
    of the first row that holds the text, whichever button was clicked, and
    two buttons with the same text do exactly the same. *)
Theorem duplicate_options_open_first_folder
    (st : V.state) (n k i position position' : nat)
    (column : list string) (word : string) :
  V.transposed_data st = zip_star (V.og_data st) ->
  rectangular n (V.og_data st) ->
  V.current_row_index st = S k ->
  V.transposed_data st !! k = Some column ->
  index word column = Some i ->
  V.buttons st !! position = Some word ->
  V.buttons st !! position' = Some word ->
  column !! i = Some word /\
  (forall j, j < i -> column !! j <> Some word) /\
  V.handle (V.Click position') st = V.handle (V.Click position) st /\
  exists header row,
    V.og_data st !! 0 = Some header /\ V.og_data st !! i = Some row /\
    let st0 :=
      V.set_current_row_index (S k + anonymous_run (drop (S k) header))
        (V.set_textbox "" st) in
    V.handle (V.Click position) st
    = Done (match sub_options header row k with
            | [] => V.insert_plain word st0
            | subsection_values =>
                V.handle_subsection subsection_values word st0
            end) /\
    (sub_options header row k <> [] ->
     V.buttons (globals (V.handle (V.Click position) st))
     = sub_options header row k).
Proof.
  intros Htr Hrect Hcri Hcol Hi Hpos Hpos'.
  pose proof (index_lookup _ _ _ Hi) as Hcell.
  split; [done|]. split; [intros j Hj; by apply (index_first word column i j)|].
  split; [by cbn; rewrite Hpos, Hpos'|].
  destruct (table_rows st k column i word Htr Hcol Hcell)
    as (header & row & Hheader & Hrow & _).
  exists header, row. do 2 (split; [done|]). cbn zeta.
  cbn [V.handle]. rewrite Hpos.
  rewrite (insert_word_expand st n k column word i header row) by done.
  split; [done|]. intros Hsubs.
  destruct (sub_options header row k) as [|s subs] eqn:Heq; [done|].
  cbn [globals V.handle_subsection V.create_word_buttons V.buttons
         V.set_buttons V.set_colstr1 V.clear_buttons app].
  rewrite <-Heq. apply filter_nonempty_twice.
Qed.

Lemma duplicate_options_open_first_folder_witness :
  let st :=
    V.run_file_reader [["Freq"; ""]; ["2.4"; "2412"]; ["2.4"; "2437"]]
      "seed" in
  V.buttons st = ["2.4"; "2.4"] /\
  V.handle (V.Click 0) st = V.handle (V.Click 1) st /\
  V.buttons (globals (V.handle (V.Click 1) st)) = ["2412"].
Proof.
  intros st.
  destruct (duplicate_options_open_first_folder st 2 0 1 1 0
              ["Freq"; "2.4"; "2.4"] "2.4")
    as (_ & _ & Hsame & header & row & Hheader & Hrow & _ & Hfolder);
    [reflexivity|repeat constructor|reflexivity..|].
  injection Hheader as <-. injection Hrow as <-.
  split; [reflexivity|]. split; [exact Hsame|].
  apply Hfolder. discriminate.
Defined.

Section VLabels.

Import V.

(** [update_buttons] never shows a column without a header: it ends the
    main loop or shows a column with one, having passed columns without a
    header only. *)
Lemma update_buttons_skips_anonymous st :
  let st' := update_buttons st in
  (quit st' = true /\ shown st' = shown st) \/
  (exists k label options,
     current_row_index st <= k /\
     (forall j, current_row_index st <= j < k ->
        exists cells, transposed_data st !! j = Some ("" :: cells)) /\
     transposed_data st !! k = Some (label :: options) /\ label <> "" /\
     colstr1 st' = label /\
     buttons st' = filter (fun w => nonempty w = true) options /\
     shown st' = (label, buttons st') :: shown st /\
     current_row_index st' = S k).
Proof.
  destruct (V_update_buttons_spec st)
    as (k & Hk & Hblank & _ & _ & _ & _ & _ & _ & Hcases).
  cbn zeta.
  destruct Hcases as [(? & ? & _)|(label & options & ? & ? & _ & ? & ? & Hb & ?)];
    [by left|right].
  exists k, label, options. rewrite Hb. by split_and!.
Qed.

(** No event adds a section without a label to the history. *)
Lemma V_handle_labels e st :
  Forall (fun section => section.1 <> "") (shown st) ->
  Forall (fun section => section.1 <> "") (shown (globals (handle e st))).
Proof.
  intros Hshown.
  assert (forall st0, shown st0 = shown st ->
            Forall (fun section => section.1 <> "") (shown (on_enter st0)))
    as Henter.
  { intros st0 Hs.
    destruct (V_on_enter_spec st0) as (_ & _ & _ & _ & _ & _ & Hnext).
    destruct Hnext as [(_ & -> & _)|(_ & _ & label & options & ? & _ & ->)];
      rewrite Hs; [done|]. by constructor. }
  destruct e as [position|text| |]; cbn; try done.
  - destruct (buttons st !! position) as [word|]; [|done].
    destruct (insert_word_cases word st) as (c & _ & Hcases).
    cbn zeta in Hcases.
    destruct (insert_word word st) as [st'|e st']; cbn.
    + destruct Hcases as [->|(subs & _ & ->)]; [|done].
      unfold insert_plain. cbn. destruct (altbuttonFlag st); [|done].
      by apply Henter.
    + by subst st'.
  - by apply Henter.
Qed.

(** When the first column of the table has a header, no session ever
    shows a column without a header as a section. *)
Lemma labeled_first_column_sessions data seed events :
  Forall (fun section => section.1 <> "") (shown (run_file_reader data seed)) ->
  Forall (fun section => section.1 <> "")
    (shown (mainloop events (run_file_reader data seed))).
Proof.
  generalize (run_file_reader data seed). intros st. revert st.
  induction events as [|e events IH]; intros st Hst; [done|].
  cbn [mainloop]. destruct (quit st); [done|].
  by apply IH, V_handle_labels.
Qed.

End VLabels.

(** C7 fails on a table whose first column has no header: the program shows
    that column as the first section, with an empty label and its cells as
    options, and selecting one of them appends it to the title.
    [update_buttons] itself never shows such a column (see
    [update_buttons_skips_anonymous]); the first section is shown by
    [run_file_reader], which does not skip. *)
Theorem leading_anonymous_column_is_shown :
  let data := [[""; "Tests"]; ["x"; "PSD"]; ["y"; "PWR"]] in
  let st := V.run_file_reader data "seed" in
  V.transposed_data st !! 0 = Some [""; "x"; "y"] /\
  V.colstr1 st = "" /\ V.buttons st = ["x"; "y"] /\
  V.shown st = [("", ["x"; "y"])] /\
  V.entered_text (globals (V.handle (V.Click 0) st)) = "seed - x" /\
  V.colstr1 (globals (V.handle (V.Click 0) st)) = "Tests".
Proof. vm_compute. by split_and!. Qed.

Section Ragged.

Implicit Types (data : list (list string)) (row col : list string).

Lemma zip_star_lookup_iff data j col :
  zip_star data !! j = Some col <->
  data <> [] /\ Forall2 (fun row cell => row !! j = Some cell) data col.
Proof.
  destruct data as [|row rest].
  - split; [done|]. by intros [? _].
  - rewrite zip_star_lookup by done. rewrite mapM_Some.
    split; [by intros ?|by intros [_ ?]].
Qed.

(** A row without a cell [j] leaves the table without a column [j]. *)
Lemma zip_star_short_row data row j :
  row ∈ data -> length row <= j -> zip_star data !! j = None.
Proof.
  intros Hin Hlen. destruct data as [|row0 rest]; [done|].
  rewrite zip_star_lookup by done. apply mapM_None_2, Exists_exists.
  exists row. split; [done|]. by apply lookup_ge_None.
Qed.

(** Nothing is lost of a rectangular table. *)
Lemma zip_star_length n data :
  data <> [] -> rectangular n data -> length (zip_star data) = n.
Proof.
  intros Hne Hrect. unfold rectangular in Hrect.
  rewrite Forall_forall in Hrect.
  destruct (Nat.lt_trichotomy (length (zip_star data)) n) as [Hlt|[?|Hgt]];
    [|done|].
  - destruct data as [|row rest]; [done|].
    pose proof (lookup_ge_None_2 (zip_star (row :: rest))
                  (length (zip_star (row :: rest))) (le_n _)) as Hnone.
    rewrite zip_star_lookup in Hnone by done.
    apply mapM_None_1, Exists_exists in Hnone as (row' & Hin & Hj).
    apply lookup_ge_None in Hj. rewrite (Hrect row' Hin) in Hj. lia.
  - destruct data as [|row rest]; [done|].
    destruct (lookup_lt_is_Some_2 (zip_star (row :: rest)) n Hgt)
      as [col Hcol].
    rewrite (zip_star_short_row (row :: rest) row n) in Hcol;
      [done|by left|].
    rewrite (Hrect row); [done|by left].
Qed.

End Ragged.

(** ** Further properties of [fsw_file_namer_H.py] *)

Section HWalk.

Import H.

Implicit Types (st : state) (loaded : list string).

(** The fields of a state that was built with the setters. *)
Local Ltac fields :=
  cbn [file file_writable lines current_line current_row_index colstr1
       entered_text saveFlag altbuttonFlag textbox buttons quit shown
       set_file set_lines set_current_line set_current_row_index set_colstr1
       set_entered_text set_saveFlag set_altbuttonFlag set_textbox
       set_buttons root_quit log_section clear_buttons create_word_buttons
       globals].

(** [H_walked] looks at the rows, the iterator, the row index, the history
    and the quit flag only. *)
Lemma H_walked_ext loaded st st' :
  lines st' = lines st -> current_line st' = current_line st ->
  current_row_index st' = current_row_index st ->
  shown st' = shown st -> quit st' = quit st ->
  H_walked loaded st -> H_walked loaded st'.
Proof. unfold H_walked. by intros -> -> -> -> ->. Qed.

Lemma H_walked_row loaded st line :
  H_walked loaded st -> lines st !! current_line st = Some line ->
  loaded !! current_line st = Some line.
Proof.
  intros (_ & Hdrop & _) Hline.
  rewrite <-(Nat.add_0_r (current_line st)), <-lookup_drop in Hline |- *.
  by rewrite <-Hdrop.
Qed.

(** A save, done or failed, touches a row the iterator has read already. *)
Lemma H_walked_save loaded word st :
  H_walked loaded st -> H_walked loaded (globals (save_word word st)).
Proof.
  intros Hw. unfold save_word.
  destruct (lines st !! current_row_index st) as [line|] eqn:Hline; [|done].
  assert (H_walked loaded
            (set_lines
               (<[current_row_index st :=
                    strip comma_nl line +:+ "," +:+ word +:+ nl]> (lines st))
               st)) as Hw'.
  { destruct Hw as (Hlen & Hdrop & Hshown & Hle & Hcri & Hquit).
    apply lookup_lt_Some in Hline.
    assert (loaded <> []) as Hne.
    { intros ->. cbn in Hlen. lia. }
    unfold H_walked. fields. rewrite length_insert.
    rewrite drop_insert_lt by (rewrite (Hcri Hne); lia). done. }
  cbn. destruct (file_writable st); cbn; [|done].
  by eapply H_walked_ext; [..|exact Hw'].
Qed.

(** [update_buttons] reads the next row, as loaded, or leaves the main loop
    at the end of the rows. *)
Lemma H_walked_update loaded st :
  H_walked loaded st -> H_walked loaded (globals (update_buttons st)).
Proof.
  intros Hw. pose proof (update_buttons_spec st) as Hspec.
  destruct (lines st !! current_line st) as [line|] eqn:Hline.
  - destruct Hspec as (label & options & Hcells & ->).
    pose proof (H_walked_row _ _ _ Hw Hline) as Hline0.
    destruct Hw as (Hlen & Hdrop & Hshown & Hle & Hcri & Hquit).
    unfold H_walked. fields. split_and!.
    + done.
    + rewrite <-(Nat.add_1_r (current_line st)), <-!drop_drop.
      by rewrite Hdrop.
    + rewrite reverse_cons, Hshown, (take_S_r _ _ _ Hline0), fmap_snoc.
      unfold H_section_of. by rewrite Hcells.
    + by apply lookup_lt_Some in Hline0.
    + intros Hne. by rewrite (Hcri Hne).
    + intros Hq. apply Hquit in Hq. apply lookup_lt_Some in Hline0. lia.
  - rewrite Hspec. fields.
    destruct Hw as (Hlen & Hdrop & Hshown & Hle & Hcri & Hquit).
    unfold H_walked. fields. split_and!; try done.
    intros _. apply lookup_ge_None in Hline. lia.
Qed.

Lemma H_walked_on_enter loaded st :
  H_walked loaded st -> H_walked loaded (globals (on_enter st)).
Proof.
  intros Hw. rewrite on_enter_unfold.
  assert (forall st1, H_walked loaded st1 ->
            H_walked loaded
              (globals (do st2 <- update_buttons (accept st1);
                        Done (set_textbox "" st2)))) as Hrest.
  { intros st1 Hw1.
    assert (H_walked loaded (accept st1)) as Hacc.
    { rewrite accept_spec. by eapply H_walked_ext; [..|exact Hw1]. }
    apply H_walked_update in Hacc.
    destruct (update_buttons (accept st1)) as [st2|e st2]; cbn in *; [|done].
    by eapply H_walked_ext; [..|exact Hacc]. }
  destruct (saveFlag st); [|by apply Hrest].
  pose proof (H_walked_save loaded (textbox st) st Hw) as Hsave.
  destruct (save_word (textbox st) st) as [st1|e st1]; cbn in *; [|done].
  by apply Hrest.
Qed.

Lemma H_walked_handle loaded e st :
  H_walked loaded st -> H_walked loaded (globals (handle e st)).
Proof.
  intros Hw. destruct e as [position|text| | |]; cbn.
  - destruct (buttons st !! position) as [word|]; [|done].
    unfold insert_word. cbn. destruct (altbuttonFlag st); cbn.
    + apply H_walked_on_enter. by eapply H_walked_ext; [..|exact Hw].
    + by eapply H_walked_ext; [..|exact Hw].
  - by eapply H_walked_ext; [..|exact Hw].
  - by apply H_walked_on_enter.
  - by eapply H_walked_ext; [..|exact Hw].
  - by eapply H_walked_ext; [..|exact Hw].
Qed.

Lemma H_walked_mainloop loaded events st :
  H_walked loaded st -> H_walked loaded (mainloop events st).
Proof.
  revert st. induction events as [|e events IH]; intros st Hw; [done|].
  cbn. destruct (quit st); [done|]. by apply IH, H_walked_handle.
Qed.

Lemma H_walked_start text writable seed :
  H_walked (read_file text) (start text writable seed).
Proof.
  unfold start, run_file_reader. cbn [lines current_line].
  destruct (read_file text !! 0) as [line|] eqn:Hline.
  - destruct (cells_cons line) as (label & options & Hcells).
    rewrite Hcells. unfold H_walked. fields. split_and!; try done.
    + destruct (read_file text) as [|l ls]; [done|]. injection Hline as ->.
      cbn. unfold H_section_of. by rewrite Hcells.
    + by apply lookup_lt_Some in Hline.
  - unfold H_walked. fields. split_and!; try done; [lia|].
    intros Hne. destruct (read_file text); done.
Qed.

End HWalk.

(** X1.  In every session of [fsw_file_namer_H.py] the sections shown so far
    are those of the first rows of the file as it was loaded, one for each
    row the iterator has read, in the order of the file: no row is skipped
    and none is shown twice, whatever was saved on the way.  The rows not
    read yet are in memory as they were loaded, and once the main loop is
    left every row of the file has been shown. *)
Theorem rows_are_shown_in_order
    (text : string) (writable : bool) (seed : string)
    (events : list H.event) :
  let st := H.mainloop events (H.start text writable seed) in
  reverse (H.shown st)
  = H_section_of <$> take (H.current_line st) (H.read_file text) /\
  length (H.lines st) = length (H.read_file text) /\
  drop (H.current_line st) (H.lines st)
  = drop (H.current_line st) (H.read_file text) /\
  (H.quit st = true ->
   reverse (H.shown st) = H_section_of <$> H.read_file text).
Proof.
  intros st.
  destruct (H_walked_mainloop (H.read_file text) events
              (H.start text writable seed) (H_walked_start text writable seed))
    as (Hlen & Hdrop & Hshown & Hle & _ & Hquit).
  fold st in Hlen, Hdrop, Hshown, Hle, Hquit.
  split_and!; try done.
  intros Hq. rewrite Hshown, (Hquit Hq). by rewrite take_ge.
Qed.

Section HSafety.

Import H.

Implicit Types (st : state).

Lemma readlines_nonempty text : text <> "" -> readlines text <> [].
Proof.
  destruct text as [|c text]; [done|]. intros _. cbn.
  destruct (Ascii.eqb c LF); [done|]. by destruct (readlines text).
Qed.

(** A file that is not empty has a first row. *)
Lemma read_file_nonempty text : text <> "" -> read_file text <> [].
Proof.
  intros Htext. apply readlines_nonempty.
  destruct text as [|c text]; [done|]. cbn [universal_newlines].
  destruct (Ascii.eqb c CR); [|done].
  destruct text as [|d text]; [done|].
  by destruct (Ascii.eqb_spec d LF) as [->|_].
Qed.

(** No function of the script changes whether the file can be written. *)
Lemma H_handle_writable e st :
  file_writable (globals (handle e st)) = file_writable st.
Proof.
  assert (forall st0, file_writable (globals (on_enter st0))
                      = file_writable st0) as Henter.
  { intros st0. rewrite on_enter_unfold.
    assert (forall st1,
              file_writable
                (globals (do st2 <- update_buttons (accept st1);
                          Done (set_textbox "" st2)))
              = file_writable st1) as Hrest.
    { intros st1.
      destruct (update_buttons_frame (accept st1))
        as (st2 & Hu & _ & _ & _ & _ & _ & _ & Hfw).
      rewrite Hu. cbn [and_then globals file_writable set_textbox].
      rewrite Hfw, accept_spec. done. }
    destruct (saveFlag st0); [|by apply Hrest].
    assert (file_writable (globals (save_word (textbox st0) st0))
            = file_writable st0) as Hsave.
    { unfold save_word.
      destruct (lines st0 !! current_row_index st0) as [line|]; [|done].
      cbn zeta. cbn [file_writable set_lines].
      destruct (file_writable st0) eqn:Hw;
        cbn [globals file_writable set_file set_lines]; by rewrite Hw. }
    destruct (save_word (textbox st0) st0) as [st1|e1 st1];
      cbn [globals] in Hsave; [|done].
    rewrite <-Hsave. apply (Hrest st1). }
  destruct e as [position|text| | |]; cbn; try done.
  - destruct (buttons st !! position) as [word|]; [|done].
    unfold insert_word. cbn. destruct (altbuttonFlag st); [|done].
    by rewrite Henter.
Qed.

Lemma H_mainloop_writable events st :
  file_writable (mainloop events st) = file_writable st.
Proof.
  revert st. induction events as [|e events IH]; intros st; [done|].
  cbn. destruct (quit st); [done|]. by rewrite IH, H_handle_writable.
Qed.

Lemma H_start_writable text writable seed :
  file_writable (start text writable seed) = writable.
Proof.
  unfold start, run_file_reader. cbn [lines current_line].
  destruct (read_file text !! 0) as [line|]; [|done].
  by destruct (cells_cons line) as (label & options & ->).
Qed.

(** A commit returns when the file can be written and the row index is
    within the rows. *)
Lemma on_enter_done st :
  file_writable st = true -> current_row_index st < length (lines st) ->
  exists st', on_enter st = Done st'.
Proof.
  intros Hw Hcri. rewrite on_enter_unfold.
  assert (forall st1, exists st',
            (do st2 <- update_buttons (accept st1); Done (set_textbox "" st2))
            = Done st') as Hrest.
  { intros st1. destruct (update_buttons_frame (accept st1)) as (st2 & -> & _).
    by eexists. }
  destruct (saveFlag st); [|by apply Hrest].
  destruct (lookup_lt_is_Some_2 _ _ Hcri) as [line Hline].
  rewrite (save_word_done st line (textbox st)) by done. by apply Hrest.
Qed.

Lemma H_handle_done e st :
  file_writable st = true -> current_row_index st < length (lines st) ->
  exists st', handle e st = Done st'.
Proof.
  intros Hw Hcri. destruct e as [position|text| | |]; cbn;
    try (by eexists).
  - destruct (buttons st !! position) as [word|]; [|by eexists].
    unfold insert_word. cbn. destruct (altbuttonFlag st); [|by eexists].
    by apply on_enter_done.
  - by apply on_enter_done.
Qed.

End HSafety.

(** X2.  On a file that is not empty and can be written, no callback of
    [fsw_file_namer_H.py] ever raises: in every session every click, key
    stroke and toggle returns, saves included, because the row [save_word]
    writes to is always one of the rows in memory. *)
Theorem no_callback_raises_H
    (text seed : string) (events : list H.event) (e : H.event) :
  text <> "" ->
  exists st',
    H.handle e (H.mainloop events (H.start text true seed)) = Done st'.
Proof.
  intros Htext. apply H_handle_done.
  - by rewrite H_mainloop_writable, H_start_writable.
  - destruct (H_walked_mainloop (H.read_file text) events
                (H.start text true seed) (H_walked_start text true seed))
      as (Hlen & _ & _ & Hle & Hcri & _).
    rewrite Hlen. specialize (Hcri (read_file_nonempty text Htext)). lia.
Qed.

Lemma no_callback_raises_H_witness :
  exists st',
    H.handle H.Enter
      (H.mainloop [H.ToggleSave; H.Click 0]
         (H.start ("Freq,2.4" +:+ nl +:+ "Mod,OFDM" +:+ nl) true "seed"))
    = Done st'.
Proof.
  apply (no_callback_raises_H
           ("Freq,2.4" +:+ nl +:+ "Mod,OFDM" +:+ nl) "seed"
           [H.ToggleSave; H.Click 0] H.Enter).
  discriminate.
Defined.

(** X3.  On an empty file no session of [fsw_file_namer_H.py] ever shows a
    section, and a commit with the "Save Word?" box ticked raises
    [IndexError] before anything is committed: the globals, title, flag and
    text box included, stay as they are. *)
Theorem empty_file_save_raises
    (writable : bool) (seed : string) (events : list H.event) :
  let st := H.mainloop events (H.start "" writable seed) in
  H.shown st = [] /\ H.lines st = [] /\
  (H.saveFlag st = true -> H.on_enter st = Raised IndexError st).
Proof.
  intros st.
  destruct (H_walked_mainloop (H.read_file "") events
              (H.start "" writable seed) (H_walked_start "" writable seed))
    as (Hlen & _ & Hshown & _). fold st in Hshown, Hlen.
  change (H.read_file "") with (@nil string) in Hshown, Hlen.
  assert (H.lines st = []) as Hlines.
  { by destruct (H.lines st). }
  split_and!.
  - rewrite take_nil in Hshown. apply (f_equal reverse) in Hshown.
    by rewrite reverse_involutive in Hshown.
  - done.
  - intros Hflag. unfold H.on_enter, H.save_word. by rewrite Hflag, Hlines.
Qed.

Section HRetry.

Import H.

Implicit Types (st : state).

(** A row that [save_word] wrote is not blank. *)
Lemma cells_saved_line_strip line word :
  strip comma_nl line <> "" -> word <> "" ->
  free_of comma_nl word = true ->
  strip comma_nl (strip comma_nl line +:+ "," +:+ word +:+ nl) <> "".
Proof.
  intros Hline Hword Hfree Hblank.
  pose proof (cells_saved_line line word Hline Hword Hfree) as Hcells.
  unfold cells at 1 in Hcells. rewrite Hblank in Hcells.
  destruct (cells_cons line) as (label & options & Hl).
  rewrite Hl in Hcells. by destruct options.
Qed.

End HRetry.

(** X4.  When the file cannot be written, a commit with the "Save Word?" box
    ticked raises [PermissionError] and commits nothing: the file, the title,
    the flag and the text box stay.  But the row in memory has the word
    already, so when the commit is tried again once the file can be written,
    the word is saved twice in the row. *)
Theorem failed_save_is_kept_in_memory
    (st : H.state) (line word : string) :
  H.lines st !! H.current_row_index st = Some line ->
  H.file_writable st = false ->
  H.saveFlag st = true -> H.textbox st = word ->
  exists st1,
    H.on_enter st = Raised PermissionError st1 /\
    H.file st1 = H.file st /\ H.entered_text st1 = H.entered_text st /\
    H.saveFlag st1 = true /\ H.textbox st1 = word /\
    H.current_row_index st1 = H.current_row_index st /\
    H.lines st1
    = <[H.current_row_index st :=
          strip H.comma_nl line +:+ "," +:+ word +:+ nl]> (H.lines st) /\
    (strip H.comma_nl line <> "" -> word <> "" ->
     free_of H.comma_nl word = true ->
     exists st2,
       H.on_enter (H_release st1) = Done st2 /\
       H.file st2 = writelines (H.lines st2) /\
       (H.cells <$> H.lines st2) !! H.current_row_index st
       = Some (H.cells line ++ [word; word])).
Proof.
  intros Hline Hlocked Hflag Hbox.
  set (line1 := strip H.comma_nl line +:+ "," +:+ word +:+ nl).
  set (st1 := H.set_lines (<[H.current_row_index st := line1]> (H.lines st))
                st).
  assert (H.on_enter st = Raised PermissionError st1) as Hraise.
  { unfold H.on_enter, H.save_word. rewrite Hflag, Hbox, Hline. cbn zeta.
    cbn [H.file_writable H.set_lines]. by rewrite Hlocked. }
  exists st1. split; [done|]. do 6 (split; [done|]).
  intros Hnonblank Hword Hfree.
  assert (H.lines (H_release st1) !! H.current_row_index (H_release st1)
          = Some line1) as Hline1.
  { cbn. apply list_lookup_insert_eq. by eapply lookup_lt_Some. }
  set (line2 := strip H.comma_nl line1 +:+ "," +:+ word +:+ nl).
  pose proof (save_word_done (H_release st1) line1 word Hline1 eq_refl)
    as Hsave.
  cbn zeta in Hsave.
  rewrite on_enter_unfold.
  cbn [H.saveFlag H.textbox H_release H.set_lines st1]. rewrite Hflag, Hbox.
  rewrite Hsave. cbn [and_then].
  match goal with
  | |- context [H.update_buttons ?s] =>
      destruct (update_buttons_frame s)
        as (st2 & Hu & _ & _ & _ & _ & Hfile & Hlines & _)
  end.
  rewrite Hu. cbn [and_then]. eexists. split; [done|].
  cbn [H.file H.lines H.set_textbox]. rewrite Hfile, Hlines, !accept_spec.
  cbn [H.file H.lines H.set_file H.set_lines H_release H.current_row_index
         st1].
  split; [done|].
  rewrite list_lookup_fmap, list_insert_insert_eq, list_lookup_insert_eq
    by (by eapply lookup_lt_Some).
  cbn [fmap option_fmap option_map]. f_equal.
  rewrite cells_saved_line; [|by apply cells_saved_line_strip|done..].
  subst line1. rewrite cells_saved_line by done. by rewrite <-app_assoc.
Qed.

Lemma failed_save_is_kept_in_memory_witness :
  let st :=
    H.set_textbox "5.1"
      (H.set_saveFlag true (H.start ("Freq,2.4" +:+ nl) false "seed")) in
  exists st1 st2,
    H.on_enter st = Raised PermissionError st1 /\
    H.file st1 = "Freq,2.4" +:+ nl /\
    H.on_enter (H_release st1) = Done st2 /\
    (H.cells <$> H.lines st2) !! 0 = Some ["Freq"; "2.4"; "5.1"; "5.1"].
Proof.
  intros st.
  destruct (failed_save_is_kept_in_memory st ("Freq,2.4" +:+ nl) "5.1")
    as (st1 & Hraise & Hfile & _ & _ & _ & _ & _ & Hretry);
    [reflexivity..|].
  destruct Hretry as (st2 & Hdone & _ & Hcells);
    [discriminate|discriminate|reflexivity|].
  exists st1, st2. split; [exact Hraise|]. split; [exact Hfile|].
  split; [exact Hdone|exact Hcells].
Defined.

Section HEnd.

Import H.

Implicit Types (st : state).

(** A commit whose save does not fail: the title takes the text, and the
    next row is shown if there is one, else the main loop is left. *)
Lemma on_enter_next st :
  H_save_fails st = false ->
  exists st',
    on_enter st = Done st' /\ length (lines st') = length (lines st) /\
    saveFlag st' = false /\
    entered_text st'
    = (if nonempty (textbox st)
       then entered_text st +:+ "_" +:+ textbox st else entered_text st) /\
    match lines st !! current_line st with
    | Some _ =>
        quit st' = quit st /\ current_line st' = S (current_line st) /\
        exists section, shown st' = section :: shown st
    | None =>
        quit st' = true /\ current_line st' = current_line st /\
        shown st' = shown st
    end.
Proof.
  intros Hsafe.
  assert (forall st1,
    length (lines st1) = length (lines st) ->
    entered_text st1 = entered_text st -> textbox st1 = textbox st ->
    current_line st1 = current_line st -> quit st1 = quit st ->
    shown st1 = shown st ->
    exists st',
      (do st2 <- update_buttons (accept st1); Done (set_textbox "" st2))
      = Done st' /\
      length (lines st') = length (lines st) /\ saveFlag st' = false /\
      entered_text st'
      = (if nonempty (textbox st)
         then entered_text st +:+ "_" +:+ textbox st else entered_text st) /\
      match lines st !! current_line st with
      | Some _ =>
          quit st' = quit st /\ current_line st' = S (current_line st) /\
          exists section, shown st' = section :: shown st
      | None =>
          quit st' = true /\ current_line st' = current_line st /\
          shown st' = shown st
      end) as Hrest.
  { intros st1 Hlen Ht Hb Hc Hq Hs.
    pose proof (update_buttons_spec (accept st1)) as Hspec.
    rewrite accept_spec in Hspec |- *. cbn [lines current_line] in Hspec.
    destruct (lines st1 !! current_line st1) as [line1|] eqn:Hline1.
    - destruct Hspec as (label & options & _ & ->). cbn [and_then].
      apply lookup_lt_Some in Hline1. rewrite Hlen, Hc in Hline1.
      destruct (lookup_lt_is_Some_2 _ _ Hline1) as [line ->].
      eexists. split; [done|]. cbn. rewrite Hb, Ht, Hc, Hq, Hs.
      split_and!; try done. by eexists.
    - rewrite Hspec. cbn [and_then].
      apply lookup_ge_None in Hline1. rewrite Hlen, Hc in Hline1.
      rewrite (lookup_ge_None_2 _ _ Hline1).
      eexists. split; [done|]. cbn. rewrite Hb, Ht, Hc, Hs.
      by split_and!. }
  rewrite on_enter_unfold. destruct (saveFlag st) eqn:Hflag.
  - unfold H_save_fails in Hsafe. rewrite Hflag in Hsafe.
    apply orb_false_iff in Hsafe as [Hw%negb_false_iff Hlt%Nat.leb_gt].
    destruct (lookup_lt_is_Some_2 _ _ Hlt) as [line Hline].
    rewrite (save_word_done st line (textbox st) Hline Hw). cbn [and_then].
    apply Hrest; cbn [lines set_file set_lines entered_text textbox
                        current_line quit shown]; try done.
    by rewrite length_insert.
  - cbn [and_then]. by apply Hrest.
Qed.

Lemma H_mainloop_quit events st : quit st = true -> mainloop events st = st.
Proof. intros Hq. destruct events; cbn; [done|]. by rewrite Hq. Qed.

(** From a row on, the tokens accepted are as many as the rows left, the
    one on screen included. *)
Lemma H_commit_each_exact tokens st :
  H_save_fails st = false -> quit st = false ->
  let m := S (length (lines st) - current_line st) in
  (quit (mainloop (commit_each tokens) st) = true <-> m <= length tokens) /\
  entered_text (mainloop (commit_each tokens) st)
  = join "_" (entered_text st
                :: filter (fun t => nonempty t = true) (take m tokens)).
Proof.
  revert st. induction tokens as [|token tokens IH]; intros st Hflag Hq m.
  { cbn. rewrite Hq. split; [|done]. split; [done|]. subst m. lia. }
  rewrite H_commit_each_cons, Hq.
  destruct (on_enter_next (set_textbox token st) Hflag)
    as (st1 & Henter & Hlines & Hflag1 & Htitle & Hnext).
  rewrite Henter. cbn [globals].
  cbn [lines current_line set_textbox textbox entered_text quit shown]
    in Hlines, Htitle, Hnext.
  assert (H_save_fails st1 = false) as Hsafe1.
  { unfold H_save_fails. by rewrite Hflag1. }
  assert (join "_" (entered_text st1
                      :: filter (fun t => nonempty t = true) [])
          = join "_" (entered_text st
                        :: filter (fun t => nonempty t = true) [token]))
    as Hone.
  { rewrite Htitle, filter_cons. destruct (nonempty token) eqn:Hne.
    - by rewrite decide_True.
    - by rewrite decide_False. }
  destruct (lines st !! current_line st) as [line|] eqn:Hline.
  - destruct Hnext as (Hq1 & Hc1 & _). apply lookup_lt_Some in Hline.
    destruct (IH st1) as [Hquit Hfinal]; [done|congruence|].
    rewrite Hlines, Hc1 in Hquit, Hfinal.
    replace m with (S (S (length (lines st) - S (current_line st))))
      by (subst m; lia).
    split; [rewrite Hquit; cbn [length]; lia|].
    rewrite Hfinal, Htitle. cbn [take]. rewrite filter_cons.
    destruct (nonempty token) eqn:Hne.
    + rewrite decide_True by done. by rewrite join_push.
    + by rewrite decide_False.
  - destruct Hnext as (Hq1 & Hc1 & _). apply lookup_ge_None in Hline.
    rewrite H_mainloop_quit by done.
    replace m with 1 by (subst m; lia).
    split; [split; [cbn [length]; lia|done]|].
    cbn [take]. rewrite take_0. exact Hone.
Qed.

Lemma H_start_nonempty text writable seed :
  text <> "" ->
  let st := start text writable seed in
  saveFlag st = false /\ quit st = false /\ current_line st = 1 /\
  lines st = read_file text /\ entered_text st = seed.
Proof.
  intros Htext. pose proof (read_file_nonempty text Htext) as Hne.
  unfold start, run_file_reader. cbn [lines current_line].
  destruct (read_file text !! 0) as [line|] eqn:Hline.
  - by destruct (cells_cons line) as (label & options & ->).
  - by destruct (read_file text).
Qed.

End HEnd.

(** X5.  A session of [fsw_file_namer_H.py] on a file that is not empty ends
    exactly when the user has committed as many times as the file has rows:
    after fewer commits the main loop still runs, and of the tokens
    committed one after the other the first ones, one for each row, are
    accepted, those that are not empty joining the title in order, and the
    others are not delivered. *)
Theorem session_ends_with_the_rows
    (text : string) (writable : bool) (seed : string)
    (tokens : list string) :
  text <> "" ->
  let st := H.mainloop (H.commit_each tokens) (H.start text writable seed) in
  (H.quit st = true <-> length (H.read_file text) <= length tokens) /\
  H.entered_text st
  = join "_" (seed
                :: filter (fun t => nonempty t = true)
                     (take (length (H.read_file text)) tokens)).
Proof.
  intros Htext st.
  destruct (H_start_nonempty text writable seed Htext)
    as (Hflag & Hq & Hc & Hlines & Hseed).
  pose proof (read_file_nonempty text Htext) as Hne.
  assert (1 <= length (H.read_file text)) as Hlen.
  { destruct (H.read_file text); [done|]. cbn. lia. }
  destruct (H_commit_each_exact tokens (H.start text writable seed))
    as [Hquit Htitle];
    [unfold H_save_fails; by rewrite Hflag|done|].
  rewrite Hc, Hlines in Hquit, Htitle. rewrite Hseed in Htitle.
  replace (S (length (H.read_file text) - 1))
    with (length (H.read_file text)) in Hquit, Htitle by lia.
  done.
Qed.

Lemma session_ends_with_the_rows_witness :
  let text := "Freq,2.4,5.1" +:+ nl +:+ "Mod,OFDM,QAM" +:+ nl in
  let st :=
    H.mainloop (H.commit_each ["2.4"; ""; "late"]) (H.start text true "seed")
  in
  (H.quit st = true <-> 2 <= 3) /\
  H.entered_text st
  = join "_" ("seed"
                :: filter (fun t => nonempty t = true)
                     (take 2 ["2.4"; ""; "late"])).
Proof.
  intros text st.
  apply (session_ends_with_the_rows text true "seed" ["2.4"; ""; "late"]).
  discriminate.
Defined.

(** ** Further properties of [fsw_file_namer_V.py] *)

Section VWalk.

Import V.

Implicit Types (st : state) (tr : list (list string)).

(** The fields of a state that was built with the setters. *)
Local Ltac fields :=
  cbn [og_data transposed_data current_row_index connector colstr1
       entered_text altbuttonFlag textbox buttons quit shown
       set_current_row_index set_colstr1 set_entered_text set_altbuttonFlag
       set_textbox set_buttons root_quit log_section clear_buttons
       create_word_buttons handle_subsection globals].

(** A column of a transposed table has a first cell, the header. *)
Lemma zip_star_column data j col :
  zip_star data !! j = Some col ->
  exists header h cells,
    data !! 0 = Some header /\ col = h :: cells /\ header !! j = Some h.
Proof.
  intros Hcol. destruct data as [|header rest]; [done|].
  destruct (zip_star_header (header :: rest) header j col eq_refl Hcol)
    as (h & cells & ? & ?).
  by exists header, h, cells.
Qed.

Lemma labeled_sections_nil tr k :
  tr !! k = None -> labeled_sections (drop k tr) = [].
Proof. intros Hk%lookup_ge_None. by rewrite drop_ge. Qed.

Lemma labeled_sections_cons tr k label options :
  tr !! k = Some (label :: options) -> label <> "" ->
  labeled_sections (drop k tr)
  = (label, filter (fun w => nonempty w = true) options)
      :: labeled_sections (drop (S k) tr).
Proof.
  intros Hk Hne. rewrite (drop_S _ _ _ Hk). unfold labeled_sections.
  rewrite filter_cons, decide_True; [done|]. by apply nonempty_true.
Qed.

(** Columns without a header are no sections. *)
Lemma labeled_sections_skip tr c k :
  c <= k ->
  (forall j, c <= j < k -> exists cells, tr !! j = Some ("" :: cells)) ->
  labeled_sections (drop c tr) = labeled_sections (drop k tr).
Proof.
  intros Hck. induction Hck as [|k Hck IH]; intros Hblank; [done|].
  rewrite IH by (intros j Hj; apply Hblank; lia).
  destruct (Hblank k) as [cells Hk]; [lia|].
  rewrite (drop_S _ _ _ Hk). unfold labeled_sections.
  by rewrite filter_cons, decide_False.
Qed.

(** [update_buttons] on a transposed table: the main loop is left when no
    column with a header is left, else the first of them is shown. *)
Lemma update_buttons_walk st :
  transposed_data st = zip_star (og_data st) ->
  let st' := update_buttons st in
  og_data st' = og_data st /\ transposed_data st' = transposed_data st /\
  entered_text st' = entered_text st /\ textbox st' = textbox st /\
  connector st' = connector st /\ altbuttonFlag st' = altbuttonFlag st /\
  ((quit st' = true /\ shown st' = shown st /\
    still_to_show st = [] /\ still_to_show st' = [] /\ past_folders st') \/
   (quit st' = quit st /\ on_section st' /\
    exists section,
      shown st' = section :: shown st /\
      still_to_show st = section :: still_to_show st')).
Proof.
  intros Htr st'.
  destruct (V_update_buttons_spec st)
    as (k & Hk & Hblank & Ht & Hb & Ha & Hc & Ho & Htr' & Hcases).
  fold st' in Ht, Hb, Ha, Hc, Ho, Htr', Hcases.
  do 6 (split; [done|]).
  pose proof (labeled_sections_skip (transposed_data st)
                (current_row_index st) k Hk Hblank) as Hskip.
  unfold still_to_show, past_folders. rewrite Htr'.
  destruct Hcases as [(Hq & Hs & Hcri & Hend)|
                      (label & options & Hcol & Hne & Hq & Hcri & _ & Hbtn & Hs)].
  - left. rewrite Hcri, Hskip.
    assert (transposed_data st !! k = None) as Hnone.
    { destruct Hend as [?|Hempty]; [done|]. rewrite Htr in Hempty.
      by destruct (zip_star_column _ _ _ Hempty) as (? & ? & ? & _ & ? & _). }
    rewrite (labeled_sections_nil _ _ Hnone). split_and!; try done.
    intros next_row. by rewrite Hnone.
  - right. split; [done|]. split.
    + exists k, (label :: options). rewrite Htr'. split_and!; try done.
      intros word Hword. rewrite Hbtn in Hword.
      apply list_elem_of_filter in Hword as [_ ?]. by right.
    + eexists. split; [exact Hs|].
      by rewrite Hcri, Hskip, (labeled_sections_cons _ _ _ _ Hcol Hne).
Qed.

(** The same for [on_enter], which calls [update_buttons]. *)
Lemma on_enter_walk st :
  transposed_data st = zip_star (og_data st) ->
  let st' := on_enter st in
  og_data st' = og_data st /\ transposed_data st' = transposed_data st /\
  connector st' = connector st /\ altbuttonFlag st' = altbuttonFlag st /\
  entered_text st'
  = (if nonempty (textbox st)
     then entered_text st +:+ connector st +:+ textbox st
     else entered_text st) /\
  ((quit st' = true /\ shown st' = shown st /\
    still_to_show st = [] /\ still_to_show st' = [] /\ past_folders st') \/
   (quit st' = quit st /\ on_section st' /\
    exists section,
      shown st' = section :: shown st /\
      still_to_show st = section :: still_to_show st')).
Proof.
  intros Htr st'. subst st'. unfold on_enter.
  set (st1 := if nonempty (textbox st) then _ else st).
  assert (og_data st1 = og_data st /\
          transposed_data st1 = transposed_data st /\
          connector st1 = connector st /\
          altbuttonFlag st1 = altbuttonFlag st /\
          entered_text st1
          = (if nonempty (textbox st)
             then entered_text st +:+ connector st +:+ textbox st
             else entered_text st) /\
          quit st1 = quit st /\ shown st1 = shown st /\
          still_to_show st1 = still_to_show st)
    as (Ho & Ht & Hc & Ha & Htitle & Hq & Hs & Hrest).
  { subst st1. by destruct (nonempty (textbox st)). }
  destruct (update_buttons_walk st1)
    as (Ho' & Ht' & Htitle' & _ & Hc' & Ha' & Hcases); [congruence|].
  rewrite Hq, Hs, Hrest in Hcases.
  split_and!; [fields; congruence..|exact Hcases].
Qed.

End VWalk.

Section VSteps.

Import V.

Implicit Types (st : state).

(** A commit keeps the table and shows the sections in order. *)
Lemma on_enter_step n st :
  table_ok n st -> (quit st = true -> still_to_show st = []) ->
  V_inv n (on_enter st) /\ walk_all (on_enter st) = walk_all st.
Proof.
  intros [Htr Hrect] Hquit.
  destruct (on_enter_walk st Htr) as (Ho & Ht & _ & _ & _ & Hcases).
  unfold V_inv, table_ok, walk_all. rewrite Ho, Ht.
  destruct Hcases as [(Hq & Hs & Hrest & Hrest' & Hpast)|
                      (Hq & Hon & section & Hs & Hrest)].
  - rewrite Hs, Hrest, Hrest'. by split_and!; [..|right| |].
  - rewrite Hs, Hrest, reverse_cons, <-app_assoc.
    split_and!; [done|done|by left| |done].
    rewrite Hq. intros Hq'. by rewrite (Hquit Hq') in Hrest.
Qed.

(** The end of [insert_word], from a state whose cursor is past the
    folders. *)
Lemma insert_plain_step n word st :
  table_ok n st -> past_folders st ->
  (quit st = true -> still_to_show st = []) ->
  V_inv n (insert_plain word st) /\
  walk_all (insert_plain word st) = walk_all st.
Proof.
  intros Htable Hpast Hquit. unfold insert_plain.
  cbn [altbuttonFlag set_textbox]. destruct (altbuttonFlag st).
  - by apply (on_enter_step n (set_textbox (textbox st +:+ word) st)).
  - split; [|done]. split; [done|]. split; [by right|done].
Qed.

(** The state in which the loop of [insert_word] leaves the globals: the
    cursor has passed columns without a header only. *)
Lemma after_collect n st k column header :
  table_ok n st -> current_row_index st = S k ->
  transposed_data st !! k = Some column ->
  og_data st !! 0 = Some header ->
  let st0 :=
    set_current_row_index (S k + anonymous_run (drop (S k) header))
      (set_textbox "" st) in
  past_folders st0 /\ still_to_show st0 = still_to_show st.
Proof.
  intros [Htr Hrect] Hcri Hcol Hheader st0. split.
  - intros next_row Hnext.
    destruct (after_folder st k header next_row Htr Hheader Hnext)
      as (h & cells & -> & Hne).
    by apply nonempty_true.
  - unfold still_to_show. subst st0.
    cbn [current_row_index transposed_data set_current_row_index
           set_textbox].
    rewrite Hcri. symmetry. apply labeled_sections_skip; [lia|].
    intros j Hj.
    assert (header !! j = Some "") as Hblank.
    { replace j with (S k + (j - S k)) by lia. rewrite <-lookup_drop.
      apply anonymous_run_blank. lia. }
    assert (length (zip_star (og_data st)) = n) as Hlen.
    { apply zip_star_length; [|done]. by destruct (og_data st). }
    assert (length header = n) as Hlh.
    { unfold rectangular in Hrect. rewrite Forall_forall in Hrect.
      apply Hrect. by eapply list_elem_of_lookup_2. }
    destruct (lookup_lt_is_Some_2 (transposed_data st) j) as [col Hj'].
    { rewrite Htr, Hlen, <-Hlh. by eapply lookup_lt_Some. }
    rewrite Hj'. rewrite Htr in Hj'.
    destruct (zip_star_header _ _ _ _ Hheader Hj') as (h & cells & -> & Hh).
    exists cells. congruence.
Qed.

(** A click on a button, in a state of a session on a rectangular table:
    it returns, and the session goes on as it should. *)
Lemma insert_word_step n word st :
  V_inv n st -> word ∈ buttons st ->
  exists st',
    insert_word word st = Done st' /\ V_inv n st' /\
    walk_all st' = walk_all st.
Proof.
  intros (Htable & Hstate & Hquit) Hword.
  destruct Hstate as [(k & column & Hcri & Hcol & Hbuttons)|Hpast].
  - destruct Htable as [Htr Hrect].
    destruct (index_is_Some word column (Hbuttons word Hword)) as [i Hi].
    destruct (table_rows st k column i word Htr Hcol (index_lookup _ _ _ Hi))
      as (header & row & Hheader & Hrow & _).
    rewrite (insert_word_expand st n k column word i header row) by done.
    destruct (after_collect n st k column header) as [Hpast Hrest];
      [done..|].
    set (st0 := set_current_row_index _ _) in *.
    assert (walk_all st0 = walk_all st) as Hwalk.
    { unfold walk_all. by rewrite Hrest. }
    assert (quit st0 = true -> still_to_show st0 = []) as Hquit0.
    { rewrite Hrest. exact Hquit. }
    destruct (sub_options header row k) as [|sub subs].
    + eexists. split; [done|]. rewrite <-Hwalk.
      by apply insert_plain_step.
    + eexists. split; [done|]. split; [|done].
      split; [done|]. split; [by right|done].
  - rewrite insert_word_plain.
    + eexists. split; [done|].
      by apply (insert_plain_step n word (set_textbox "" st)).
    + intros next_row Hnext. specialize (Hpast next_row Hnext).
      destruct next_row as [|h cells]; [done|].
      exists h, cells. split; [done|]. by apply nonempty_true.
Qed.

Lemma V_handle_step_inv n e st :
  V_inv n st ->
  exists st',
    handle e st = Done st' /\ V_inv n st' /\ walk_all st' = walk_all st.
Proof.
  intros Hinv. destruct e as [position|text| |]; cbn [handle].
  - destruct (buttons st !! position) as [word|] eqn:Hpos; [|by eexists].
    apply insert_word_step; [done|]. by eapply list_elem_of_lookup_2.
  - eexists. split; [done|]. by split.
  - eexists. split; [done|]. destruct Hinv as (? & _ & ?).
    by apply on_enter_step.
  - eexists. split; [done|]. by split.
Qed.

Lemma V_mainloop_inv n events st :
  V_inv n st ->
  V_inv n (mainloop events st) /\ walk_all (mainloop events st) = walk_all st.
Proof.
  revert st. induction events as [|e events IH]; intros st Hinv; [done|].
  cbn [mainloop]. destruct (quit st); [done|].
  destruct (V_handle_step_inv n e st Hinv) as (st' & -> & Hinv' & <-).
  by apply IH.
Qed.

(** The globals at the start of the main loop, on a rectangular table. *)
Lemma V_start_inv n data seed :
  rectangular n data ->
  V_inv n (run_file_reader data seed) /\
  walk_all (run_file_reader data seed)
  = (section_of <$> take 1 (zip_star data))
    ++ labeled_sections (drop 1 (zip_star data)).
Proof.
  intros Hrect. unfold run_file_reader, read_and_transpose_file.
  cbn [transposed_data]. unfold V_inv, table_ok, walk_all, still_to_show.
  destruct (zip_star data !! 0) as [[|label options]|] eqn:Hfirst.
  - by destruct (zip_star_column _ _ _ Hfirst) as (? & ? & ? & _ & ? & _).
  - cbn. split.
    + split; [done|]. split; [|done]. left.
      exists 0, (label :: options). split_and!; try done.
      intros word Hword. apply list_elem_of_filter in Hword as [_ ?].
      by right.
    + destruct (zip_star data) as [|col cols]; [done|].
      by injection Hfirst as ->.
  - cbn. apply lookup_ge_None in Hfirst.
    destruct (zip_star data) as [|col cols]; [|cbn in Hfirst; lia].
    split; [|done]. split; [done|]. split; [|done]. by right.
Qed.

End VSteps.

(** X6.  On a rectangular table no callback of [fsw_file_namer_V.py] ever
    raises: in every session every click on a button returns (neither the
    [ValueError] of [index] nor an [IndexError]), each button on screen being
    a cell of the column right before the cursor whenever a folder can be
    looked up. *)
Theorem no_callback_raises_V
    (n : nat) (data : list (list string)) (seed : string)
    (events : list V.event) (e : V.event) :
  rectangular n data ->
  exists st',
    V.handle e (V.mainloop events (V.run_file_reader data seed)) = Done st'.
Proof.
  intros Hrect. destruct (V_start_inv n data seed Hrect) as [Hinv _].
  destruct (V_mainloop_inv n events _ Hinv) as [Hinv' _].
  destruct (V_handle_step_inv n e _ Hinv') as (st' & ? & _). by eexists.
Qed.

Lemma no_callback_raises_V_witness :
  exists st',
    V.handle (V.Click 0)
      (V.mainloop [V.ToggleAlt; V.Click 2; V.Enter; V.Click 2]
         (V.run_file_reader
            [["Tests"; "Freq"; ""; ""]; ["PSD"; "2.4"; "2412"; "2437"];
             ["PWR"; "5.1"; "5180"; ""]; ["OBW"; "5.7"; ""; ""]] "seed"))
    = Done st'.
Proof.
  apply (no_callback_raises_V 4). repeat constructor.
Defined.

(** X7.  On a rectangular table, in every session of [fsw_file_namer_V.py]
    the sections shown so far, followed by the sections of the columns with
    a header from the cursor on, are the section of the first column
    followed by those of the other columns with a header, in the order of
    the table: no such column is skipped and none is shown twice, whatever
    is clicked.  Once the main loop is left, all of them have been shown. *)
Theorem columns_are_shown_in_order
    (n : nat) (data : list (list string)) (seed : string)
    (events : list V.event) :
  rectangular n data ->
  let st := V.mainloop events (V.run_file_reader data seed) in
  let sections :=
    (section_of <$> take 1 (zip_star data))
    ++ labeled_sections (drop 1 (zip_star data)) in
  reverse (V.shown st) ++ still_to_show st = sections /\
  (V.quit st = true -> reverse (V.shown st) = sections).
Proof.
  intros Hrect st sections.
  destruct (V_start_inv n data seed Hrect) as [Hinv Hstart].
  destruct (V_mainloop_inv n events _ Hinv) as [(_ & _ & Hquit) Hwalk].
  fold st in Hquit, Hwalk. rewrite Hstart in Hwalk.
  split; [exact Hwalk|]. intros Hq. unfold walk_all in Hwalk.
  by rewrite (Hquit Hq), app_nil_r in Hwalk.
Qed.

Lemma columns_are_shown_in_order_witness :
  let data :=
    [["Tests"; "Freq"; ""; ""; "Ver"]; ["PSD"; "2.4"; "2412"; "2437"; "1"];
     ["PWR"; "5.1"; "5180"; ""; "2"]] in
  let st :=
    V.mainloop [V.Click 0; V.Click 0; V.Click 1; V.Enter]
      (V.run_file_reader data "seed") in
  reverse (V.shown st) ++ still_to_show st
  = (section_of <$> take 1 (zip_star data))
    ++ labeled_sections (drop 1 (zip_star data)).
Proof.
  intros data st.
  destruct (columns_are_shown_in_order 5 data "seed"
              [V.Click 0; V.Click 0; V.Click 1; V.Enter]) as [Hwalk _].
  - repeat constructor.
  - exact Hwalk.
Defined.

(** X8.  When the first column of the table has a header (or the table has
    no column at all), no session of [fsw_file_namer_V.py] ever shows a
    column without a header as a section, on any table, ragged ones
    included: every section in the history has a label. *)
Theorem headerless_columns_are_never_sections
    (data : list (list string)) (seed : string) (events : list V.event) :
  (forall column, zip_star data !! 0 = Some column ->
                  has_header column = true) ->
  Forall (fun section => section.1 <> "")
    (V.shown (V.mainloop events (V.run_file_reader data seed))).
Proof.
  intros Hfirst. apply labeled_first_column_sessions.
  unfold V.run_file_reader, V.read_and_transpose_file.
  cbn [V.transposed_data].
  destruct (zip_star data !! 0) as [[|label options]|]; cbn; [done| |done].
  constructor; [|done]. cbn. apply nonempty_true.
  exact (Hfirst (label :: options) eq_refl).
Qed.

Lemma headerless_columns_are_never_sections_witness :
  Forall (fun section => section.1 <> "")
    (V.shown
       (V.mainloop [V.Click 0; V.Enter; V.Enter]
          (V.run_file_reader
             [["Tests"; ""; "Freq"; ""]; ["PSD"; "a"; "2.4"]] "seed"))).
Proof.
  apply headerless_columns_are_never_sections.
  intros column [= <-]. reflexivity.
Defined.

Section VButtons.

Import V.

Implicit Types (st : state).

Lemma filter_nonempty_Forall (ws : list string) :
  Forall (fun w => w <> "") (filter (fun w => nonempty w = true) ws).
Proof.
  apply Forall_forall. intros w [Hw _]%list_elem_of_filter.
  by apply nonempty_true.
Qed.

Lemma update_buttons_buttons st :
  Forall (fun w => w <> "") (buttons st) ->
  Forall (fun w => w <> "") (buttons (update_buttons st)).
Proof.
  intros Hb. unfold update_buttons.
  destruct (transposed_data st !! current_row_index st); [|done].
  destruct (skip_empty_rows _ _) as [cri [[|label options]|]]; cbn;
    try done.
  apply filter_nonempty_Forall.
Qed.

Lemma on_enter_buttons st :
  Forall (fun w => w <> "") (buttons st) ->
  Forall (fun w => w <> "") (buttons (on_enter st)).
Proof.
  intros Hb. unfold on_enter. cbn [buttons set_textbox].
  apply update_buttons_buttons. by destruct (nonempty (textbox st)).
Qed.

Lemma V_handle_buttons e st :
  Forall (fun w => w <> "") (buttons st) ->
  Forall (fun w => w <> "") (buttons (globals (handle e st))).
Proof.
  intros Hb. destruct e as [position|text| |]; cbn [handle globals];
    try done.
  - destruct (buttons st !! position) as [word|]; [|done].
    destruct (insert_word_cases word st) as (c & _ & Hcases).
    cbn zeta in Hcases.
    destruct (insert_word word st) as [st'|e st']; cbn [globals].
    + destruct Hcases as [->|(subs & _ & ->)].
      * unfold insert_plain. cbn [altbuttonFlag set_textbox
                                    set_current_row_index].
        destruct (altbuttonFlag st); [|done]. by apply on_enter_buttons.
      * cbn. apply filter_nonempty_Forall.
    + by subst st'.
  - by apply on_enter_buttons.
Qed.

End VButtons.

(** X9.  No session of [fsw_file_namer_V.py] ever shows a blank button,
    whatever the table: every button, of a section or of a folder, carries
    a text that is not empty (so that a click, unlike the Enter key, never
    commits an empty token). *)
Theorem buttons_are_never_blank
    (data : list (list string)) (seed : string) (events : list V.event) :
  Forall (fun w => w <> "")
    (V.buttons (V.mainloop events (V.run_file_reader data seed))).
Proof.
  assert (Forall (fun w => w <> "")
            (V.buttons (V.run_file_reader data seed))) as Hstart.
  { unfold V.run_file_reader, V.read_and_transpose_file.
    cbn [V.transposed_data].
    destruct (zip_star data !! 0) as [[|label options]|]; cbn; try done.
    apply filter_nonempty_Forall. }
  revert Hstart. generalize (V.run_file_reader data seed).
  induction events as [|e events IH]; intros st Hst; [done|].
  cbn [V.mainloop]. destruct (V.quit st); [done|].
  by apply IH, V_handle_buttons.
Qed.

(** X10.  The transposition of [read_and_transpose_file] loses nothing of a
    rectangular table that has a row and a column: cell [i] of column [j] is
    cell [j] of row [i], and transposing the transposed table gives the
    table back. *)
Theorem transposing_twice_gives_the_table
    (n : nat) (data : list (list string)) :
  rectangular n data -> data <> [] -> 0 < n ->
  length (V.read_and_transpose_file data).2 = n /\
  (forall i j row w,
     data !! i = Some row -> row !! j = Some w ->
     exists column,
       (V.read_and_transpose_file data).2 !! j = Some column /\
       column !! i = Some w) /\
  zip_star (V.read_and_transpose_file data).2 = data.
Proof.
  intros Hrect Hne Hn. cbn [V.read_and_transpose_file snd].
  pose proof (zip_star_length n data Hne Hrect) as Hlen.
  assert (forall i j row w,
            data !! i = Some row -> row !! j = Some w ->
            exists column, zip_star data !! j = Some column /\
                           column !! i = Some w) as Hcell.
  { intros i j row w Hrow Hw.
    destruct (lookup_lt_is_Some_2 (zip_star data) j) as [column Hcol].
    { rewrite Hlen. unfold rectangular in Hrect.
      rewrite Forall_forall in Hrect.
      rewrite <-(Hrect row) by (by eapply list_elem_of_lookup_2).
      by eapply lookup_lt_Some. }
    exists column. split; [done|].
    pose proof (zip_star_lookup_Some _ _ _ Hcol) as Hall.
    destruct (Forall2_lookup_l _ _ _ _ _ Hall Hrow) as (w' & ? & ?).
    congruence. }
  split; [done|]. split; [done|].
  assert (zip_star data <> []) as Hne'.
  { intros Hnil. rewrite Hnil in Hlen. cbn in Hlen. lia. }
  apply list_eq. intros i. rewrite zip_star_lookup by done.
  destruct (data !! i) as [row|] eqn:Hrow.
  - apply mapM_Some_2, Forall2_same_length_lookup_2.
    + rewrite Hlen. unfold rectangular in Hrect.
      rewrite Forall_forall in Hrect. symmetry. apply Hrect.
      by eapply list_elem_of_lookup_2.
    + intros j column w Hcol Hw.
      destruct (Hcell i j row w Hrow Hw) as (column' & ? & ?). congruence.
  - apply mapM_None_2, Exists_exists.
    destruct (zip_star data) as [|column columns] eqn:Hzip; [done|].
    exists column. split; [by left|]. apply lookup_ge_None.
    assert (zip_star data !! 0 = Some column) as Hcol by by rewrite Hzip.
    apply zip_star_lookup_Some, Forall2_length in Hcol.
    apply lookup_ge_None in Hrow. lia.
Qed.

Lemma transposing_twice_gives_the_table_witness :
  let data := [["Tests"; "Freq"; ""]; ["PSD"; "2.4"; "2412"]] in
  zip_star (V.read_and_transpose_file data).2 = data.
Proof.
  intros data.
  apply (transposing_twice_gives_the_table 3 data);
    [repeat constructor|discriminate|apply le_S, le_S, le_n].
Defined.

Section VEnd.

Import V.

Implicit Types (st : state).

Lemma V_mainloop_quit events st : quit st = true -> mainloop events st = st.
Proof. intros Hq. destruct events; cbn; [done|]. by rewrite Hq. Qed.

(** From a section on, the tokens accepted are as many as the sections
    still to show, and one for the section on screen. *)
Lemma V_commit_each_exact tokens st :
  transposed_data st = zip_star (og_data st) -> quit st = false ->
  let m := S (length (still_to_show st)) in
  (quit (mainloop (commit_each tokens) st) = true <-> m <= length tokens) /\
  entered_text (mainloop (commit_each tokens) st)
  = join (connector st)
      (entered_text st :: filter (fun t => nonempty t = true) (take m tokens)).
Proof.
  revert st. induction tokens as [|token tokens IH]; intros st Htr Hq m.
  { cbn. rewrite Hq. split; [|done]. split; [done|]. subst m. lia. }
  rewrite V_commit_each_cons, Hq.
  destruct (on_enter_walk (set_textbox token st) Htr)
    as (Ho & Ht & Hc & _ & Htitle & Hcases).
  cbn [og_data transposed_data connector entered_text textbox set_textbox
         quit shown] in Ho, Ht, Hc, Htitle, Hcases.
  change (still_to_show (set_textbox token st)) with (still_to_show st)
    in Hcases.
  set (st1 := on_enter (set_textbox token st)) in *.
  assert (join (connector st)
            (entered_text st1 :: filter (fun t => nonempty t = true) [])
          = join (connector st)
              (entered_text st
                 :: filter (fun t => nonempty t = true) [token])) as Hone.
  { rewrite Htitle, filter_cons. destruct (nonempty token) eqn:Hne.
    - by rewrite decide_True.
    - by rewrite decide_False. }
  destruct Hcases as [(Hq1 & _ & Hrest & _)|(Hq1 & _ & section & _ & Hrest)].
  - rewrite V_mainloop_quit by done. subst m. rewrite Hrest.
    split; [split; [cbn [length]; lia|done]|].
    cbn [length take]. rewrite take_0. exact Hone.
  - destruct (IH st1) as [Hquit Hfinal]; [congruence|congruence|].
    rewrite Hc in Hfinal. subst m. rewrite Hrest. cbn [length].
    split; [rewrite Hquit; lia|].
    rewrite Hfinal, Htitle. cbn [take]. rewrite filter_cons.
    destruct (nonempty token) eqn:Hne.
    + rewrite decide_True by done. by rewrite join_push.
    + by rewrite decide_False.
Qed.

End VEnd.

(** X11.  A session of [fsw_file_namer_V.py] in which the user commits
    tokens one after the other ends exactly when as many tokens were
    committed as there are sections to show: the first column and the
    columns with a header after it (one commit, on a table without a
    column).  These first tokens are accepted, those that are not empty
    joining the title in order behind " - ", and the others are not
    delivered. *)
Theorem session_ends_with_the_columns
    (data : list (list string)) (seed : string) (tokens : list string) :
  let st := V.mainloop (V.commit_each tokens) (V.run_file_reader data seed) in
  let total := S (length (labeled_sections (drop 1 (zip_star data)))) in
  (V.quit st = true <-> total <= length tokens) /\
  V.entered_text st
  = join " - " (seed
                  :: filter (fun t => nonempty t = true) (take total tokens)).
Proof.
  intros st total.
  destruct (V_run_file_reader_start data seed) as (Hseed & Hq & Hc & _).
  assert (V.transposed_data (V.run_file_reader data seed)
          = zip_star (V.og_data (V.run_file_reader data seed)) /\
          still_to_show (V.run_file_reader data seed)
          = labeled_sections (drop 1 (zip_star data))) as [Htr Hrest].
  { unfold V.run_file_reader, V.read_and_transpose_file, still_to_show.
    cbn [V.transposed_data].
    by destruct (zip_star data !! 0) as [[|label options]|]. }
  destruct (V_commit_each_exact tokens (V.run_file_reader data seed) Htr Hq)
    as [Hquit Htitle].
  rewrite Hrest in Hquit, Htitle. rewrite Hc, Hseed in Htitle. done.
Qed.

(** ** The tokens of a session *)

Section HCommits.

Import H.

Implicit Types (st : state) (events : list event).

(** What an event does to the title and to the history of the sections, by
    the text it commits: a committed text joins the title unless it is
    empty, and the section is left; without a commit nothing of this
    changes. *)
Lemma H_event_commit e st :
  let st' := globals (handle e st) in
  match H_commit e st with
  | Some t =>
      entered_text st'
      = (if nonempty t then entered_text st +:+ "_" +:+ t
         else entered_text st) /\
      ((quit st' = true /\ shown st' = shown st) \/
       (quit st' = quit st /\ exists section, shown st' = section :: shown st))
  | None =>
      entered_text st' = entered_text st /\ shown st' = shown st /\
      quit st' = quit st
  end.
Proof.
  assert (forall st0,
    entered_text st0 = entered_text st -> shown st0 = shown st ->
    quit st0 = quit st -> H_save_fails st0 = H_save_fails st ->
    let st' := globals (on_enter st0) in
    if H_save_fails st
    then entered_text st' = entered_text st /\ shown st' = shown st /\
         quit st' = quit st
    else entered_text st'
         = (if nonempty (textbox st0)
            then entered_text st +:+ "_" +:+ textbox st0
            else entered_text st) /\
         ((quit st' = true /\ shown st' = shown st) \/
          (quit st' = quit st /\
           exists section, shown st' = section :: shown st))) as Henter.
  { intros st0 Ht Hs Hq Hsf. cbn zeta. rewrite <-Hsf.
    destruct (H_save_fails st0) eqn:Hfails.
    - unfold H_save_fails in Hfails.
      apply andb_true_iff in Hfails as [Hflag Hfail].
      destruct (on_enter_save_fails st0 Hflag) as (e0 & st1 & -> & Hrest).
      { apply orb_true_iff in Hfail as [Hw%negb_true_iff|Hle%Nat.leb_le];
          by auto. }
      destruct Hrest as (_ & ? & _ & _ & ? & ?). cbn [globals].
      split_and!; congruence.
    - destruct (on_enter_next st0 Hfails)
        as (st1 & -> & _ & _ & Htitle & Hnext).
      cbn [globals]. rewrite Htitle, Ht. split; [done|].
      destruct (lines st0 !! current_line st0).
      + right. destruct Hnext as (? & _ & section & ?).
        split; [congruence|]. exists section. congruence.
      + left. destruct Hnext as (? & _ & ?). split; congruence. }
  unfold H_commit.
  destruct e as [position|text| | |]; cbn [handle].
  - destruct (buttons st !! position) as [word|].
    + unfold insert_word. cbn [altbuttonFlag set_textbox].
      destruct (altbuttonFlag st).
      * specialize (Henter (set_textbox word st) eq_refl eq_refl eq_refl
                      eq_refl).
        cbn zeta in Henter. cbn [textbox set_textbox] in Henter.
        by destruct (H_save_fails st).
      * by destruct (H_save_fails st).
    + by destruct (H_save_fails st), (altbuttonFlag st).
  - by destruct (H_save_fails st).
  - specialize (Henter st eq_refl eq_refl eq_refl eq_refl).
    by destruct (H_save_fails st).
  - by destruct (H_save_fails st).
  - by destruct (H_save_fails st).
Qed.

(** The title of a session is the title it started with followed by the
    committed texts that are not empty, and every commit left a section. *)
Lemma H_session events st :
  entered_text (mainloop events st)
  = join "_" (entered_text st
                :: filter (fun t => nonempty t = true) (H_commits events st)) /\
  length (H_commits events st) + live (quit (mainloop events st))
  + length (shown st)
  = length (shown (mainloop events st)) + live (quit st).
Proof.
  revert st. induction events as [|e events IH]; intros st.
  { cbn. split; [done|lia]. }
  cbn [mainloop H_commits]. destruct (quit st) eqn:Hquit.
  { rewrite Hquit. cbn. split; [done|lia]. }
  destruct (IH (globals (handle e st))) as [Htitle Hcount].
  pose proof (H_event_commit e st) as Hstep. cbn zeta in Hstep.
  destruct (H_commit e st) as [t|].
  - change (option_list (Some t)) with [t]. cbn [app].
    destruct Hstep as [Ht Hnext]. split.
    + rewrite Htitle, Ht, filter_cons. destruct (nonempty t) eqn:Hne.
      * rewrite decide_True by done. by rewrite join_push.
      * by rewrite decide_False.
    + cbn [length].
      destruct Hnext as [(Hq & Hs)|(Hq & section & Hs)];
        rewrite Hq, Hs, ?Hquit in Hcount; cbn in *; lia.
  - change (option_list None) with (@nil string). cbn [app].
    destruct Hstep as (Ht & Hs & Hq). rewrite Htitle, Ht. split; [done|].
    rewrite Hs, Hq, Hquit in Hcount. done.
Qed.

End HCommits.

Section VCommits.

Import V.

Implicit Types (st : state) (events : list event).

Lemma V_leaves_false st st' :
  quit st = false -> quit st' = quit st -> shown st' = shown st ->
  V_leaves st st' = false.
Proof.
  intros Hq Hq' Hs. unfold V_leaves.
  by rewrite Hq', Hq, Hs, Nat.ltb_irrefl.
Qed.

Lemma V_leaves_true st st' :
  quit st' = true \/ (exists section, shown st' = section :: shown st) ->
  V_leaves st st' = true.
Proof.
  unfold V_leaves. intros [->|[section ->]]; [done|].
  apply orb_true_iff. right. apply Nat.ltb_lt. cbn. lia.
Qed.

(** What an event does to the title and to the history of the sections, by
    the text it commits. *)
Lemma V_event_commit e st :
  quit st = false ->
  let st' := globals (handle e st) in
  connector st' = connector st /\
  match V_commit e st with
  | Some t =>
      entered_text st'
      = (if nonempty t then entered_text st +:+ connector st +:+ t
         else entered_text st) /\
      ((quit st' = true /\ shown st' = shown st) \/
       (quit st' = quit st /\ exists section, shown st' = section :: shown st))
  | None =>
      entered_text st' = entered_text st /\ shown st' = shown st /\
      quit st' = quit st
  end.
Proof.
  intros Hquit.
  assert (forall st0,
    entered_text st0 = entered_text st -> shown st0 = shown st ->
    quit st0 = quit st -> connector st0 = connector st ->
    let st' := on_enter st0 in
    connector st' = connector st /\
    entered_text st'
    = (if nonempty (textbox st0)
       then entered_text st +:+ connector st +:+ textbox st0
       else entered_text st) /\
    ((quit st' = true /\ shown st' = shown st) \/
     (quit st' = quit st /\ exists section, shown st' = section :: shown st)))
    as Henter.
  { intros st0 Ht Hs Hq Hc.
    destruct (V_on_enter_spec st0) as (Htitle & _ & _ & Hc' & _ & _ & Hnext).
    cbn zeta. split; [congruence|]. rewrite Htitle, Ht, Hc. split; [done|].
    destruct Hnext as [(? & ? & _)|(? & _ & label & options & _ & _ & ?)];
      [left|right]; split; try congruence.
    exists (label, options). congruence. }
  assert (forall st', quit st' = quit st -> shown st' = shown st ->
            V_leaves st st' = false) as Hstay.
  { intros st'. by apply V_leaves_false. }
  destruct e as [position|text| |]; cbn [V_commit].
  - cbn [handle].
    destruct (buttons st !! position) as [word|] eqn:Hword.
    2:{ cbn [globals]. by rewrite Hstay. }
    destruct (insert_word_cases word st) as (c & _ & Hcases).
    cbn zeta in Hcases.
    destruct (insert_word word st) as [st'|e st']; cbn [globals].
    + destruct Hcases as [->|(subs & _ & ->)];
        [|by rewrite Hstay].
      unfold insert_plain.
      cbn [altbuttonFlag textbox set_textbox set_current_row_index].
      destruct (altbuttonFlag st); [|by rewrite Hstay].
      set (st0 := set_textbox ("" +:+ word) _).
      destruct (Henter st0 eq_refl eq_refl eq_refl eq_refl)
        as (Hc & Htitle & Hnext).
      rewrite V_leaves_true.
      * done.
      * destruct Hnext as [[? _]|[_ ?]]; by auto.
    + subst st'. by rewrite Hstay.
  - by split_and!.
  - cbn [handle globals]. by apply Henter.
  - by split_and!.
Qed.

(** The title of a session is the title it started with followed by the
    committed texts that are not empty, and every commit left a section. *)
Lemma V_session events st :
  entered_text (mainloop events st)
  = join (connector st)
      (entered_text st
         :: filter (fun t => nonempty t = true) (V_commits events st)) /\
  length (V_commits events st) + live (quit (mainloop events st))
  + length (shown st)
  = length (shown (mainloop events st)) + live (quit st).
Proof.
  revert st. induction events as [|e events IH]; intros st.
  { cbn. split; [done|lia]. }
  cbn [mainloop V_commits]. destruct (quit st) eqn:Hquit.
  { rewrite Hquit. cbn. split; [done|lia]. }
  destruct (IH (globals (handle e st))) as [Htitle Hcount].
  destruct (V_event_commit e st Hquit) as [Hc Hstep]. rewrite Hc in Htitle.
  destruct (V_commit e st) as [t|].
  - change (option_list (Some t)) with [t]. cbn [app].
    destruct Hstep as [Ht Hnext]. split.
    + rewrite Htitle, Ht, filter_cons. destruct (nonempty t) eqn:Hne.
      * rewrite decide_True by done. by rewrite join_push.
      * by rewrite decide_False.
    + cbn [length].
      destruct Hnext as [(Hq & Hs)|(Hq & section & Hs)];
        rewrite Hq, Hs, ?Hquit in Hcount; cbn in *; lia.
  - change (option_list None) with (@nil string). cbn [app].
    destruct Hstep as (Ht & Hs & Hq). rewrite Htitle, Ht. split; [done|].
    rewrite Hs, Hq, Hquit in Hcount. done.
Qed.

End VCommits.

(** C3, as the code has it.  In every session on a table that shows a
    first section, every section that was shown and left was left by one
    commit, and the section on screen has had none yet: there are as many
    commits as sections shown, less the one on screen while the main loop
    runs.  The title is the seed followed by the committed texts that are
    not empty, in order, joined by the separator: a section gives the one
    text committed for it, or nothing when it is left with an empty text
    box, and never more.  A folder is no section: the click that opens it
    commits nothing, and the value chosen in it is the commit of the section
    it was opened from. *)
Theorem at_most_one_token_per_section :
  (forall text writable seed events,
     let st0 := H.start text writable seed in
     let st := H.mainloop events st0 in
     H.shown st0 <> [] ->
     length (H_commits events st0) + live (H.quit st) = length (H.shown st) /\
     H.entered_text st
     = join "_" (seed :: filter (fun t => nonempty t = true)
                           (H_commits events st0))) /\
  (forall data seed events,
     let st0 := V.run_file_reader data seed in
     let st := V.mainloop events st0 in
     V.shown st0 <> [] ->
     length (V_commits events st0) + live (V.quit st) = length (V.shown st) /\
     V.entered_text st
     = join " - " (seed :: filter (fun t => nonempty t = true)
                             (V_commits events st0))).
Proof.
  split.
  - intros text writable seed events st0 st Hfirst. subst st.
    destruct (H_run_file_reader_start text writable seed) as (Hseed & Hq & Hs).
    destruct (H_session events st0) as [Htitle Hcount].
    fold st0 in Hseed, Hq, Hs. clearbody st0.
    rewrite Htitle, Hseed. split; [|done]. rewrite Hq in Hcount.
    destruct (H.shown st0) as [|section [|]]; [done| |cbn in Hs; lia].
    cbn in Hcount. lia.
  - intros data seed events st0 st Hfirst. subst st.
    destruct (V_run_file_reader_start data seed) as (Hseed & Hq & Hc & Hs).
    destruct (V_session events st0) as [Htitle Hcount].
    fold st0 in Hseed, Hq, Hc, Hs. clearbody st0.
    rewrite Htitle, Hseed, Hc. split; [|done]. rewrite Hq in Hcount.
    destruct (V.shown st0) as [|section [|]]; [done| |cbn in Hs; lia].
    cbn in Hcount. lia.
Qed.

Lemma at_most_one_token_per_section_witness :
  (let st0 :=
     H.start ("Freq,2.4,5.1" +:+ nl +:+ "Mod,OFDM,QAM" +:+ nl) true "seed" in
   let events := [H.Click 0; H.Type_ ""; H.Enter] in
   length (H_commits events st0) + live (H.quit (H.mainloop events st0))
   = length (H.shown (H.mainloop events st0)) /\
   H.entered_text (H.mainloop events st0)
   = join "_" ("seed" :: filter (fun t => nonempty t = true)
                           (H_commits events st0))) /\
  (let st0 :=
     V.run_file_reader
       [["Tests"; "Freq"; ""; ""]; ["PSD"; "2.4"; "2412"; "2437"];
        ["PWR"; "5.1"; "5180"; ""]; ["OBW"; "5.7"; ""; ""]] "seed" in
   let events := [V.Enter; V.Click 0; V.Click 1] in
   length (V_commits events st0) + live (V.quit (V.mainloop events st0))
   = length (V.shown (V.mainloop events st0)) /\
   V.entered_text (V.mainloop events st0)
   = join " - " ("seed" :: filter (fun t => nonempty t = true)
                             (V_commits events st0))).
Proof.
  split.
  - intros st0 events.
    apply (proj1 at_most_one_token_per_section
             ("Freq,2.4,5.1" +:+ nl +:+ "Mod,OFDM,QAM" +:+ nl) true "seed"
             events).
    discriminate.
  - intros st0 events.
    apply (proj2 at_most_one_token_per_section
             [["Tests"; "Freq"; ""; ""]; ["PSD"; "2.4"; "2412"; "2437"];
              ["PWR"; "5.1"; "5180"; ""]; ["OBW"; "5.7"; ""; ""]] "seed"
             events).
    discriminate.
Defined.

(** C3 fails on a section the user leaves with an empty text box: two
    sections are shown and the title holds one token. *)
Lemma skipped_section_gives_no_token :
  let st :=
    H.mainloop [H.Enter; H.Click 0]
      (H.start ("Freq,2.4,5.1" +:+ nl +:+ "Mod,OFDM,QAM" +:+ nl)
         true "seed") in
  H.shown st = [("Mod", ["OFDM"; "QAM"]); ("Freq", ["2.4"; "5.1"])] /\
  H.quit st = true /\
  H.entered_text st = "seed_OFDM" /\
  H.entered_text st <> "seed_2.4_OFDM" /\ H.entered_text st <> "seed_5.1_OFDM".
Proof. vm_compute. repeat split; discriminate. Qed.


(** C5, as the code has it.  When the user commits tokens one after the
    other and no save fails, the session accepts the first of them, as many
    as there are sections still to leave, the one on screen included, and
    then ends: the tokens committed once the table is exhausted are not
    delivered.  The title at the end is the title at the start (the seed, at
    the start of the program) followed by the accepted tokens that are not
    empty, in the order of selection, joined by the separator.  For any
    sequence of clicks, key strokes and toggles the title is the title at
    the start followed by the texts committed that are not empty.  A commit
    never touches what the title already holds: the old title is a prefix
    of the new one, a strict prefix exactly when the text committed is not
    empty; a commit that raises out of a failed save leaves the title as it
    was. *)
Theorem title_is_seed_then_tokens :
  (forall tokens (st : H.state),
     H.quit st = false -> H_save_fails st = false ->
     let m := S (length (H.lines st) - H.current_line st) in
     let final := H.mainloop (H.commit_each tokens) st in
     (H.quit final = true <-> m <= length tokens) /\
     H.entered_text final
     = join "_" (H.entered_text st
                   :: filter (fun t => nonempty t = true) (take m tokens))) /\
  (forall tokens (st : V.state),
     V.quit st = false ->
     V.transposed_data st = zip_star (V.og_data st) ->
     let m := S (length (still_to_show st)) in
     let final := V.mainloop (V.commit_each tokens) st in
     (V.quit final = true <-> m <= length tokens) /\
     V.entered_text final
     = join (V.connector st)
         (V.entered_text st
            :: filter (fun t => nonempty t = true) (take m tokens))) /\
  (forall st : H.state,
     match H.on_enter st with
     | Done st' =>
         exists suffix,
           H.entered_text st' = H.entered_text st +:+ suffix /\
           (suffix = "" <-> H.textbox st = "")
     | Raised _ st' => H.entered_text st' = H.entered_text st
     end) /\
  (forall st : V.state,
     exists suffix,
       V.entered_text (V.on_enter st) = V.entered_text st +:+ suffix /\
       (suffix = "" <-> V.textbox st = "")) /\
  (forall events (st : H.state),
     H.entered_text (H.mainloop events st)
     = join "_" (H.entered_text st
                   :: filter (fun t => nonempty t = true)
                        (H_commits events st))) /\
  (forall events (st : V.state),
     V.entered_text (V.mainloop events st)
     = join (V.connector st)
         (V.entered_text st
            :: filter (fun t => nonempty t = true) (V_commits events st))).
Proof.
  split_and!.
  - intros tokens st Hq Hsafe. by apply H_commit_each_exact.
  - intros tokens st Hq Htr. by apply V_commit_each_exact.
  - intros st. pose proof (on_enter_spec st) as Hspec.
    destruct (H.on_enter st) as [st'|e st'];
      [|by destruct Hspec as (_ & _ & ? & _)].
    destruct Hspec as (-> & _).
    destruct (nonempty (H.textbox st)) eqn:Hne.
    + exists ("_" +:+ H.textbox st). split; [done|].
      apply nonempty_true in Hne. by split.
    + exists "". rewrite string_app_nil_r. split; [done|].
      by apply nonempty_false in Hne.
  - intros st. destruct (V_on_enter_spec st) as (-> & _).
    destruct (nonempty (V.textbox st)) eqn:Hne.
    + exists (V.connector st +:+ V.textbox st). split; [done|].
      apply nonempty_true in Hne. split; [|done].
      by intros [_ ?]%string_app_eq_nil.
    + exists "". rewrite string_app_nil_r. split; [done|].
      by apply nonempty_false in Hne.
  - intros events st. apply H_session.
  - intros events st. apply V_session.
Qed.

Lemma title_is_seed_then_tokens_witness :
  let st :=
    H.set_saveFlag true
      (H.start
         ("Freq,2.4,5.1" +:+ nl +:+ "Mod,OFDM,QAM" +:+ nl +:+ "Ver,1" +:+ nl)
         true "seed") in
  let final := H.mainloop (H.commit_each ["2.4"; ""; "1"; "late"]) st in
  (H.quit final = true <-> 3 <= 4) /\
  H.entered_text final
  = join "_" ("seed"
                :: filter (fun t => nonempty t = true)
                     (take 3 ["2.4"; ""; "1"; "late"])).
Proof.
  intros st final.
  apply (proj1 title_is_seed_then_tokens ["2.4"; ""; "1"; "late"] st);
    reflexivity.
Defined.

(** C5 fails in two ways.  A token committed with the "Save Word?" box
    ticked while the file is locked is dropped: the commit raises, and the
    title at the end holds the second token only.  A commit with an empty
    text box leaves the title as it is: the old title is no strict prefix of
    the new one. *)
Lemma selected_token_can_be_dropped :
  (let st0 := H.start ("Freq,2.4,5.1" +:+ nl) false "seed" in
   let st1 := H.mainloop [H.ToggleSave; H.Type_ "2.4"; H.Enter] st0 in
   let final := H.mainloop [H.ToggleSave; H.Type_ "5.1"; H.Enter] st1 in
   (exists e st', H.handle H.Enter
                    (H.mainloop [H.ToggleSave; H.Type_ "2.4"] st0)
                  = Raised e st') /\
   H.entered_text st1 = "seed" /\ H.quit st1 = false /\
   H.entered_text final = "seed_5.1" /\ H.quit final = true /\
   H.entered_text final <> "seed_2.4_5.1") /\
  (let st0 := H.start ("Freq,2.4,5.1" +:+ nl) true "seed" in
   H.on_enter st0 = Done (H.mainloop [H.Enter] st0) /\
   H.entered_text (H.mainloop [H.Enter] st0) = H.entered_text st0) /\
  (let st0 := V.run_file_reader [["Tests"]; ["PSD"]] "seed" in
   V.entered_text (V.on_enter st0) = V.entered_text st0).
Proof.
  vm_compute. split_and!; try done. by eexists _, _.
Qed.

(** ** Tables with rows of unequal length *)

Section HRagged.

Import H.

(** While no save is asked for, no callback raises, on any file. *)
Lemma H_handle_without_save_done e st :
  saveFlag st = false -> exists st', handle e st = Done st'.
Proof.
  intros Hflag.
  assert (forall st0, saveFlag st0 = false ->
            exists st', on_enter st0 = Done st') as Henter.
  { intros st0 Hf0. destruct (on_enter_next st0) as (st' & ? & _).
    - unfold H_save_fails. by rewrite Hf0.
    - by eauto. }
  destruct e as [position|text| | |]; cbn [handle]; try by eexists.
  - destruct (buttons st !! position) as [word|]; [|by eexists].
    unfold insert_word. cbn [altbuttonFlag set_textbox].
    destruct (altbuttonFlag st); [|by eexists]. by apply Henter.
  - by apply Henter.
Qed.

Lemma H_start_saveFlag text writable seed :
  saveFlag (start text writable seed) = false.
Proof.
  unfold start, run_file_reader. cbn [lines current_line].
  destruct (read_file text !! 0) as [line|]; [|done].
  by destruct (cells_cons line) as (label & options & ->).
Qed.

End HRagged.

Section VRagged.

Import V.

Implicit Types (st : state) (sections : list (string * list string)).

(** The walk from section to section, without a click, on any table: the
    sections shown and those still to show are always the same. *)
Lemma V_walk_step sections e st :
  (forall position, e <> Click position) ->
  transposed_data st = zip_star (og_data st) ->
  walk_all st = sections ->
  let st' := globals (handle e st) in
  transposed_data st' = zip_star (og_data st') /\
  walk_all st' = sections /\
  (quit st' = true -> quit st = false -> still_to_show st' = []).
Proof.
  intros Hclick Htr Hwalk.
  destruct e as [position|text| |]; cbn [handle globals];
    [by destruct (Hclick position)| | |];
    try (split_and!; [exact Htr|exact Hwalk|cbn; congruence]).
  destruct (on_enter_walk st Htr) as (Ho & Ht & _ & _ & _ & Hcases).
  split; [congruence|]. unfold walk_all in *.
  destruct Hcases as [(_ & Hs & Hrest & Hrest' & _)|
                      (Hq & _ & section & Hs & Hrest)].
  - rewrite Hs, Hrest'. rewrite Hrest in Hwalk. by split.
  - rewrite Hs, reverse_cons, <-app_assoc. cbn [app].
    rewrite Hrest in Hwalk. split; [done|]. congruence.
Qed.

Lemma V_walk_mainloop sections events st :
  Forall (fun e => forall position, e <> Click position) events ->
  transposed_data st = zip_star (og_data st) ->
  walk_all st = sections ->
  (quit st = true -> still_to_show st = []) ->
  let st' := mainloop events st in
  transposed_data st' = zip_star (og_data st') /\
  walk_all st' = sections /\
  (quit st' = true -> still_to_show st' = []).
Proof.
  intros Hevents. revert st.
  induction Hevents as [|e events He _ IH]; intros st Htr Hwalk Hend;
    [done|].
  cbn [mainloop]. destruct (quit st) eqn:Hq; [by rewrite Hq|].
  destruct (V_walk_step sections e st He Htr Hwalk) as (Htr' & Hwalk' & Hend').
  apply IH; [done|done|]. intros Hq'. by apply Hend'.
Qed.

(** The first section is the first column of the transposed table, and the
    others are still to show. *)
Lemma V_walk_start data seed :
  let st := run_file_reader data seed in
  transposed_data st = zip_star (og_data st) /\
  quit st = false /\
  walk_all st
  = (section_of <$> take 1 (zip_star data))
      ++ labeled_sections (drop 1 (zip_star data)).
Proof.
  unfold run_file_reader, read_and_transpose_file, walk_all, still_to_show.
  cbn [transposed_data].
  destruct (zip_star data) as [|column columns] eqn:Hz; [done|].
  destruct column as [|label options]; [|done].
  assert (zip_star data !! 0 = Some []) as Hcol by (by rewrite Hz).
  by destruct (zip_star_column _ _ _ Hcol) as (? & ? & ? & _ & ? & _).
Qed.

End VRagged.

(** C8, as the code has it.  On rows of unequal length and on empty rows,
    loading never raises, nor does the walk from section to section: in
    [fsw_file_namer_H.py] no callback raises while no save is asked for, and
    in [fsw_file_namer_V.py] none raises but a click on an option.  In
    [fsw_file_namer_H.py] each row is read on its own: its section is made of
    its own cells, few or none for a short or blank row, whatever the other
    rows are.  In [fsw_file_namer_V.py] the table is cut to its shortest row:
    there is a column [j] only if every row has a cell [j], so a short row
    drops the cells of the longer rows from its length on, and no cell is
    padded; a rectangular table is kept whole.  The sections walked are
    those of the columns that are left, the first one and then those with a
    header, in order; with an empty row none is left, and no section is ever
    shown. *)
Theorem ragged_rows_are_not_padded :
  (forall text writable seed,
     H.run_file_reader text writable seed
     = Done (H.start text writable seed)) /\
  (forall st : H.state,
     match H.lines st !! H.current_line st with
     | Some line =>
         exists st',
           H.update_buttons st = Done st' /\
           H.colstr1 st' :: H.buttons st' = H.cells line
     | None => H.update_buttons st = Done (H.root_quit st)
     end) /\
  (forall text writable seed events e,
     Forall (fun e => e <> H.ToggleSave) events ->
     exists st',
       H.handle e (H.mainloop events (H.start text writable seed))
       = Done st') /\
  (forall data, (V.read_and_transpose_file data).1 = data) /\
  (forall data j col,
     (V.read_and_transpose_file data).2 !! j = Some col <->
     data <> [] /\ Forall2 (fun row cell => row !! j = Some cell) data col) /\
  (forall data row j,
     row ∈ data -> length row <= j ->
     (V.read_and_transpose_file data).2 !! j = None) /\
  (forall data n,
     data <> [] -> rectangular n data ->
     length (V.read_and_transpose_file data).2 = n) /\
  (forall data seed events,
     Forall (fun e => forall position, e <> V.Click position) events ->
     let st := V.mainloop events (V.run_file_reader data seed) in
     let sections :=
       (section_of <$> take 1 (V.read_and_transpose_file data).2)
       ++ labeled_sections (drop 1 (V.read_and_transpose_file data).2) in
     reverse (V.shown st) ++ still_to_show st = sections /\
     (V.quit st = true -> reverse (V.shown st) = sections) /\
     ([] ∈ data -> V.shown st = []) /\
     forall e, (forall position, e <> V.Click position) ->
               exists st', V.handle e st = Done st').
Proof.
  split_and!.
  - apply H_run_file_reader_done.
  - intros st. pose proof (update_buttons_spec st) as Hspec.
    destruct (H.lines st !! H.current_line st) as [line|]; [|done].
    destruct Hspec as (label & options & -> & ->). by eexists.
  - intros text writable seed events e Hevents.
    apply H_handle_without_save_done.
    apply mainloop_without_save; [|done]. apply H_start_saveFlag.
  - done.
  - intros data j col. apply zip_star_lookup_iff.
  - intros data row j. apply zip_star_short_row.
  - intros data n. apply zip_star_length.
  - intros data seed events Hevents st sections.
    destruct (V_walk_start data seed) as (Htr & Hq & Hstart).
    destruct (V_walk_mainloop sections events _ Hevents Htr Hstart)
      as (_ & Hwalk & Hend); [congruence|].
    fold st in Hwalk, Hend. unfold walk_all in Hwalk.
    split_and!.
    + done.
    + intros Hquit. rewrite (Hend Hquit), app_nil_r in Hwalk. done.
    + intros Hempty.
      assert (zip_star data = []) as Hz.
      { pose proof (zip_star_short_row data [] 0 Hempty (le_n 0)) as Hnone.
        by destruct (zip_star data). }
      subst sections. cbn [V.read_and_transpose_file snd] in Hwalk.
      rewrite Hz in Hwalk. cbn in Hwalk.
      apply app_eq_nil in Hwalk as [Hshown _].
      apply (f_equal reverse) in Hshown.
      by rewrite reverse_involutive in Hshown.
    + intros e He. destruct e as [position| | |]; cbn [V.handle];
        [by destruct (He position)|by eexists..].
Qed.

Lemma ragged_rows_are_not_padded_witness :
  (exists st',
     H.handle H.Enter
       (H.mainloop [H.Click 0; H.Enter]
          (H.start ("Freq,2.4,5.1" +:+ nl +:+ nl +:+ "Mod" +:+ nl)
             false "seed"))
     = Done st') /\
  (V.read_and_transpose_file [["Tests"; "Freq"; "Ver"]; ["PSD"; "2.4"]]).2 !! 2
  = None /\
  length (V.read_and_transpose_file
            [["Tests"; "Freq"; "Ver"]; ["PSD"; "2.4"; "1"]]).2 = 3 /\
  (let data := [["Tests"; "Freq"; "Ver"]; ["PSD"; "2.4"]] in
   let st :=
     V.mainloop [V.Type_ "PSD"; V.Enter; V.Enter]
       (V.run_file_reader data "seed") in
   reverse (V.shown st) ++ still_to_show st
   = (section_of <$> take 1 (V.read_and_transpose_file data).2)
     ++ labeled_sections (drop 1 (V.read_and_transpose_file data).2)).
Proof.
  pose proof ragged_rows_are_not_padded
    as (_ & _ & Hwalk & _ & _ & Hshort & Hrect & Hsections).
  split_and!.
  - apply Hwalk. repeat constructor; discriminate.
  - apply (Hshort _ ["PSD"; "2.4"]).
    + apply list_elem_of_In. right. left. reflexivity.
    + apply le_n.
  - apply Hrect; [discriminate|repeat constructor].
  - intros data st.
    destruct (Hsections data "seed" [V.Type_ "PSD"; V.Enter; V.Enter])
      as [Hall _]; [|exact Hall].
    repeat constructor; intros position; discriminate.
Defined.

(** C8 fails in [fsw_file_namer_V.py]: a short row drops the column "Freq"
    of the other row, where the same table with the missing cell padded
    shows it; an empty row leaves nothing to show; and on a ragged table a
    click can raise [IndexError]. *)
Lemma ragged_table_loses_a_column :
  let ragged := [["Tests"; "Freq"]; ["PSD"]] in
  let padded := [["Tests"; "Freq"]; ["PSD"; ""]] in
  V.shown (V.mainloop [V.Enter; V.Enter] (V.run_file_reader ragged "seed"))
  = [("Tests", ["PSD"])] /\
  V.shown (V.mainloop [V.Enter; V.Enter] (V.run_file_reader padded "seed"))
  = [("Freq", []); ("Tests", ["PSD"])] /\
  V.shown (V.run_file_reader [["Tests"; "Freq"]; []] "seed") = [] /\
  exists st',
    V.handle (V.Click 0)
      (V.run_file_reader [["A"; ""]; ["x"; "s"; "t"]] "seed")
    = Raised IndexError st'.
Proof. vm_compute. split_and!; [done..|]. by eexists. Qed.

